(** * The image gateway of [server.js]

    A shallow embedding of the five route handlers of [src/server.js]
    (GET /images, POST /upload, DELETE /images/:id, POST /upload-profile,
    GET /profile-image/:user_id) and the properties of their behaviour.

    The handlers are glue between three things: the request, the local
    file system (the transient file written by multer) and the Supabase
    client.  The embedding keeps that shape:

    - a handler is a computation in a state-and-exception monad over a
      [World]: the local files, the state of the remote backend, the list
      of requests issued so far and the console;
    - every awaited Supabase request is a [Call]; what the backend answers
      is given by a function [Backend S], over which the handlers and most
      theorems are generic.  The client reports a failure in the [error]
      of its answer and does not throw;
    - JavaScript values that leave the process ([res.json], the rows given
      to [insert] and [update]) are [JsValue]s passed through
      [JSON_stringify];
    - a handler runs from its request to its answer without another
      request of the gateway in between;
    - [Mem] is a reference backend (tables and buckets in memory, with
      injectable failures) and [Node] a concrete platform, used where a
      property speaks about stored records and to run the handlers on
      concrete requests. *)

From Stdlib Require Import ZArith NArith String Ascii List Bool Lia.
From Stdlib Require Import DecimalString SpecFloat.
From Stdlib Require DecimalN.
From stdpp Require Import base option list gmap strings.

Local Open Scope list_scope.
Local Open Scope string_scope.
Set Warnings "-register-all".

(** ** JavaScript values *)

(** An error object: [error.code] (absent on most errors) and
    [error.message]. *)
Record JsError := mkError { code : option string; message : string }.

(** JavaScript numbers are IEEE 754 doubles: zeros, finite numbers,
    infinities and NaN. *)
Abbreviation number := spec_float.

Definition NaN : number := S754_nan.

(** [!!x] for a number: [0], [-0] and [NaN] are falsy. *)
Definition truthy_number (x : number) : bool :=
  match x with
  | S754_zero _ | S754_nan => false
  | S754_infinity _ | S754_finite _ _ _ => true
  end.

(** [Number.isFinite]. *)
Definition isFinite (x : number) : bool :=
  match x with
  | S754_zero _ | S754_finite _ _ _ => true
  | S754_infinity _ | S754_nan => false
  end.

(** [!!s] for a string taken from a request, [undefined] when the field is
    absent: only a non-empty string is truthy. *)
Definition truthy (s : option string) : bool :=
  match s with
  | Some (String _ _) => true
  | Some EmptyString | None => false
  end.

(** [`${s}`] for such a field. *)
Definition template (s : option string) : string :=
  match s with
  | Some s => s
  | None => "undefined"
  end.

(** [a || b] on strings. *)
Definition or_else (a : option string) (b : string) : string :=
  match a with
  | Some (String _ _ as s) => s
  | _ => b
  end.

(** [s.startsWith(p)]. *)
Definition startsWith (s p : string) : bool := String.prefix p s.

(** The values the handlers build in object literals. *)
Inductive JsValue :=
| JNull
| JBool (b : bool)
| JNum (x : number)
| JStr (s : string)
| JArr (items : list JsValue)
| JObj (fields : list (string * JsValue)).

(** A number as [JSON.stringify] writes it, read back: a number that is
    not finite is written as [null], a negative zero as [0]. *)
Definition JSON_number (x : number) : JsValue :=
  match x with
  | S754_zero _ => JNum (S754_zero false)
  | S754_finite _ _ _ => JNum x
  | S754_infinity _ | S754_nan => JNull
  end.

(** What [JSON.stringify] writes for a value, read back. *)
Fixpoint JSON_stringify (v : JsValue) : JsValue :=
  match v with
  | JNum x => JSON_number x
  | JArr items => JArr (List.map JSON_stringify items)
  | JObj fields => JObj (List.map (fun kv => (fst kv, JSON_stringify (snd kv))) fields)
  | JNull | JBool _ | JStr _ => v
  end.

(** [obj.k] on an object read from JSON. *)
Fixpoint assoc (k : string) (fields : list (string * JsValue)) : option JsValue :=
  match fields with
  | [] => None
  | (k', v) :: rest => if String.eqb k k' then Some v else assoc k rest
  end.

Definition field (k : string) (v : JsValue) : option JsValue :=
  match v with
  | JObj fields => assoc k fields
  | _ => None
  end.

(** A nullable string column as a value. *)
Definition js_string (s : option string) : JsValue :=
  match s with
  | Some s => JStr s
  | None => JNull
  end.

(** [s || null] for a nullable string. *)
Definition string_or_null (s : option string) : JsValue :=
  if truthy s then js_string s else JNull.

(** [x || null] for a nullable number. *)
Definition number_or_null (x : option number) : JsValue :=
  match x with
  | Some x => if truthy_number x then JNum x else JNull
  | None => JNull
  end.

(** [Date.now()] in a template literal: the decimal digits. *)
Definition decimal (n : N) : string := NilEmpty.string_of_uint (N.to_uint n).

(** ** What the platform provides

    Pure functions of the JavaScript runtime and of the Supabase client
    whose code is not part of the repository. *)
Class Platform := {
  (** the built-in [parseFloat]; [NaN] when no prefix of the text is a
      number *)
  parseFloat : string -> number;
  (** [new Date(ms).toISOString()] *)
  toISOString : N -> string;
  (** [supabase.storage.from(bucket).getPublicUrl(path).data.publicUrl]:
      computed locally from the configured project URL, never fails *)
  getPublicUrl : string -> string -> string
}.

(** ** Requests and responses *)

(** [req.file] as multer's [upload.single('image')] leaves it. *)
Record UploadedFile := {
  path : string;
  originalname : option string;
  mimetype : string
}.

(** A request whose [req.body] is an object, as that of every multipart
    request is: the file part, if any, and the text fields of [req.body]
    that the handlers read.  A request without body is [None] in
    [upload_route] below. *)
Record UploadRequest := {
  file : option UploadedFile;
  user_id : option string;
  latitude : option string;
  longitude : option string;
  analysis : option string
}.

(** [res.status(status).json(body)]. *)
Record Response := { status : N; body : JsValue }.

(** ** Requests to the backend *)

Record UploadOptions := {
  cacheControl : string;
  upsert : bool;
  contentType : string
}.

(** A row of the [images] table as [select('*')] returns it. *)
Record ImageRow := {
  image_id : string;
  image_url : string;
  image_user_id : option string;
  image_created_at : option string;
  image_latitude : option number;
  image_longitude : option number;
  image_analysis : option string
}.

(** Every awaited expression of [server.js], and the clock. *)
Inductive Call :=
| DateNow
    (* Date.now(), new Date() *)
| SelectImages
    (* from('images').select('*').order('created_at', {ascending: false}) *)
| CreateSignedUrl (bucket key : string) (expiresIn : N)
    (* storage.from(bucket).createSignedUrl(key, expiresIn) *)
| StorageUpload (bucket key : string) (content : string) (options : UploadOptions)
    (* storage.from(bucket).upload(key, content, options) *)
| StorageRemove (bucket : string) (keys : list string)
    (* storage.from(bucket).remove(keys) *)
| InsertImages (rows : JsValue)
    (* from('images').insert(rows).select() *)
| SelectImageUrl (id : string)
    (* from('images').select('url').eq('id', id).single() *)
| DeleteImage (id : string)
    (* from('images').delete().eq('id', id) *)
| DeleteMetadata (file_path : string)
    (* from('images_metadata').delete().eq('file_path', file_path) *)
| SelectUserId (firebase_id : string)
    (* from('users').select('id').eq('firebase_id', firebase_id).single() *)
| UpdateUsers (patch : JsValue) (firebase_id : string)
    (* from('users').update(patch).eq('firebase_id', firebase_id).select() *)
| InsertUsers (rows : JsValue)
    (* from('users').insert(rows).select() *)
| SelectUserProfileImage (firebase_id : string).
    (* from('users').select('profile_image_url').eq('firebase_id', firebase_id).single() *)

(** The client resolves every request to [{data, error}] with exactly one
    of the two set: it reports failures in [error] and does not throw. *)
Inductive Reply (A : Type) :=
| Success (data : A)
| Failure (error : JsError).
Arguments Success {A} data.
Arguments Failure {A} error.

Definition Answer (c : Call) : Type :=
  match c with
  | DateNow => N
  | SelectImages => Reply (list ImageRow)
  | CreateSignedUrl _ _ _ => Reply string
  | StorageUpload _ _ _ _ => Reply unit
  | StorageRemove _ _ => Reply unit
  | InsertImages _ => Reply (list ImageRow)
  | SelectImageUrl _ => Reply string
  | DeleteImage _ => Reply unit
  | DeleteMetadata _ => Reply unit
  | SelectUserId _ => Reply string
  | UpdateUsers _ _ => Reply unit
  | InsertUsers _ => Reply unit
  | SelectUserProfileImage _ => Reply (option string)
  end.

(** A backend with states [S] answers each call and moves on. *)
Definition Backend (S : Type) : Type := forall c : Call, S -> Answer c * S.

(** ** The world of a handler *)

Inductive Level := Info | Warn | Error.
Inductive Printed := PStr (s : string) | PErr (e : JsError).
Record LogEntry := { level : Level; printed : list Printed }.

Record World (S : Type) := mkWorld {
  fs : gmap string string;      (* local files: path to content *)
  remote : S;                   (* the backend *)
  trace : list Call;            (* requests issued, oldest first *)
  console : list LogEntry       (* console output, oldest first *)
}.
Arguments mkWorld {S}.
Arguments fs {S}.
Arguments remote {S}.
Arguments trace {S}.
Arguments console {S}.

(** A statement either completes with a value or throws. *)
Inductive Outcome (A : Type) :=
| Returned (a : A)
| Thrown (e : JsError).
Arguments Returned {A} a.
Arguments Thrown {A} e.

Definition M (S A : Type) : Type := World S -> Outcome A * World S.

#[global] Instance M_ret {S} : MRet (M S) := fun A a w => (Returned a, w).

#[global] Instance M_bind {S} : MBind (M S) := fun A B k m w =>
  match m w with
  | (Returned a, w') => k a w'
  | (Thrown e, w') => (Thrown e, w')
  end.

Definition throw {S A} (e : JsError) : M S A := fun w => (Thrown e, w).

(** [try { body } catch (error) { handler }]. *)
Definition try_catch {S A} (body : M S A) (handler : JsError -> M S A) : M S A :=
  fun w =>
    match body w with
    | (Returned a, w') => (Returned a, w')
    | (Thrown e, w') => handler e w'
    end.

(** [if (error) throw error;] followed by the use of [data]. *)
Definition or_throw {S A} (r : Reply A) : M S A :=
  match r with
  | Success data => mret data
  | Failure error => throw error
  end.

Definition console_write {S} (l : Level) (p : list Printed) : M S unit :=
  fun w => (Returned tt,
            mkWorld (fs w) (remote w) (trace w) (console w ++ [{| level := l; printed := p |}])).

(** *** The [fs] module *)

Definition ENOENT (syscall p : string) : JsError :=
  {| code := Some "ENOENT";
     message := "ENOENT: no such file or directory, " ++ syscall ++ " '" ++ p ++ "'" |}.

Definition readFileSync {S} (p : string) : M S string := fun w =>
  match fs w !! p with
  | Some content => (Returned content, w)
  | None => (Thrown (ENOENT "open" p), w)
  end.

Definition existsSync {S} (p : string) : M S bool := fun w =>
  (Returned (bool_decide (is_Some (fs w !! p))), w).

Definition unlinkSync {S} (p : string) : M S unit := fun w =>
  match fs w !! p with
  | Some _ => (Returned tt, mkWorld (delete p (fs w)) (remote w) (trace w) (console w))
  | None => (Thrown (ENOENT "unlink" p), w)
  end.

(** Reading a property of [undefined]. *)
Definition TypeError (property : string) : JsError :=
  {| code := None;
     message := "Cannot read properties of undefined (reading '" ++ property ++ "')" |}.

(** ** The handlers *)

Section Gateway.
Context `{Platform} {S : Type} (supabase : Backend S).

(** [await] of a request to the backend (and a reading of the clock):
    the backend answers and the request is recorded. *)
Definition call (c : Call) : M S (Answer c) := fun w =>
  let (answer, remote') := supabase c (remote w) in
  (Returned answer, mkWorld (fs w) remote' (trace w ++ [c]) (console w)).

(** *** GET /images *)

(** The object literal returned for an image, which the handler writes
    three times with different [url]s. *)
Definition image_view (image : ImageRow) (url : string) : JsValue :=
  JObj [ ("id", JStr (image_id image));
         ("url", JStr url);
         ("user_id", js_string (image_user_id image));
         ("created_at", js_string (image_created_at image));
         ("latitude", number_or_null (image_latitude image));
         ("longitude", number_or_null (image_longitude image));
         ("analysis", string_or_null (image_analysis image)) ].

(** The callback of [images.map]. *)
Definition image_with_url (image : ImageRow) : M S JsValue :=
  console_write Info
    [PStr ("Processando imagem " ++ image_id image ++ " - " ++ image_url image)];;
  if startsWith (image_url image) "http" then
    console_write Info
      [PStr ("Imagem " ++ image_id image ++ " já tem URL pública: " ++ image_url image)];;
    mret (image_view image (image_url image))
  else
    console_write Info [PStr ("Gerando URL assinada para: " ++ image_url image)];;
    reply ← call (CreateSignedUrl "imagens" (image_url image) 3600);
    match reply with
    | Failure urlError =>
        console_write Error
          [PStr ("Erro ao gerar URL para imagem " ++ image_id image ++ ":"); PErr urlError];;
        let publicUrl := getPublicUrl "imagens" (image_url image) in
        mret (image_view image publicUrl)
    | Success signedUrl =>
        mret (image_view image signedUrl)
    end.

(** The callbacks issue their requests in the order of the list and do
    not depend on one another; [Promise.all] collects their results in
    that order and rejects when one of them throws. *)
Definition get_images : M S Response :=
  try_catch
    (console_write Info [PStr "Buscando imagens no banco de dados..."];;
     reply ← call SelectImages;
     images ← or_throw reply;
     console_write Info
       [PStr ("Encontradas " ++ decimal (N.of_nat (length images))
                ++ " imagens no banco de dados")];;
     imagesWithUrls ← mapM image_with_url images;
     console_write Info [PStr "Imagens processadas com sucesso"];;
     mret {| status := 200; body := JSON_stringify (JArr imagesWithUrls) |})
    (fun error =>
       console_write Error [PStr "Erro ao buscar imagens:"; PErr error];;
       mret {| status := 500;
               body := JSON_stringify
                 (JObj [ ("error", JStr "Erro ao buscar imagens");
                         ("details", JStr (message error)) ]) |}).

(** *** POST /upload *)

(** [s ? parseFloat(s) : null]. *)
Definition parsed_or_null (s : option string) : JsValue :=
  if truthy s then JNum (parseFloat (template s)) else JNull.

(** The [catch] block shared in shape by the two upload handlers. *)
Definition upload_failed (req : UploadRequest) (logged generic : string)
    (error : JsError) : M S Response :=
  console_write Error [PStr logged; PErr error];;
  match file req with
  | Some f =>
      present ← existsSync (path f);
      if (present : bool) then unlinkSync (path f) else mret tt
  | None => mret tt
  end;;
  mret {| status := 500;
          body := JSON_stringify
            (JObj [ ("error", JStr generic); ("details", JStr (message error)) ]) |}.

Definition post_upload (req : UploadRequest) : M S Response :=
  try_catch
    (match file req with
     | None =>
         mret {| status := 400;
                 body := JSON_stringify (JObj [("error", JStr "Nenhuma imagem enviada")]) |}
     | Some f =>
         if negb (truthy (user_id req)) then
           mret {| status := 400;
                   body := JSON_stringify (JObj [("error", JStr "user_id é obrigatório")]) |}
         else
           fileBuffer ← readFileSync (path f);
           now ← call DateNow;
           let fileName := decimal now ++ "_" ++ or_else (originalname f) "image.jpg" in
           let filePath := "images/" ++ fileName in
           uploaded ← call (StorageUpload "imagens" filePath fileBuffer
                              {| cacheControl := "3600";
                                 upsert := false;
                                 contentType := mimetype f |});
           or_throw uploaded;;
           let publicUrl := getPublicUrl "imagens" filePath in
           console_write Info [PStr "URL pública gerada:"; PStr publicUrl];;
           created ← call DateNow;
           inserted ← call (InsertImages (JSON_stringify
              (JArr [ JObj [ ("user_id", js_string (user_id req));
                             ("url", JStr filePath);
                             ("latitude", parsed_or_null (latitude req));
                             ("longitude", parsed_or_null (longitude req));
                             ("analysis", string_or_null (analysis req));
                             ("created_at", JStr (toISOString created)) ] ])));
           insertData ← or_throw inserted;
           unlinkSync (path f);;
           match insertData with
           | [] => throw (TypeError "id")
           | first :: _ =>
               mret {| status := 200;
                       body := JSON_stringify
                         (JObj [ ("message", JStr "Upload realizado com sucesso!");
                                 ("imageId", JStr (image_id first));
                                 ("imageUrl", JStr publicUrl);
                                 ("latitude", parsed_or_null (latitude req));
                                 ("longitude", parsed_or_null (longitude req));
                                 ("analysis", string_or_null (analysis req)) ]) |}
           end
     end)
    (upload_failed req "Erro no upload:" "Erro ao fazer upload da imagem").

(** *** DELETE /images/:id *)

Definition delete_image (id : string) : M S Response :=
  try_catch
    (console_write Info [PStr ("Iniciando exclusão da imagem " ++ id)];;
     fetched ← call (SelectImageUrl id);
     match fetched with
     | Failure _ =>
         (* fetchError || !image *)
         mret {| status := 404;
                 body := JSON_stringify (JObj [("error", JStr "Imagem não encontrada")]) |}
     | Success url =>
         console_write Info [PStr ("Deletando arquivo do storage: " ++ url)];;
         removed ← call (StorageRemove "imagens" [url]);
         match removed with
         | Failure deleteStorageError =>
             console_write Error [PStr "Erro ao deletar do storage:"; PErr deleteStorageError]
         | Success _ => mret tt
         end;;
         deleted ← call (DeleteImage id);
         or_throw deleted;;
         try_catch
           (metadata ← call (DeleteMetadata url);
            match metadata with
            | Failure deleteMetadataError =>
                console_write Warn [PStr "Erro ao deletar metadata:"; PErr deleteMetadataError]
            | Success _ => mret tt
            end)
           (fun metadataError =>
              console_write Warn [PStr "Erro ao deletar metadata:"; PErr metadataError]);;
         console_write Info [PStr ("Imagem " ++ id ++ " excluída com sucesso")];;
         mret {| status := 200; body := JSON_stringify (JObj [("success", JBool true)]) |}
     end)
    (fun error =>
       console_write Error [PStr "Erro ao excluir imagem:"; PErr error];;
       mret {| status := 500;
               body := JSON_stringify
                 (JObj [ ("error", JStr "Erro ao excluir imagem");
                         ("details", JStr (message error)) ]) |}).

(** *** POST /upload-profile *)

Definition post_upload_profile (req : UploadRequest) : M S Response :=
  try_catch
    (match file req with
     | None =>
         mret {| status := 400;
                 body := JSON_stringify (JObj [("error", JStr "Nenhuma imagem enviada")]) |}
     | Some f =>
         if negb (truthy (user_id req)) then
           mret {| status := 400;
                   body := JSON_stringify (JObj [("error", JStr "user_id é obrigatório")]) |}
         else
           fileBuffer ← readFileSync (path f);
           let fileName := "profile_" ++ template (user_id req) ++ ".jpg" in
           let filePath := fileName in
           uploaded ← call (StorageUpload "profiles" filePath fileBuffer
                              {| cacheControl := "3600";
                                 upsert := true;
                                 contentType := mimetype f |});
           or_throw uploaded;;
           let publicUrl := getPublicUrl "profiles" filePath in
           console_write Info [PStr "URL pública da imagem de perfil:"; PStr publicUrl];;
           found ← call (SelectUserId (template (user_id req)));
           existingUser ←
             match found with
             | Failure findError =>
                 if negb (bool_decide (code findError = Some "PGRST116"))
                 then throw findError
                 else mret None
             | Success user => mret (Some user)
             end;
           match existingUser with
           | Some _ =>
               updated ← call (UpdateUsers
                           (JSON_stringify (JObj [("profile_image_url", JStr publicUrl)]))
                           (template (user_id req)));
               or_throw updated
           | None =>
               created ← call DateNow;
               inserted ← call (InsertUsers (JSON_stringify
                  (JArr [ JObj [ ("firebase_id", js_string (user_id req));
                                 ("profile_image_url", JStr publicUrl);
                                 ("created_at", JStr (toISOString created)) ] ])));
               or_throw inserted
           end;;
           unlinkSync (path f);;
           mret {| status := 200;
                   body := JSON_stringify
                     (JObj [ ("message", JStr "Imagem de perfil atualizada com sucesso!");
                             ("profileImageUrl", JStr publicUrl) ]) |}
     end)
    (upload_failed req "Erro no upload de perfil:" "Erro ao fazer upload da imagem de perfil").

(** *** GET /profile-image/:user_id *)

Definition get_profile_image (user_id : string) : M S Response :=
  try_catch
    (fetched ← call (SelectUserProfileImage user_id);
     match fetched with
     | Failure error =>
         if bool_decide (code error = Some "PGRST116") then
           mret {| status := 404;
                   body := JSON_stringify (JObj [("error", JStr "Usuário não encontrado")]) |}
         else throw error
     | Success profile_image_url =>
         if negb (truthy profile_image_url) then
           mret {| status := 404;
                   body := JSON_stringify
                     (JObj [("error", JStr "Imagem de perfil não encontrada")]) |}
         else if startsWith (template profile_image_url) "http" then
           mret {| status := 200;
                   body := JSON_stringify
                     (JObj [("profileImageUrl", js_string profile_image_url)]) |}
         else
           let publicUrl := getPublicUrl "profiles" (template profile_image_url) in
           mret {| status := 200;
                   body := JSON_stringify (JObj [("profileImageUrl", JStr publicUrl)]) |}
     end)
    (fun error =>
       console_write Error [PStr "Erro ao buscar imagem de perfil:"; PErr error];;
       mret {| status := 500;
               body := JSON_stringify
                 (JObj [ ("error", JStr "Erro ao buscar imagem de perfil");
                         ("details", JStr (message error)) ]) |}).

(** *** Requests without body

    Both upload handlers begin, inside [try], with
    [const { user_id, ... } = req.body].  Multer sets [req.body] to an
    object for every multipart request, and up to Express 4 the body
    parsers do so for every other request.  From Express 5 on,
    [req.body] is [undefined] when no parser has read a body; the
    request is then not multipart, so that [req.file] is [undefined]
    too, and the destructuring throws into the [catch] block. *)
Definition undefined_body : JsError :=
  {| code := None;
     message := "Cannot destructure property 'user_id' of 'req.body' as it is undefined." |}.

(** The request that carries nothing. *)
Definition no_parts : UploadRequest :=
  {| file := None; user_id := None; latitude := None; longitude := None;
     analysis := None |}.

(** An upload handler on a request as Express hands it over: [Some req]
    when [req.body] is an object, [None] when it is [undefined]. *)
Definition received (handler : UploadRequest -> M S Response) (logged generic : string)
    (req : option UploadRequest) : M S Response :=
  match req with
  | Some req => handler req
  | None => try_catch (throw undefined_body) (upload_failed no_parts logged generic)
  end.

Definition upload_route : option UploadRequest -> M S Response :=
  received post_upload "Erro no upload:" "Erro ao fazer upload da imagem".

Definition upload_profile_route : option UploadRequest -> M S Response :=
  received post_upload_profile "Erro no upload de perfil:"
    "Erro ao fazer upload da imagem de perfil".

End Gateway.

(** ** A reference backend

    The repository delegates all persistence to Supabase.  [Mem] is a model
    of that collaborator, not of code of the repository: the two tables and
    the storage buckets held in memory, answering as PostgREST and the
    storage service do, and failing where a schedule of faults says so.
    Nothing in it enforces that [firebase_id] is unique. *)
Module Mem.

Record UserRow := {
  user_row_id : string;
  firebase_id : string;
  profile_image_url : option string;
  user_created_at : option string
}.

Record State := mkState {
  images : list ImageRow;
  users : list UserRow;
  images_metadata : list string;             (* the file_path column *)
  objects : gmap (string * string) string;   (* (bucket, key) to content *)
  next_id : N;                               (* source of fresh identifiers *)
  clock : N;                                 (* milliseconds since the epoch *)
  faults : list (option JsError)             (* one entry per request, in order *)
}.

Definition PGRST116 : JsError :=
  {| code := Some "PGRST116";
     message := "JSON object requested, multiple (or no) rows returned" |}.

(** The state once the entry of the schedule for the current request is
    consumed. *)
Definition consume (st : State) : State :=
  mkState (images st) (users st) (images_metadata st) (objects st)
    (next_id st) (clock st) (tail (faults st)).

(** A request fails with the fault scheduled for it, leaving the data as
    it was, or proceeds normally. *)
Definition request {A} (st : State) (normal : State -> Reply A * State)
    : Reply A * State :=
  match head (faults st) with
  | Some (Some e) => (Failure e, consume st)
  | Some None | None => normal (consume st)
  end.

(** [.single()]: exactly one row, or the error PGRST116. *)
Definition single {A} (rows : list A) : Reply A :=
  match rows with
  | [row] => Success row
  | _ => Failure PGRST116
  end.

Definition as_string (v : JsValue) : option string :=
  match v with JStr s => Some s | _ => None end.

Definition as_number (v : JsValue) : option number :=
  match v with JNum x => Some x | _ => None end.

Definition fresh_id (n : N) : string := decimal n.

(** [order('created_at', {ascending: false})]: newest first, rows without
    a timestamp before the others. *)
Definition not_older (a b : ImageRow) : bool :=
  match image_created_at a, image_created_at b with
  | None, _ => true
  | Some _, None => false
  | Some x, Some y => String.leb y x
  end.

Fixpoint place (row : ImageRow) (sorted : list ImageRow) : list ImageRow :=
  match sorted with
  | [] => [row]
  | r :: rest => if not_older row r then row :: sorted else r :: place row rest
  end.

Definition newest_first (rows : list ImageRow) : list ImageRow :=
  foldr place [] rows.

(** A row of [images] from an inserted object; the reference is
    mandatory. *)
Definition image_of (id : string) (row : JsValue) : option ImageRow :=
  match field "url" row with
  | Some (JStr url) =>
      Some {| image_id := id;
              image_url := url;
              image_user_id := field "user_id" row ≫= as_string;
              image_created_at := field "created_at" row ≫= as_string;
              image_latitude := field "latitude" row ≫= as_number;
              image_longitude := field "longitude" row ≫= as_number;
              image_analysis := field "analysis" row ≫= as_string |}
  | _ => None
  end.

Definition user_of (id : string) (row : JsValue) : option UserRow :=
  match field "firebase_id" row with
  | Some (JStr fid) =>
      Some {| user_row_id := id;
              firebase_id := fid;
              profile_image_url := field "profile_image_url" row ≫= as_string;
              user_created_at := field "created_at" row ≫= as_string |}
  | _ => None
  end.

(** The rows of an [insert], numbered from [n]. *)
Fixpoint rows_of {A} (make : string -> JsValue -> option A) (n : N)
    (rows : list JsValue) : option (list A) :=
  match rows with
  | [] => Some []
  | row :: rest =>
      match make (fresh_id n) row, rows_of make (N.succ n) rest with
      | Some r, Some rs => Some (r :: rs)
      | _, _ => None
      end
  end.

Definition bad_request : JsError :=
  {| code := Some "PGRST102"; message := "Invalid request body" |}.

Definition already_exists : JsError :=
  {| code := None; message := "The resource already exists" |}.

Definition object_not_found : JsError :=
  {| code := None; message := "Object not found" |}.

Definition signed_url (bucket key : string) (expiresIn : N) : string :=
  "https://project.supabase.co/storage/v1/object/sign/" ++ bucket ++ "/" ++ key
    ++ "?expires_in=" ++ decimal expiresIn.

Definition set_profile_image (patch : JsValue) (fid : string) (u : UserRow) : UserRow :=
  if String.eqb (firebase_id u) fid then
    match field "profile_image_url" patch with
    | Some v =>
        {| user_row_id := user_row_id u;
           firebase_id := firebase_id u;
           profile_image_url := as_string v;
           user_created_at := user_created_at u |}
    | None => u
    end
  else u.

Definition backend : Backend State := fun c =>
  match c as c return State -> Answer c * State with
  | DateNow => fun st =>
      (clock st,
       mkState (images st) (users st) (images_metadata st) (objects st)
         (next_id st) (N.succ (clock st)) (faults st))
  | SelectImages => fun st =>
      request st (fun st => (Success (newest_first (images st)), st))
  | CreateSignedUrl bucket key expiresIn => fun st =>
      request st (fun st =>
        match objects st !! (bucket, key) with
        | Some _ => (Success (signed_url bucket key expiresIn), st)
        | None => (Failure object_not_found, st)
        end)
  | StorageUpload bucket key content options => fun st =>
      request st (fun st =>
        match objects st !! (bucket, key) with
        | Some _ =>
            if upsert options then
              (Success tt,
               mkState (images st) (users st) (images_metadata st)
                 (<[(bucket, key) := content]> (objects st))
                 (next_id st) (clock st) (faults st))
            else (Failure already_exists, st)
        | None =>
            (Success tt,
             mkState (images st) (users st) (images_metadata st)
               (<[(bucket, key) := content]> (objects st))
               (next_id st) (clock st) (faults st))
        end)
  | StorageRemove bucket keys => fun st =>
      request st (fun st =>
        (Success tt,
         mkState (images st) (users st) (images_metadata st)
           (foldr (fun key objs => delete (bucket, key) objs) (objects st) keys)
           (next_id st) (clock st) (faults st)))
  | InsertImages rows => fun st =>
      request st (fun st =>
        match rows with
        | JArr items =>
            match rows_of image_of (next_id st) items with
            | Some new =>
                (Success new,
                 mkState (images st ++ new) (users st) (images_metadata st) (objects st)
                   (next_id st + N.of_nat (length new)) (clock st) (faults st))
            | None => (Failure bad_request, st)
            end
        | _ => (Failure bad_request, st)
        end)
  | SelectImageUrl id => fun st =>
      request st (fun st =>
        (single (List.map image_url
                   (List.filter (fun r => String.eqb (image_id r) id) (images st))),
         st))
  | DeleteImage id => fun st =>
      request st (fun st =>
        (Success tt,
         mkState (List.filter (fun r => negb (String.eqb (image_id r) id)) (images st))
           (users st) (images_metadata st) (objects st)
           (next_id st) (clock st) (faults st)))
  | DeleteMetadata file_path => fun st =>
      request st (fun st =>
        (Success tt,
         mkState (images st) (users st)
           (List.filter (fun p => negb (String.eqb p file_path)) (images_metadata st))
           (objects st) (next_id st) (clock st) (faults st)))
  | SelectUserId fid => fun st =>
      request st (fun st =>
        (single (List.map user_row_id
                   (List.filter (fun u => String.eqb (firebase_id u) fid) (users st))),
         st))
  | UpdateUsers patch fid => fun st =>
      request st (fun st =>
        (Success tt,
         mkState (images st) (List.map (set_profile_image patch fid) (users st))
           (images_metadata st) (objects st) (next_id st) (clock st) (faults st)))
  | InsertUsers rows => fun st =>
      request st (fun st =>
        match rows with
        | JArr items =>
            match rows_of user_of (next_id st) items with
            | Some new =>
                (Success tt,
                 mkState (images st) (users st ++ new) (images_metadata st) (objects st)
                   (next_id st + N.of_nat (length new)) (clock st) (faults st))
            | None => (Failure bad_request, st)
            end
        | _ => (Failure bad_request, st)
        end)
  | SelectUserProfileImage fid => fun st =>
      request st (fun st =>
        (single (List.map profile_image_url
                   (List.filter (fun u => String.eqb (firebase_id u) fid) (users st))),
         st))
  end.

End Mem.

(** ** A platform to run the handlers on

    Concrete stand-ins for the three platform functions, for running the
    handlers on explicit requests.  The theorems quantify over every
    [Platform]. *)
Module Node.

Definition digit (c : ascii) : option N :=
  let n := N_of_ascii c in
  if (48 <=? n)%N && (n <=? 57)%N then Some (n - 48)%N else None.

(** The value of the longest run of decimal digits at the start of [s],
    [acc] being the value read so far. *)
Fixpoint leading_digits (s : string) (acc : option N) : option N :=
  match s with
  | String c rest =>
      match digit c with
      | Some d => leading_digits rest (Some (10 * default 0 acc + d)%N)
      | None => acc
      end
  | EmptyString => acc
  end.

(** The double nearest to an integer. *)
Definition of_integer (negative : bool) (n : N) : number :=
  match n with
  | N0 => S754_zero negative
  | Npos p => binary_normalize 53 1024 (if negative then Zneg p else Zpos p) 0 false
  end.

(** [parseFloat] on texts whose numeric prefix is an optionally signed
    run of digits; fractions and exponents are not read.  [NaN] when the
    text does not start with a number. *)
Definition parseFloat (s : string) : number :=
  let (negative, rest) :=
    match s with
    | String "-" rest => (true, rest)
    | String "+" rest => (false, rest)
    | _ => (false, s)
    end in
  match leading_digits rest None with
  | Some n => of_integer negative n
  | None => NaN
  end.

(** [s] with zeros in front up to [width] characters. *)
Fixpoint pad (fuel width : nat) (s : string) : string :=
  match fuel with
  | O => s
  | Datatypes.S fuel' =>
      if (String.length s <? width)%nat then pad fuel' width ("0" ++ s) else s
  end.

Definition digits (width : nat) (n : Z) : string :=
  pad width width (decimal (Z.to_N n)).

(** Year, month and day of a day number counted from 1970-01-01
    (proleptic Gregorian calendar). *)
Definition civil (day : Z) : Z * Z * Z :=
  let z := (day + 719468)%Z in
  let era := (z / 146097)%Z in
  let doe := (z - era * 146097)%Z in
  let yoe := ((doe - doe / 1460 + doe / 36524 - doe / 146096) / 365)%Z in
  let doy := (doe - (365 * yoe + yoe / 4 - yoe / 100))%Z in
  let mp := ((5 * doy + 2) / 153)%Z in
  let d := (doy - (153 * mp + 2) / 5 + 1)%Z in
  let m := (if mp <? 10 then mp + 3 else mp - 9)%Z in
  let y := (yoe + era * 400 + (if m <=? 2 then 1 else 0))%Z in
  (y, m, d).

(** [toISOString] for the years 1970 to 9999. *)
Definition toISOString (ms : N) : string :=
  let t := Z.of_N ms in
  let '(y, m, d) := civil (t / 86400000) in
  let r := (t mod 86400000)%Z in
  digits 4 y ++ "-" ++ digits 2 m ++ "-" ++ digits 2 d ++ "T"
    ++ digits 2 (r / 3600000) ++ ":" ++ digits 2 (r / 60000 mod 60) ++ ":"
    ++ digits 2 (r / 1000 mod 60) ++ "." ++ digits 3 (r mod 1000) ++ "Z".

(** The public URL of an object, as the storage client composes it from
    the project URL. *)
Definition getPublicUrl (bucket key : string) : string :=
  "https://project.supabase.co/storage/v1/object/public/" ++ bucket ++ "/" ++ key.

#[export] Instance platform : Platform :=
  Build_Platform parseFloat toISOString getPublicUrl.

End Node.

(** ** Scenarios

    Concrete requests and worlds on the reference backend and the platform
    [Node], on which the properties are exercised. *)
Module Scenario.

#[local] Existing Instance Node.platform.

Definition cat : UploadedFile :=
  {| path := "/tmp/uploads/3f2a"; originalname := Some "cat.png"; mimetype := "image/png" |}.

Definition dog : UploadedFile :=
  {| path := "/tmp/uploads/9b1c"; originalname := None; mimetype := "image/jpeg" |}.

(** A photo with a latitude that is not a number and a longitude of 12. *)
Definition photo : UploadRequest :=
  {| file := Some cat; user_id := Some "u1";
     latitude := Some "abc"; longitude := Some "12"; analysis := None |}.

(** The same file sent without [user_id]. *)
Definition anonymous : UploadRequest :=
  {| file := Some cat; user_id := None;
     latitude := None; longitude := None; analysis := None |}.

(** A second picture for the same user. *)
Definition portrait : UploadRequest :=
  {| file := Some dog; user_id := Some "u1";
     latitude := None; longitude := None; analysis := None |}.

Definition files : gmap string string :=
  <["/tmp/uploads/3f2a" := "PNG"]> (<["/tmp/uploads/9b1c" := "JPEG"]> ∅).

Definition empty : Mem.State :=
  Mem.mkState [] [] [] ∅ 1 1700000000000 [].

Definition start : World Mem.State := mkWorld files empty [] [].

(** Three stored images: one with a full URL, a zero latitude and an
    empty analysis; one whose object is in the bucket; one whose object
    is missing, so that signing fails. *)
Definition linked : ImageRow :=
  {| image_id := "1"; image_url := "https://cdn.example/x.jpg";
     image_user_id := Some "u1"; image_created_at := Some "2023-11-14T22:13:20.003Z";
     image_latitude := Some (S754_zero false);
     image_longitude := Some (S754_zero true);
     image_analysis := Some "" |}.

Definition kept : ImageRow :=
  {| image_id := "2"; image_url := "images/1_a.png";
     image_user_id := Some "u1"; image_created_at := Some "2023-11-14T22:13:20.002Z";
     image_latitude := None; image_longitude := None; image_analysis := Some "a cat" |}.

Definition lost : ImageRow :=
  {| image_id := "3"; image_url := "images/2_b.png";
     image_user_id := Some "u2"; image_created_at := Some "2023-11-14T22:13:20.001Z";
     image_latitude := None; image_longitude := None; image_analysis := None |}.

Definition gallery_state (faults : list (option JsError)) : Mem.State :=
  Mem.mkState [linked; kept; lost] [] ["images/1_a.png"]
    (<[("imagens", "images/1_a.png") := "PNG"]> ∅) 4 1700000000000 faults.

Definition gallery : World Mem.State := mkWorld ∅ (gallery_state []) [] [].

Definition connection_refused : JsError :=
  {| code := Some "08006"; message := "connection refused" |}.

Definition storage_down : JsError :=
  {| code := None; message := "storage unavailable" |}.

(** The store is unreachable when the next request arrives. *)
Definition outage : World Mem.State :=
  mkWorld ∅ (gallery_state [Some connection_refused]) [] [].

(** The storage service and the metadata table fail; the tables do not. *)
Definition degraded : World Mem.State :=
  mkWorld ∅ (gallery_state [None; Some storage_down; None; Some connection_refused]) [] [].

(** A user without a picture. *)
Definition bare_user : Mem.UserRow :=
  {| Mem.user_row_id := "1"; Mem.firebase_id := "u2";
     Mem.profile_image_url := None; Mem.user_created_at := None |}.

Definition registry : World Mem.State :=
  mkWorld ∅ (Mem.mkState [] [bare_user] [] ∅ 2 1700000000000 []) [] [].

End Scenario.

(** ** Notions used in the statements *)

Section Stored.
Context `{Platform}.

(** Equal as numbers: the same double, or two zeros. *)
Definition same_number (x y : number) : Prop :=
  x = y \/ exists sx sy, x = S754_zero sx /\ y = S754_zero sy.

(** A coordinate as the claim wants it stored for a text field of the
    request: [null] for a field that is absent (or empty) and for a text
    that is not a number, the parsed number for every other text. *)
Definition coordinate_claimed (input : option string) (v : JsValue) : Prop :=
  (truthy input = false -> v = JNull) /\
  (forall s, input = Some s -> parseFloat s = NaN -> v = JNull) /\
  (forall s, input = Some s -> truthy input = true -> parseFloat s <> NaN ->
     exists x, v = JNum x /\ same_number x (parseFloat s)).

(** A coordinate as it is stored: as claimed, but for a text that is
    parsed to an infinity, for which it is [null] too.  The four cases
    cover every input. *)
Definition coordinate_stored (input : option string) (v : JsValue) : Prop :=
  (truthy input = false -> v = JNull) /\
  (forall s, input = Some s -> parseFloat s = NaN -> v = JNull) /\
  (forall s sign, input = Some s -> truthy input = true ->
     parseFloat s = S754_infinity sign -> v = JNull) /\
  (forall s, input = Some s -> truthy input = true -> isFinite (parseFloat s) = true ->
     exists x, v = JNum x /\ same_number x (parseFloat s)).

(** The analysis as the specification wants it stored: the text of the
    field, or [null] when there is none. *)
Definition analysis_stored (input : option string) (v : JsValue) : Prop :=
  (truthy input = false -> v = JNull) /\
  (forall s, input = Some s -> truthy input = true -> v = JStr s).

End Stored.

Section Resolved.
Context `{Platform} {S : Type} (supabase : Backend S).

(** The request of GET /images for a signed URL of an image: for its
    reference as a key of "imagens", valid for one hour. *)
Definition signature_request (image : ImageRow) : Call :=
  CreateSignedUrl "imagens" (image_url image) 3600.

(** [url] is the URL GET /images resolves for [image] when the store is
    in state [s]: the stored reference itself, with no request, when it
    starts with "http"; otherwise the URL that the store, asked in that
    state, signs for the key, or, when the store then refuses, the
    public URL of the same key.  [calls] are the requests made and [s']
    is the state in which they leave the store. *)
Inductive resolved (image : ImageRow) (s : S) : string -> list Call -> S -> Prop :=
| reference_kept :
    startsWith (image_url image) "http" = true ->
    resolved image s (image_url image) [] s
| reference_signed signedUrl s' :
    startsWith (image_url image) "http" = false ->
    supabase (signature_request image) s = (Success signedUrl, s') ->
    resolved image s signedUrl [signature_request image] s'
| reference_public urlError s' :
    startsWith (image_url image) "http" = false ->
    supabase (signature_request image) s = (Failure urlError, s') ->
    resolved image s (getPublicUrl "imagens" (image_url image))
      [signature_request image] s'.

(** The URLs resolved for the rows of a list, one after the other, the
    store moving from [s] to [s'] through the requests [calls]. *)
Inductive all_resolved : list ImageRow -> S -> list string -> list Call -> S -> Prop :=
| none_resolved s : all_resolved [] s [] [] s
| next_resolved image images s url calls s1 urls more s' :
    resolved image s url calls s1 ->
    all_resolved images s1 urls more s' ->
    all_resolved (image :: images) s (url :: urls) (calls ++ more)%list s'.

(** The views of the rows with their URLs, as GET /images builds
    them. *)
Definition views_with (images : list ImageRow) (urls : list string) : list JsValue :=
  zip_with image_view images urls.

End Resolved.

(** Two properties of a state of the reference backend. *)
Section UserRecords.

(** At most one user record per external identifier. *)
Definition one_record_per_identifier (st : Mem.State) : Prop :=
  NoDup (List.map Mem.firebase_id (Mem.users st)).

(** No scheduled fault poses as the answer "no single row" of
    [.single()]: the store reports PGRST116 only for a lookup that does
    not find exactly one row. *)
Definition faults_are_failures (st : Mem.State) : Prop :=
  Forall (fun fault => forall e, fault = Some e -> code e <> Some "PGRST116")
         (Mem.faults st).

(** The records kept for an external identifier. *)
Definition records_of (uid : string) (st : Mem.State) : list Mem.UserRow :=
  List.filter (fun u => String.eqb (Mem.firebase_id u) uid) (Mem.users st).

End UserRecords.

Section ProfileRequests.
Context `{Platform} {S : Type} (supabase : Backend S).

Definition profile_key (uid : string) : string := "profile_" ++ uid ++ ".jpg".

Definition profile_url (uid : string) : string :=
  getPublicUrl "profiles" (profile_key uid).

Definition profile_upload (uid content mime : string) : Call :=
  StorageUpload "profiles" (profile_key uid) content
    {| cacheControl := "3600"; upsert := true; contentType := mime |}.

Definition profile_update (uid : string) : Call :=
  UpdateUsers (JObj [("profile_image_url", JStr (profile_url uid))]) uid.

Definition profile_insert (uid : string) (created : N) : Call :=
  InsertUsers (JArr [ JObj [ ("firebase_id", JStr uid);
                             ("profile_image_url", JStr (profile_url uid));
                             ("created_at", JStr (toISOString created)) ] ]).

Definition succeeded {A} (r : Reply A) : bool :=
  match r with Success _ => true | Failure _ => false end.

(** The requests of POST /upload-profile for the file [content] of user
    [uid], from the backend state [s]: the requests made, the state they
    lead to, and whether the last of them succeeded.  The object is
    uploaded with [upsert: true]; the record is looked up by the
    identifier; it is updated when the lookup finds it and inserted when
    the lookup answers PGRST116; any other failure ends the sequence. *)
Inductive profile_requests (uid content mime : string) (s : S)
    : list Call -> S -> bool -> Prop :=
| upload_refused e s1 :
    supabase (profile_upload uid content mime) s = (Failure e, s1) ->
    profile_requests uid content mime s [profile_upload uid content mime] s1 false
| lookup_failed s1 e s2 :
    supabase (profile_upload uid content mime) s = (Success tt, s1) ->
    supabase (SelectUserId uid) s1 = (Failure e, s2) ->
    code e <> Some "PGRST116" ->
    profile_requests uid content mime s
      [profile_upload uid content mime; SelectUserId uid] s2 false
| record_updated s1 id s2 updated s3 :
    supabase (profile_upload uid content mime) s = (Success tt, s1) ->
    supabase (SelectUserId uid) s1 = (Success id, s2) ->
    supabase (profile_update uid) s2 = (updated, s3) ->
    profile_requests uid content mime s
      [profile_upload uid content mime; SelectUserId uid; profile_update uid]
      s3 (succeeded updated)
| record_inserted s1 e s2 created s3 inserted s4 :
    supabase (profile_upload uid content mime) s = (Success tt, s1) ->
    supabase (SelectUserId uid) s1 = (Failure e, s2) ->
    code e = Some "PGRST116" ->
    supabase DateNow s2 = (created, s3) ->
    supabase (profile_insert uid created) s3 = (inserted, s4) ->
    profile_requests uid content mime s
      [profile_upload uid content mime; SelectUserId uid; DateNow;
       profile_insert uid created]
      s4 (succeeded inserted).

End ProfileRequests.

(** ** Further notions *)

Section RequestShapes.
Context `{Platform}.

(** The key under which POST /upload stores the file of a request
    received at [now]. *)
Definition storage_key (now : N) (f : UploadedFile) : string :=
  "images/" ++ decimal now ++ "_" ++ or_else (originalname f) "image.jpg".

(** The options of that upload. *)
Definition image_upload (now : N) (f : UploadedFile) (content : string) : Call :=
  StorageUpload "imagens" (storage_key now f) content
    {| cacheControl := "3600"; upsert := false; contentType := mimetype f |}.

(** The insert of POST /upload for a request received at [now], the
    record being created at [created]. *)
Definition image_insert (req : UploadRequest) (now created : N) (f : UploadedFile) : Call :=
  InsertImages
    (JArr [ JObj [ ("user_id", js_string (user_id req));
                   ("url", JStr (storage_key now f));
                   ("latitude", JSON_stringify (parsed_or_null (latitude req)));
                   ("longitude", JSON_stringify (parsed_or_null (longitude req)));
                   ("analysis", string_or_null (analysis req));
                   ("created_at", JStr (toISOString created)) ] ]).

(** The signing requests of GET /images for the rows it fetched: one for
    each row whose reference does not start with "http", in the order of
    the rows. *)
Definition signing_requests (images : list ImageRow) : list Call :=
  List.map (fun image => CreateSignedUrl "imagens" (image_url image) 3600)
           (List.filter (fun image => negb (startsWith (image_url image) "http")) images).

Definition server_error (generic : string) (e : JsError) : Response :=
  {| status := 500;
     body := JObj [ ("error", JStr generic); ("details", JStr (message e)) ] |}.

End RequestShapes.

Section Rejection.
Context {S : Type}.

(** An upload route answers 400 exactly for a request with a body that
    has no file or no [user_id], reports the missing file first, and
    leaves the world as it is when it rejects; a request without body is
    answered 500 with the error of the destructuring, without a request
    to the store and without a change of the local files. *)
Definition rejects_invalid (route : option UploadRequest -> M S Response)
    (generic : string) (received : option UploadRequest) (w : World S) : Prop :=
  exists resp,
    (route received w).1 = Returned resp /\
    (status resp = 400%N <->
       exists req, received = Some req /\
                   (file req = None \/ truthy (user_id req) = false)) /\
    (status resp = 400%N -> (route received w).2 = w) /\
    (forall req, received = Some req -> file req = None ->
       body resp = JObj [("error", JStr "Nenhuma imagem enviada")]) /\
    (received = None ->
       resp = server_error generic undefined_body /\
       trace (route received w).2 = trace w /\
       remote (route received w).2 = remote w /\
       fs (route received w).2 = fs w).

End Rejection.

Section Replay.
Context {S : Type} (supabase : Backend S).

(** The state of the backend after it has answered [calls] in turn. *)
Fixpoint replay (calls : list Call) (s : S) : S :=
  match calls with
  | [] => s
  | c :: rest => replay rest (supabase c s).2
  end.

(** What a run of a handler did to the world: the requests it issued,
    which alone moved the backend. *)
Definition issued (calls : list Call) (w w' : World S) : Prop :=
  trace w' = (trace w ++ calls)%list /\ remote w' = replay calls (remote w).

End Replay.

(** The requests POST /upload can make: a reading of the clock, an upload
    to "imagens" that does not overwrite, an insert of images. *)
Definition upload_request (c : Call) : Prop :=
  match c with
  | DateNow => True
  | StorageUpload bucket _ _ options => bucket = "imagens" /\ upsert options = false
  | InsertImages _ => True
  | _ => False
  end.

(** The requests DELETE /images/:id can make for the identifier [id]. *)
Definition delete_request (id : string) (c : Call) : Prop :=
  match c with
  | SelectImageUrl id' | DeleteImage id' => id' = id
  | StorageRemove bucket keys => bucket = "imagens" /\ length keys = 1%nat
  | DeleteMetadata _ => True
  | _ => False
  end.

Section StoreNotions.
Context `{Platform}.

(** [st'] keeps everything [st] stores, and may hold more images and
    more objects. *)
Definition only_added (st st' : Mem.State) : Prop :=
  (forall key content,
     Mem.objects st !! key = Some content -> Mem.objects st' !! key = Some content) /\
  (exists new, Mem.images st' = (Mem.images st ++ new)%list) /\
  Mem.users st' = Mem.users st /\
  Mem.images_metadata st' = Mem.images_metadata st.

(** The URL under which the reference backend, with no fault pending,
    lets GET /images show an image. *)
Definition listed_url (st : Mem.State) (image : ImageRow) : string :=
  if startsWith (image_url image) "http" then image_url image
  else match Mem.objects st !! ("imagens", image_url image) with
       | Some _ => Mem.signed_url "imagens" (image_url image) 3600
       | None => getPublicUrl "imagens" (image_url image)
       end.

(** The list GET /images answers for the state [st]. *)
Definition listing (st : Mem.State) : list JsValue :=
  List.map (fun image => JSON_stringify (image_view image (listed_url st image)))
           (Mem.newest_first (Mem.images st)).

(** The identifiers of the images are distinct and were all given out
    by the store. *)
Definition identified (st : Mem.State) : Prop :=
  NoDup (List.map image_id (Mem.images st)) /\
  Forall (fun image => exists n, (n < Mem.next_id st)%N /\ image_id image = decimal n)
         (Mem.images st).

(** A coordinate as GET /images shows it, given as POST /upload answered
    it: the same, but for a zero, which is shown as [null]. *)
Definition listed_coordinate (answered : option JsValue) : option JsValue :=
  match answered with
  | Some (JNum x) => Some (if truthy_number x then JNum x else JNull)
  | other => other
  end.

End StoreNotions.

(** ** Further scenarios

    Worlds in which a request meets a failure, a taken key or a duplicated
    user. *)
Module Incident.

#[local] Existing Instance Node.platform.

(** The two transient files on an empty store with [faults] pending. *)
Definition start_with (faults : list (option JsError)) : World Mem.State :=
  mkWorld Scenario.files (Mem.mkState [] [] [] ∅ 1 1700000000000 faults) [] [].

(** No transient file was written. *)
Definition unwritten : World Mem.State := mkWorld ∅ Scenario.empty [] [].

Definition gallery_with (faults : list (option JsError)) : World Mem.State :=
  mkWorld ∅ (Scenario.gallery_state faults) [] [].

(** The key of [Scenario.cat] at the present millisecond is taken. *)
Definition taken : World Mem.State :=
  mkWorld Scenario.files
    (Mem.mkState [] [] []
       (<[("imagens", "images/1700000000000_cat.png") := "OLD"]> ∅)
       1 1700000000000 [])
    [] [].

(** The user "u2" is registered, the table of users is unreachable. *)
Definition registry_down : World Mem.State :=
  mkWorld ∅
    (Mem.mkState [] [Scenario.bare_user] [] ∅ 2 1700000000000
       [Some Scenario.connection_refused])
    [] [].

(** The user "u2" is registered and the two transient files are there. *)
Definition members : World Mem.State :=
  mkWorld Scenario.files
    (Mem.mkState [] [Scenario.bare_user] [] ∅ 2 1700000000000 []) [] [].

(** Two records for the user "u1". *)
Definition twin (id : string) : Mem.UserRow :=
  {| Mem.user_row_id := id; Mem.firebase_id := "u1";
     Mem.profile_image_url := Some "https://cdn.example/u1.jpg";
     Mem.user_created_at := None |}.

Definition doubled : World Mem.State :=
  mkWorld Scenario.files
    (Mem.mkState [] [twin "1"; twin "2"] [] ∅ 3 1700000000000 []) [] [].

End Incident.

(** ** Inputs on which claims fail *)

(** A coordinate that overflows the doubles. *)
Module Overflow.

#[local] Existing Instance Node.platform.

(** The decimal digits of ten to the power of 309, more than the
    largest double: [parseFloat] reads them as [Infinity]. *)
Definition beyond_doubles : string :=
  "1" ++ String.concat "" (List.repeat "0" 309).

(** A photo taken further out than numbers go. *)
Definition survey : UploadRequest :=
  {| file := Some Scenario.cat; user_id := Some "u1";
     latitude := Some beyond_doubles; longitude := None; analysis := None |}.

End Overflow.

(** A store that serves two clients at once. *)
Module Race.

#[local] Existing Instance Node.platform.

(** The reference store with a second client.  The handlers take no
    lock, and each request to the store is an [await] of its own: when
    the first client has had the answer to its lookup of a user, the
    store serves the whole POST /upload-profile of the second client,
    [Scenario.photo], before the next request of the first arrives. *)
Definition two_clients : Backend Mem.State := fun c =>
  match c as c return Mem.State -> Answer c * Mem.State with
  | SelectUserId uid => fun st =>
      let (found, st1) := Mem.backend (SelectUserId uid) st in
      (found,
       remote (post_upload_profile Mem.backend Scenario.photo
                 (mkWorld Scenario.files st1 [] [])).2)
  | c => Mem.backend c
  end.

End Race.

(** * Properties *)

(** ** Running a handler symbolically *)

Ltac unfold_monad :=
  unfold try_catch, upload_failed, mbind, M_bind, mret, M_ret, throw, or_throw, call,
    console_write, readFileSync, existsSync, unlinkSync in *.

(** Case analysis on the innermost scrutinee that blocks evaluation: an
    answer of the backend, a file of the local store, a field of the
    request. *)
Ltac branch :=
  match goal with
  | |- context [match ?x with _ => _ end] =>
      lazymatch x with
      | context [match _ with _ => _ end] => fail
      | _ => destruct x eqn:?
      end
  end.

Ltac run := unfold_monad; cbn; repeat (branch; cbn in *; simplify_eq; try done).

Lemma exists_is_some (files : gmap string string) (p : string) :
  bool_decide (is_Some (files !! p)) = false -> files !! p = None.
Proof.
  intros E. apply bool_decide_eq_false in E.
  destruct (files !! p) eqn:L; [|done]. destruct E. by eexists.
Qed.

Lemma exists_is_none (files : gmap string string) (p : string) :
  bool_decide (is_Some (files !! p)) = true -> files !! p <> None.
Proof. intros E%bool_decide_eq_true. destruct E as [x L]. congruence. Qed.

(** Closes a goal about the transient file after a run. *)
Ltac file_gone :=
  repeat match goal with
         | E : bool_decide (is_Some _) = false |- _ => apply exists_is_some in E
         | E : bool_decide (is_Some _) = true |- _ => apply exists_is_none in E
         end;
  first [ done | by rewrite lookup_delete_eq | congruence ].

Section TransientFile.
Context `{Platform} {S : Type} (supabase : Backend S).

(** Once [user_id] is given, every way out of POST /upload removes the
    transient file: the success path unlinks it, the [catch] block
    unlinks it when it is still there. *)
Lemma upload_removes_file req f (w : World S) :
  file req = Some f -> truthy (user_id req) = true ->
  fs (post_upload supabase req w).2 !! path f = None.
Proof.
  intros Hf Hu. unfold post_upload. rewrite Hf, Hu.
  run; file_gone.
Qed.

Lemma upload_profile_removes_file req f (w : World S) :
  file req = Some f -> truthy (user_id req) = true ->
  fs (post_upload_profile supabase req w).2 !! path f = None.
Proof.
  intros Hf Hu. unfold post_upload_profile. rewrite Hf, Hu.
  run; file_gone.
Qed.

(** C1.  The transient file must be gone when a file-accepting handler
    returns, on every exit path.  The rejection of a request that carries
    a file but no [user_id] does not do that: both POST /upload and
    POST /upload-profile answer 400 and leave the world, the transient
    file included, exactly as it was. *)
Theorem upload_rejection_keeps_file req f content (w : World S) :
  file req = Some f -> truthy (user_id req) = false ->
  fs w !! path f = Some content ->
  let rejected :=
    {| status := 400; body := JObj [("error", JStr "user_id é obrigatório")] |} in
  post_upload supabase req w = (Returned rejected, w) /\
  post_upload_profile supabase req w = (Returned rejected, w) /\
  fs (post_upload supabase req w).2 !! path f = Some content /\
  fs (post_upload_profile supabase req w).2 !! path f = Some content.
Proof.
  intros Hf Hu Hc rejected.
  assert (post_upload supabase req w = (Returned rejected, w)) as E1.
  { unfold post_upload, try_catch. rewrite Hf, Hu. reflexivity. }
  assert (post_upload_profile supabase req w = (Returned rejected, w)) as E2.
  { unfold post_upload_profile, try_catch. rewrite Hf, Hu. reflexivity. }
  rewrite E1, E2. auto.
Qed.

End TransientFile.

Section DeleteImage.
Context `{Platform} {S : Type} (supabase : Backend S).

(** C3.  The claim wants 500, with the description of the error, for a
    failure of the store during the fetch of the record.  The handler
    does not tell a failed fetch from a missing record: DELETE
    /images/:id answers 404 "not found" whenever the fetch reports an
    error, whatever the error is, and makes no further request. *)
Theorem delete_fetch_error_is_not_found id (w : World S) e s' :
  supabase (SelectImageUrl id) (remote w) = (Failure e, s') ->
  (delete_image supabase id w).1 =
    Returned {| status := 404; body := JObj [("error", JStr "Imagem não encontrada")] |} /\
  trace (delete_image supabase id w).2 = (trace w ++ [SelectImageUrl id])%list.
Proof.
  intros Hfetch. unfold delete_image. unfold_monad. cbn.
  rewrite Hfetch. cbn. done.
Qed.

(** C5.  Once the record is fetched, only the deletion of the record
    decides the answer of DELETE /images/:id: its failure gives 500 with
    the error's message and stops the handler, its success gives
    [{success: true}].  A failure to remove the object from storage or the
    row of [images_metadata] is written to the console and changes
    nothing in the answer. *)
Theorem delete_is_best_effort id (w : World S) url s1 removed s2 deleted s3 metadata s4 :
  supabase (SelectImageUrl id) (remote w) = (Success url, s1) ->
  supabase (StorageRemove "imagens" [url]) s1 = (removed, s2) ->
  supabase (DeleteImage id) s2 = (deleted, s3) ->
  supabase (DeleteMetadata url) s3 = (metadata, s4) ->
  let out := (delete_image supabase id w).1 in
  let w' := (delete_image supabase id w).2 in
  (forall e, removed = Failure e ->
     {| level := Error; printed := [PStr "Erro ao deletar do storage:"; PErr e] |}
       ∈ console w') /\
  match deleted with
  | Failure e =>
      out = Returned {| status := 500;
                        body := JObj [ ("error", JStr "Erro ao excluir imagem");
                                       ("details", JStr (message e)) ] |} /\
      trace w' = (trace w ++ [SelectImageUrl id; StorageRemove "imagens" [url];
                             DeleteImage id])%list
  | Success _ =>
      out = Returned {| status := 200; body := JObj [("success", JBool true)] |} /\
      trace w' = (trace w ++ [SelectImageUrl id; StorageRemove "imagens" [url];
                             DeleteImage id; DeleteMetadata url])%list /\
      (forall e, metadata = Failure e ->
         {| level := Warn; printed := [PStr "Erro ao deletar metadata:"; PErr e] |}
           ∈ console w')
  end.
Proof.
  intros Hfetch Hremove Hdelete Hmeta. unfold delete_image. unfold_monad. cbn.
  rewrite Hfetch. cbn. rewrite Hremove.
  destruct removed as [[]|e1]; cbn; rewrite Hdelete;
    destruct deleted as [[]|e2]; cbn; rewrite ?Hmeta;
    try destruct metadata as [[]|e3]; cbn;
    rewrite <- ?app_assoc; cbn;
    repeat split; try done; intros e' [= <-]; set_solver.
Qed.

(** DELETE /images/:id always answers, with 200, 404 or 500. *)
Lemma delete_image_answers id (w : World S) :
  exists resp, (delete_image supabase id w).1 = Returned resp /\
               (status resp = 200 \/ status resp = 404 \/ status resp = 500)%N.
Proof. unfold delete_image. run; eauto. Qed.

End DeleteImage.

Section ProfileImage.
Context `{Platform} {S : Type} (supabase : Backend S).

(** The four ways GET /profile-image/:user_id answers a lookup. *)
Lemma get_profile_image_unknown uid (w : World S) e s' :
  supabase (SelectUserProfileImage uid) (remote w) = (Failure e, s') ->
  code e = Some "PGRST116" ->
  (get_profile_image supabase uid w).1 =
    Returned {| status := 404; body := JObj [("error", JStr "Usuário não encontrado")] |}.
Proof.
  intros Hfetch Hcode. unfold get_profile_image, try_catch, mbind, M_bind, call.
  rewrite Hfetch, bool_decide_eq_true_2 by done. reflexivity.
Qed.

Lemma get_profile_image_without_reference uid reference (w : World S) s' :
  supabase (SelectUserProfileImage uid) (remote w) = (Success reference, s') ->
  truthy reference = false ->
  (get_profile_image supabase uid w).1 =
    Returned {| status := 404;
                body := JObj [("error", JStr "Imagem de perfil não encontrada")] |}.
Proof.
  intros Hfetch Hfalsy. unfold get_profile_image, try_catch, mbind, M_bind, call.
  rewrite Hfetch, Hfalsy. reflexivity.
Qed.

Lemma get_profile_image_as_is uid url (w : World S) s' :
  supabase (SelectUserProfileImage uid) (remote w) = (Success (Some url), s') ->
  truthy (Some url) = true -> startsWith url "http" = true ->
  (get_profile_image supabase uid w).1 =
    Returned {| status := 200; body := JObj [("profileImageUrl", JStr url)] |}.
Proof.
  intros Hfetch Htruthy Hhttp. unfold get_profile_image, try_catch, mbind, M_bind, call.
  rewrite Hfetch, Htruthy. cbn [negb template js_string]. rewrite Hhttp. reflexivity.
Qed.

Lemma get_profile_image_resolved uid key (w : World S) s' :
  supabase (SelectUserProfileImage uid) (remote w) = (Success (Some key), s') ->
  truthy (Some key) = true -> startsWith key "http" = false ->
  (get_profile_image supabase uid w).1 =
    Returned {| status := 200;
                body := JObj [("profileImageUrl", JStr (getPublicUrl "profiles" key))] |}.
Proof.
  intros Hfetch Htruthy Hhttp. unfold get_profile_image, try_catch, mbind, M_bind, call.
  rewrite Hfetch, Htruthy. cbn [negb template js_string]. rewrite Hhttp. reflexivity.
Qed.

(** A lookup that fails otherwise is a server error, with the message of
    the failure. *)
Lemma get_profile_image_failure uid (w : World S) e s' :
  supabase (SelectUserProfileImage uid) (remote w) = (Failure e, s') ->
  code e <> Some "PGRST116" ->
  (get_profile_image supabase uid w).1 =
    Returned {| status := 500;
                body := JObj [ ("error", JStr "Erro ao buscar imagem de perfil");
                               ("details", JStr (message e)) ] |}.
Proof.
  intros Hfetch Hcode. unfold get_profile_image, try_catch, mbind, M_bind, call.
  rewrite Hfetch, bool_decide_eq_false_2 by done. reflexivity.
Qed.

(** C7.  GET /profile-image/:user_id, by the answer of the lookup: the
    error PGRST116 (no such user) gives 404 "user not found"; a user
    without image reference gives 404 with another message; a reference
    that starts with "http" is returned as it is; any other reference is
    resolved to the public URL of that key in the bucket "profiles". *)
Theorem profile_image_cases user_id (w : World S) fetched s' :
  supabase (SelectUserProfileImage user_id) (remote w) = (fetched, s') ->
  let out := (get_profile_image supabase user_id w).1 in
  (forall e, fetched = Failure e -> code e = Some "PGRST116" ->
     out = Returned {| status := 404;
                       body := JObj [("error", JStr "Usuário não encontrado")] |}) /\
  (forall reference, fetched = Success reference -> truthy reference = false ->
     out = Returned {| status := 404;
                       body := JObj [("error", JStr "Imagem de perfil não encontrada")] |}) /\
  (forall url, fetched = Success (Some url) -> truthy (Some url) = true ->
     startsWith url "http" = true ->
     out = Returned {| status := 200; body := JObj [("profileImageUrl", JStr url)] |}) /\
  (forall key, fetched = Success (Some key) -> truthy (Some key) = true ->
     startsWith key "http" = false ->
     out = Returned {| status := 200;
                       body := JObj [("profileImageUrl",
                                      JStr (getPublicUrl "profiles" key))] |}).
Proof.
  intros Hfetch out. subst out. repeat split.
  - intros e ->. by apply get_profile_image_unknown with s'.
  - intros reference ->. by apply get_profile_image_without_reference with s'.
  - intros url ->. by apply get_profile_image_as_is with s'.
  - intros key ->. by apply get_profile_image_resolved with s'.
Qed.

End ProfileImage.

Ltac branch_in H :=
  match type of H with
  | context [match ?x with _ => _ end] =>
      lazymatch x with
      | context [match _ with _ => _ end] => fail
      | _ => destruct x eqn:?
      end
  end.

(** Inversion of a run given as a hypothesis. *)
Ltac run_in H :=
  unfold_monad; cbn in H; repeat (branch_in H; cbn in H; simplify_eq; try done).

Lemma stringify_js_string s : JSON_stringify (js_string s) = js_string s.
Proof. by destruct s. Qed.

Lemma stringify_string_or_null s : JSON_stringify (string_or_null s) = string_or_null s.
Proof. by destruct s as [[|]|]. Qed.

Section Upload.
Context `{Platform} {S : Type} (supabase : Backend S).

Lemma coordinate_stored_parsed input :
  coordinate_stored input (JSON_stringify (parsed_or_null input)).
Proof.
  unfold coordinate_stored, parsed_or_null.
  split; [|split; [|split]].
  - by intros ->.
  - intros s -> Hnan. destruct (truthy (Some s)); [|done].
    cbn. by rewrite Hnan.
  - intros s sign -> -> Hinf. cbn. by rewrite Hinf.
  - intros s -> -> Hfin. cbn. unfold same_number.
    destruct (parseFloat s) as [sign|sign| |sign m e]; try done.
    + eexists. split; [reflexivity|]. right. eauto.
    + eexists. split; [reflexivity|]. by left.
Qed.

(** A text that overflows the doubles is parsed to an infinity, which
    JSON cannot carry: it is stored as [null] too. *)
Lemma infinite_coordinate_is_null s :
  isFinite (parseFloat s) = false ->
  JSON_stringify (parsed_or_null (Some s)) = JNull.
Proof.
  intros Hinf. unfold parsed_or_null. destruct (truthy (Some s)); [|done].
  cbn. by destruct (parseFloat s).
Qed.

Lemma analysis_stored_or_null input : analysis_stored input (string_or_null input).
Proof.
  unfold analysis_stored, string_or_null. split.
  - by intros ->.
  - by intros s -> ->.
Qed.

(** The one path of POST /upload that ends in 200, step by step. *)
Lemma post_upload_success req (w w' : World S) resp :
  post_upload supabase req w = (Returned resp, w') -> status resp = 200%N ->
  exists f content now s1 s2 created s3 first rest,
    let filePath := "images/" ++ decimal now ++ "_" ++ or_else (originalname f) "image.jpg" in
    let options := {| cacheControl := "3600"; upsert := false; contentType := mimetype f |} in
    let row := JObj [ ("user_id", js_string (user_id req));
                      ("url", JStr filePath);
                      ("latitude", JSON_stringify (parsed_or_null (latitude req)));
                      ("longitude", JSON_stringify (parsed_or_null (longitude req)));
                      ("analysis", string_or_null (analysis req));
                      ("created_at", JStr (toISOString created)) ] in
    file req = Some f /\ truthy (user_id req) = true /\
    fs w !! path f = Some content /\
    supabase DateNow (remote w) = (now, s1) /\
    supabase (StorageUpload "imagens" filePath content options) s1 = (Success tt, s2) /\
    supabase DateNow s2 = (created, s3) /\
    supabase (InsertImages (JArr [row])) s3 = (Success (first :: rest), remote w') /\
    trace w' = (trace w ++ [ DateNow; StorageUpload "imagens" filePath content options;
                             DateNow; InsertImages (JArr [row]) ])%list /\
    fs w' = delete (path f) (fs w) /\
    resp = {| status := 200;
              body := JObj [ ("message", JStr "Upload realizado com sucesso!");
                             ("imageId", JStr (image_id first));
                             ("imageUrl", JStr (getPublicUrl "imagens" filePath));
                             ("latitude", JSON_stringify (parsed_or_null (latitude req)));
                             ("longitude", JSON_stringify (parsed_or_null (longitude req)));
                             ("analysis", string_or_null (analysis req)) ] |}.
Proof.
  intros Hrun Hstatus. unfold post_upload in Hrun.
  run_in Hrun.
  rewrite ?stringify_js_string, ?stringify_string_or_null in *.
  match goal with d : unit |- _ => destruct d end.
  match goal with E : negb _ = false |- _ => apply negb_false_iff in E end.
  do 9 eexists. cbn. rewrite <- !app_assoc. cbn. eauto 12.
Qed.

(** C2, amended.  After a successful POST /upload, the record handed to
    the store and the answer carry the same latitude, longitude and
    analysis: [null] for a coordinate that is absent, that is not a
    number or that is parsed to an infinity, and the parsed number when
    it is finite; the text of the analysis or [null]; and [imageId] is
    the identifier under which the store reports that record. *)
Theorem upload_stores_parsed_fields req (w w' : World S) resp :
  post_upload supabase req w = (Returned resp, w') -> status resp = 200%N ->
  exists row earlier s first rest lat lon note,
    trace w' = (earlier ++ [InsertImages (JArr [row])])%list /\
    supabase (InsertImages (JArr [row])) s = (Success (first :: rest), remote w') /\
    field "imageId" (body resp) = Some (JStr (image_id first)) /\
    field "latitude" row = Some lat /\ field "latitude" (body resp) = Some lat /\
    coordinate_stored (latitude req) lat /\
    field "longitude" row = Some lon /\ field "longitude" (body resp) = Some lon /\
    coordinate_stored (longitude req) lon /\
    field "analysis" row = Some note /\ field "analysis" (body resp) = Some note /\
    analysis_stored (analysis req) note.
Proof.
  intros Hrun Hstatus.
  destruct (post_upload_success _ _ _ _ Hrun Hstatus)
    as (f & content & now & s1 & s2 & created & s3 & first & rest & Hsteps).
  cbn zeta in Hsteps.
  destruct Hsteps as (_ & _ & _ & _ & _ & _ & Hinsert & Htrace & _ & ->).
  eexists _, (trace w ++ [_; _; _])%list, s3, first, rest, _, _, _.
  split; [rewrite Htrace, <- app_assoc; reflexivity|].
  split; [exact Hinsert|].
  cbn. repeat split;
    auto using coordinate_stored_parsed, analysis_stored_or_null;
    apply coordinate_stored_parsed || apply analysis_stored_or_null.
Qed.

(** C8.  After a successful POST /upload: the storage key is
    [images/] followed by the clock's milliseconds, an underscore and the
    original file name, or "image.jpg" when there is none; the object is
    uploaded under that key with [upsert: false]; the inserted record
    refers to the bare key; the answer's [imageUrl] is the public URL of
    the key. *)
Theorem upload_key_and_reference req (w w' : World S) resp :
  post_upload supabase req w = (Returned resp, w') -> status resp = 200%N ->
  exists f content now s1 name row,
    let key := "images/" ++ decimal now ++ "_" ++ name in
    file req = Some f /\
    fs w !! path f = Some content /\
    supabase DateNow (remote w) = (now, s1) /\
    (forall original, originalname f = Some original -> original <> "" -> name = original) /\
    (originalname f = None \/ originalname f = Some "" -> name = "image.jpg") /\
    trace w' = (trace w ++
                  [ DateNow;
                    StorageUpload "imagens" key content
                      {| cacheControl := "3600"; upsert := false;
                         contentType := mimetype f |};
                    DateNow;
                    InsertImages (JArr [row]) ])%list /\
    field "url" row = Some (JStr key) /\
    field "imageUrl" (body resp) = Some (JStr (getPublicUrl "imagens" key)).
Proof.
  intros Hrun Hstatus.
  destruct (post_upload_success _ _ _ _ Hrun Hstatus)
    as (f & content & now & s1 & s2 & created & s3 & first & rest & Hsteps).
  cbn zeta in Hsteps.
  destruct Hsteps as (Hfile & _ & Hcontent & Hnow & _ & _ & _ & Htrace & _ & ->).
  exists f, content, now, s1, (or_else (originalname f) "image.jpg").
  eexists. cbn zeta. repeat split; eauto.
  - intros original -> Hne. by destruct original.
  - by intros [-> | ->].
Qed.

(** POST /upload always answers, with 200, 400 or 500. *)
Lemma post_upload_answers req (w : World S) :
  exists resp, (post_upload supabase req w).1 = Returned resp /\
               (status resp = 200 \/ status resp = 400 \/ status resp = 500)%N.
Proof. unfold post_upload. run; eauto. Qed.

End Upload.
Section ListImages.
Context `{Platform} {S : Type} (supabase : Backend S).

(** The callback of [images.map] never throws: it returns the view of
    the image with the URL resolved in the state in which it finds the
    store, and leaves the local files alone. *)
Lemma image_with_url_returns image (w : World S) :
  exists url calls w',
    image_with_url supabase image w = (Returned (image_view image url), w') /\
    resolved supabase image (remote w) url calls (remote w') /\
    trace w' = (trace w ++ calls)%list /\ fs w' = fs w.
Proof.
  unfold image_with_url. unfold_monad. cbn.
  destruct (startsWith (image_url image) "http") eqn:Hhttp; cbn.
  - eexists _, [], _. split; [reflexivity|]. cbn. rewrite app_nil_r.
    split; [by constructor|done].
  - destruct (supabase _ (remote w)) as [[signedUrl|urlError] s'] eqn:Hsign; cbn.
    + eexists _, _, _. split; [reflexivity|]. cbn.
      split; [by eapply reference_signed|done].
    + eexists _, _, _. split; [reflexivity|]. cbn.
      split; [by eapply reference_public|done].
Qed.

(** [Promise.all] over the callbacks, by induction on the rows. *)
Lemma all_images_with_url images : forall w : World S,
  exists urls calls w',
    mapM (image_with_url supabase) images w = (Returned (views_with images urls), w') /\
    all_resolved supabase images (remote w) urls calls (remote w') /\
    trace w' = (trace w ++ calls)%list.
Proof.
  induction images as [|image images IH]; intros w; cbn.
  - eexists [], [], _. split; [reflexivity|]. cbn. rewrite app_nil_r.
    split; [constructor|done].
  - destruct (image_with_url_returns image w) as (url & calls & w1 & Hone & Hres & Htrace & _).
    destruct (IH w1) as (urls & more & w2 & Hrest & Hall & Hmore).
    unfold mbind, M_bind at 1. rewrite Hone.
    unfold mbind, M_bind at 1. rewrite Hrest.
    exists (url :: urls), (calls ++ more)%list, w2. split; [reflexivity|].
    split; [by econstructor|]. by rewrite Hmore, Htrace, app_assoc.
Qed.

Lemma all_resolved_length images s urls calls s' :
  all_resolved supabase images s urls calls s' -> length urls = length images.
Proof. induction 1; cbn; congruence. Qed.

(** The store being a function of its state, the URLs, the requests and
    the final state are determined by the rows and the first state. *)
Lemma resolved_once image s url calls s' url' calls' s'' :
  resolved supabase image s url calls s' ->
  resolved supabase image s url' calls' s'' ->
  url = url' /\ calls = calls' /\ s' = s''.
Proof. intros [] Hother; inversion Hother; subst; repeat split; congruence. Qed.

Lemma all_resolved_once images : forall s urls calls s' urls' calls' s'',
  all_resolved supabase images s urls calls s' ->
  all_resolved supabase images s urls' calls' s'' ->
  urls = urls' /\ calls = calls' /\ s' = s''.
Proof.
  induction images as [|image images IH]; intros s urls calls s' urls' calls' s'' Hone Htwo;
    inversion Hone; inversion Htwo; subst; [done|].
  match goal with
  | Ha : resolved _ _ _ _ _ _, Hb : resolved _ _ _ _ _ _ |- _ =>
      destruct (resolved_once _ _ _ _ _ _ _ _ Ha Hb) as (-> & -> & ->)
  end.
  match goal with
  | Ha : all_resolved _ _ _ _ _ _, Hb : all_resolved _ _ _ _ _ _ |- _ =>
      destruct (IH _ _ _ _ _ _ _ Ha Hb) as (-> & -> & ->)
  end.
  done.
Qed.

(** One view per row, in the order of the rows. *)
Lemma views_of_rows images : forall urls,
  length urls = length images ->
  Forall2 (fun image view => exists url, view = JSON_stringify (image_view image url))
          images (List.map JSON_stringify (views_with images urls)).
Proof.
  induction images as [|image images IH]; intros [|url urls] Hlength;
    try done; try constructor.
  - by eexists.
  - apply IH. by injection Hlength.
Qed.

(** When the rows are fetched, GET /images answers 200 with the views of
    the rows, in their order, with the URLs resolved one after the
    other from the state in which the fetch left the store. *)
Lemma get_images_views (w : World S) images s1 :
  supabase SelectImages (remote w) = (Success images, s1) ->
  exists urls calls,
    (get_images supabase w).1
      = Returned {| status := 200;
                    body := JArr (List.map JSON_stringify (views_with images urls)) |} /\
    all_resolved supabase images s1 urls calls (remote (get_images supabase w).2) /\
    trace (get_images supabase w).2 = (trace w ++ SelectImages :: calls)%list.
Proof.
  intros Hselect. unfold get_images. unfold_monad. cbn. rewrite Hselect. cbn.
  match goal with
  | |- context [mapM _ images ?w1] =>
      destruct (all_images_with_url images w1) as (urls & calls & w2 & Hmap & Hall & Htrace)
  end.
  unfold_monad. rewrite Hmap. cbn in *. exists urls, calls.
  split; [reflexivity|]. split; [exact Hall|].
  by rewrite Htrace, <- app_assoc.
Qed.

(** When the rows cannot be fetched, the request fails as a whole. *)
Lemma get_images_fetch_error (w : World S) e s1 :
  supabase SelectImages (remote w) = (Failure e, s1) ->
  (get_images supabase w).1 =
    Returned {| status := 500;
                body := JObj [ ("error", JStr "Erro ao buscar imagens");
                               ("details", JStr (message e)) ] |}.
Proof.
  intros Hselect. unfold get_images. unfold_monad. cbn. by rewrite Hselect.
Qed.

(** The [url] of each view is the URL resolved for its row. *)
Lemma views_urls images : forall urls,
  length urls = length images ->
  Forall2 (fun resolution view =>
             field "id" view = Some (JStr (image_id resolution.1)) /\
             field "url" view = Some (JStr resolution.2))
          (zip images urls) (List.map JSON_stringify (views_with images urls)).
Proof.
  induction images as [|image images IH]; intros [|url urls] Hlength;
    try done; try constructor.
  - done.
  - apply IH. by injection Hlength.
Qed.

(** C4.  Every record listed by GET /images comes with the URL resolved
    for it in the run: the stored reference unchanged, and no request,
    when it starts with "http"; otherwise a signed URL is requested for
    the key for 3600 seconds, and the view carries the URL the store
    signed or, when the store refused, the public URL of the same key.
    The requests are made in the order of the rows, each answered in
    the state the previous one left.  Whatever the store answers to
    them, the list is returned with status 200, one view per row. *)
Theorem list_resolves_every_url (w : World S) images s1 :
  supabase SelectImages (remote w) = (Success images, s1) ->
  exists views urls calls,
    (get_images supabase w).1 = Returned {| status := 200; body := JArr views |} /\
    all_resolved supabase images s1 urls calls (remote (get_images supabase w).2) /\
    trace (get_images supabase w).2 = (trace w ++ SelectImages :: calls)%list /\
    length urls = length images /\
    Forall2 (fun resolution view =>
               field "id" view = Some (JStr (image_id resolution.1)) /\
               field "url" view = Some (JStr resolution.2))
            (zip images urls) views.
Proof.
  intros Hselect.
  destruct (get_images_views w images s1 Hselect) as (urls & calls & Hout & Hall & Htrace).
  pose proof (all_resolved_length _ _ _ _ _ Hall) as Hlength.
  eexists _, urls, calls. split; [exact Hout|]. split; [exact Hall|].
  split; [exact Htrace|]. split; [exact Hlength|]. by apply views_urls.
Qed.

(** C9.  In the list of GET /images a latitude or longitude stored as
    zero and an analysis stored as the empty text are reported as [null]:
    the defaults are taken with [||], which tests truthiness. *)
Theorem list_nulls_falsy_fields (w : World S) images s1 :
  supabase SelectImages (remote w) = (Success images, s1) ->
  exists views,
    (get_images supabase w).1 = Returned {| status := 200; body := JArr views |} /\
    Forall2 (fun image view =>
               (forall sign, image_latitude image = Some (S754_zero sign) ->
                  field "latitude" view = Some JNull) /\
               (forall sign, image_longitude image = Some (S754_zero sign) ->
                  field "longitude" view = Some JNull) /\
               (image_analysis image = Some "" -> field "analysis" view = Some JNull))
            images views.
Proof.
  intros Hselect.
  destruct (get_images_views w images s1 Hselect) as (urls & calls & Hout & Hall & _).
  eexists. split; [exact Hout|].
  eapply Forall2_impl; [exact (views_of_rows _ _ (all_resolved_length _ _ _ _ _ Hall))|].
  intros image view (url & ->). cbn.
  repeat split; [intros sign -> | intros sign -> | intros ->]; reflexivity.
Qed.

End ListImages.

Section UploadProfile.
Context `{Platform} {S : Type} (supabase : Backend S).

(** POST /upload-profile for a request with a readable file and a
    [user_id] makes the requests described by [profile_requests], answers
    200 with the public URL exactly when the last request succeeded, and
    500 otherwise. *)
Lemma upload_profile_requests req f uid content (w : World S) :
  file req = Some f -> user_id req = Some uid -> uid <> "" ->
  fs w !! path f = Some content ->
  exists calls ok,
    let out := (post_upload_profile supabase req w).1 in
    let w' := (post_upload_profile supabase req w).2 in
    profile_requests supabase uid content (mimetype f) (remote w) calls (remote w') ok /\
    trace w' = (trace w ++ calls)%list /\
    (if ok
     then out = Returned
                  {| status := 200;
                     body := JObj [ ("message",
                                     JStr "Imagem de perfil atualizada com sucesso!");
                                    ("profileImageUrl", JStr (profile_url uid)) ] |}
     else exists resp, out = Returned resp /\ status resp = 500%N).
Proof.
  intros Hfile Huid Hne Hcontent.
  unfold post_upload_profile. rewrite Hfile, Huid.
  destruct uid as [|c uid]; [done|]. unfold_monad. rewrite Hfile. cbn.
  rewrite Hcontent. cbn.
  destruct (supabase _ (remote w)) as [[[]|e1] s1] eqn:Hupload; cbn.
  2: { repeat (rewrite Hcontent; cbn). eexists _, false. cbn. split; [by eapply upload_refused|]. eauto. }
  destruct (supabase (SelectUserId _) s1) as [[id|e2] s2] eqn:Hlookup; cbn.
  - destruct (supabase (UpdateUsers _ _) s2) as [[[]|e3] s3] eqn:Hupdate; cbn.
    + rewrite Hcontent. cbn. eexists _, true. cbn.
      split; [by eapply (record_updated _ _ _ _ _ _ _ _ (Success tt))|].
      rewrite <- !app_assoc. eauto.
    + repeat (rewrite Hcontent; cbn). eexists _, false. cbn.
      split; [by eapply (record_updated _ _ _ _ _ _ _ _ (Failure e3))|].
      rewrite <- !app_assoc. eauto.
  - destruct (decide (code e2 = Some "PGRST116")) as [Hcode|Hcode].
    + rewrite bool_decide_eq_true_2 by done. cbn.
      destruct (supabase DateNow s2) as [created s3] eqn:Hnow; cbn.
      destruct (supabase (InsertUsers _) s3) as [[[]|e3] s4] eqn:Hinsert; cbn.
      * rewrite Hcontent. cbn. eexists _, true. cbn.
        split; [by eapply (record_inserted _ _ _ _ _ _ _ _ _ _ (Success tt))|].
        rewrite <- !app_assoc. eauto.
      * repeat (rewrite Hcontent; cbn). eexists _, false. cbn.
        split; [by eapply (record_inserted _ _ _ _ _ _ _ _ _ _ (Failure e3))|].
        rewrite <- !app_assoc. eauto.
    + rewrite bool_decide_eq_false_2 by done. cbn.
      repeat (rewrite Hcontent; cbn). eexists _, false. cbn. split; [by eapply lookup_failed|].
      rewrite <- !app_assoc. eauto.
Qed.

(** Without a file, without [user_id] or without the bytes of the file,
    POST /upload-profile makes no request and does not answer 200. *)
Lemma upload_profile_not_started req (w : World S) :
  file req = None \/ truthy (user_id req) = false \/
    (exists f, file req = Some f /\ fs w !! path f = None) ->
  remote (post_upload_profile supabase req w).2 = remote w /\
  trace (post_upload_profile supabase req w).2 = trace w /\
  exists resp, (post_upload_profile supabase req w).1 = Returned resp /\
               status resp <> 200%N.
Proof.
  unfold post_upload_profile.
  intros [Hfile | [Huid | (f & Hfile & Hmissing)]].
  - rewrite Hfile. unfold_monad. cbn. eauto.
  - rewrite Huid. destruct (file req); unfold_monad; cbn; eauto.
  - rewrite Hfile. unfold_monad. rewrite Hfile.
    destruct (truthy (user_id req)); cbn; [|by eauto].
    repeat (rewrite Hmissing; cbn). eauto.
Qed.

(** POST /upload-profile always answers, with 200, 400 or 500. *)
Lemma post_upload_profile_answers req (w : World S) :
  exists resp, (post_upload_profile supabase req w).1 = Returned resp /\
               (status resp = 200 \/ status resp = 400 \/ status resp = 500)%N.
Proof. unfold post_upload_profile. run; eauto. Qed.

End UploadProfile.

(** ** The reference backend, request by request *)

Section MemRequests.
Import Mem.

Lemma request_cases {A} (st : State) (normal : State -> Reply A * State) :
  (exists e, head (faults st) = Some (Some e) /\
             request st normal = (Failure e, consume st)) \/
  ((forall e, head (faults st) <> Some (Some e)) /\
   request st normal = normal (consume st)).
Proof.
  unfold request. destruct (head (faults st)) as [[e|]|]; [left|right|right]; eauto.
  all: split; [congruence|done].
Qed.

Lemma consume_faults st : faults_are_failures st -> faults_are_failures (consume st).
Proof.
  unfold faults_are_failures. cbn. destruct (faults st); cbn; [done|].
  by inversion 1.
Qed.

Lemma scheduled_fault_code st e :
  faults_are_failures st -> head (faults st) = Some (Some e) ->
  code e <> Some "PGRST116".
Proof.
  unfold faults_are_failures. destruct (faults st) as [|fault rest]; [done|].
  intros Hall [= ->]. inversion Hall; subst. eauto.
Qed.

(** No request lengthens the schedule of faults or rewrites it. *)
Lemma backend_faults c st answer st' :
  backend c st = (answer, st') ->
  faults_are_failures st -> faults_are_failures st'.
Proof.
  intros Hrun Hall. apply consume_faults in Hall as Htail.
  replace st' with (backend c st).2 by (by rewrite Hrun). clear Hrun.
  destruct c; cbn; try done; unfold request;
    destruct (head (faults st)) as [[e|]|]; cbn; try done;
    repeat (branch; cbn; try done).
Qed.

Lemma upload_users bucket key content options st r st' :
  backend (StorageUpload bucket key content options) st = (r, st') ->
  users st' = users st.
Proof.
  intros Hrun. replace st' with (backend (StorageUpload bucket key content options) st).2
    by (by rewrite Hrun).
  cbn. unfold request. destruct (head (faults st)) as [[e|]|]; cbn; try done;
    repeat (branch; cbn; try done).
Qed.

Lemma upload_overwrites bucket key content options st st' :
  backend (StorageUpload bucket key content options) st = (Success tt, st') ->
  upsert options = true ->
  objects st' !! (bucket, key) = Some content.
Proof.
  cbn. intros Hrun Hupsert.
  destruct (request_cases st (fun st =>
    match objects st !! (bucket, key) with
    | Some _ =>
        if upsert options then
          (Success tt,
           mkState (images st) (users st) (images_metadata st)
             (<[(bucket, key) := content]> (objects st))
             (next_id st) (clock st) (faults st))
        else (Failure already_exists, st)
    | None =>
        (Success tt,
         mkState (images st) (users st) (images_metadata st)
           (<[(bucket, key) := content]> (objects st))
           (next_id st) (clock st) (faults st))
    end)) as [(e & _ & Hreq)|(_ & Hreq)];
    rewrite Hreq in Hrun; [done|].
  rewrite Hupsert in Hrun. cbn in Hrun.
  destruct (objects st !! (bucket, key)); simplify_eq; cbn; apply lookup_insert_eq.
Qed.

Lemma lookup_users uid st found st' :
  backend (SelectUserId uid) st = (found, st') ->
  users st' = users st /\ objects st' = objects st.
Proof.
  cbn. unfold request. destruct (head (faults st)) as [[e|]|]; by intros [= <- <-].
Qed.

Lemma single_map_cases {A B} (f : A -> B) (rows : list A) :
  match single (List.map f rows) with
  | Success _ => exists row, rows = [row]
  | Failure e => e = PGRST116 /\ forall row, rows <> [row]
  end.
Proof. destruct rows as [|row [|row' rows]]; cbn; eauto. Qed.

(** The lookup succeeds only on exactly one record, and answers
    PGRST116 only when there is not exactly one. *)
Lemma lookup_answer uid st found st' :
  backend (SelectUserId uid) st = (found, st') ->
  faults_are_failures st ->
  match found with
  | Success _ => exists record, records_of uid st = [record]
  | Failure e => code e = Some "PGRST116" -> forall record, records_of uid st <> [record]
  end.
Proof.
  cbn. unfold request. intros Hrun Hall.
  destruct (head (faults st)) as [[e|]|] eqn:Hhead; simplify_eq.
  - intros Hcode. by destruct (scheduled_fault_code st e Hall Hhead).
  - unfold records_of.
    pose proof (single_map_cases user_row_id
      (List.filter (fun u => String.eqb (firebase_id u) uid) (users st))) as Hsingle.
    cbn in *. destruct (single _); [done|]. by destruct Hsingle.
  - unfold records_of.
    pose proof (single_map_cases user_row_id
      (List.filter (fun u => String.eqb (firebase_id u) uid) (users st))) as Hsingle.
    cbn in *. destruct (single _); [done|]. by destruct Hsingle.
Qed.

Lemma update_users patch uid st r st' :
  backend (UpdateUsers patch uid) st = (r, st') ->
  objects st' = objects st /\
  users st' = if succeeded r then List.map (set_profile_image patch uid) (users st)
              else users st.
Proof.
  cbn. unfold request. destruct (head (faults st)) as [[e|]|]; by intros [= <- <-].
Qed.

Lemma insert_user uid created `{Platform} st r st' :
  backend (profile_insert uid created) st = (r, st') ->
  objects st' = objects st /\
  if succeeded r
  then exists record, users st' = (users st ++ [record])%list /\
                      firebase_id record = uid /\
                      profile_image_url record = Some (profile_url uid)
  else users st' = users st.
Proof.
  cbn. unfold request. destruct (head (faults st)) as [[e|]|]; intros [= <- <-]; cbn; eauto.
Qed.

Lemma clock_users st now st' :
  backend DateNow st = (now, st') ->
  users st' = users st /\ objects st' = objects st.
Proof. by intros [= <- <-]. Qed.

(** The store reports an inserted image as it keeps it: under a fresh
    identifier, with the coordinates and the analysis of the row it was
    given. *)
Lemma insert_image_stored row st first rest st' :
  backend (InsertImages (JArr [row])) st = (Success (first :: rest), st') ->
  rest = [] /\
  images st' = (images st ++ [first])%list /\
  image_id first = fresh_id (next_id st) /\
  field "url" row = Some (JStr (image_url first)) /\
  image_latitude first = field "latitude" row ≫= as_number /\
  image_longitude first = field "longitude" row ≫= as_number /\
  image_analysis first = field "analysis" row ≫= as_string.
Proof.
  cbn. unfold request, image_of.
  destruct (head (faults st)) as [[e|]|]; [done| |];
    (destruct (field "url" row) as [[| | |url| |]|] eqn:Hurl; [done..| | | |]; try done;
     intros [= <- <- <-]; cbn; by rewrite ?Hurl).
Qed.

(** *** Records and identifiers *)

Lemma matching_none uid (rows : list UserRow) :
  List.filter (fun u => String.eqb (firebase_id u) uid) rows = [] <->
  uid ∉ List.map firebase_id rows.
Proof.
  induction rows as [|u rows IH]; cbn.
  - split; [intros _; apply not_elem_of_nil | done].
  - rewrite not_elem_of_cons. destruct (String.eqb_spec (firebase_id u) uid); cbn.
    + split; [done|]. by intros [? _].
    + rewrite IH. split; [by split|by intros [_ ?]].
Qed.

Lemma matching_member uid (rows : list UserRow) record :
  record ∈ List.filter (fun u => String.eqb (firebase_id u) uid) rows ->
  firebase_id record = uid.
Proof.
  rewrite list_elem_of_In, filter_In. intros [_ E]. by apply String.eqb_eq.
Qed.

(** With at most one record per identifier, a lookup that does not find
    exactly one record finds none. *)
Lemma matching_at_most_one uid (rows : list UserRow) :
  NoDup (List.map firebase_id rows) ->
  (forall record, List.filter (fun u => String.eqb (firebase_id u) uid) rows <> [record]) ->
  List.filter (fun u => String.eqb (firebase_id u) uid) rows = [].
Proof.
  induction rows as [|u rows IH]; cbn; [done|].
  intros Hnodup Hnone. apply NoDup_cons in Hnodup as [Hfresh Hnodup].
  destruct (String.eqb_spec (firebase_id u) uid) as [<-|Hne]; cbn in *.
  - exfalso. apply (Hnone u). f_equal. by apply matching_none.
  - by apply IH.
Qed.

Lemma set_profile_image_id patch uid u :
  firebase_id (set_profile_image patch uid u) = firebase_id u.
Proof.
  unfold set_profile_image. destruct (String.eqb _ _); [|done].
  by destruct (field _ _).
Qed.

Lemma updated_identifiers patch uid us :
  List.map firebase_id (List.map (set_profile_image patch uid) us) = List.map firebase_id us.
Proof.
  induction us as [|u us IH]; cbn; [done|]. by rewrite set_profile_image_id, IH.
Qed.

Lemma updated_records patch uid us :
  List.filter (fun u => String.eqb (firebase_id u) uid)
              (List.map (set_profile_image patch uid) us) =
  List.map (set_profile_image patch uid)
           (List.filter (fun u => String.eqb (firebase_id u) uid) us).
Proof.
  induction us as [|u us IH]; cbn; [done|].
  rewrite set_profile_image_id. destruct (String.eqb _ uid); cbn; by rewrite IH.
Qed.

(** *** POST /upload-profile on the reference backend *)

Context `{Platform}.

Lemma profile_requests_mem uid content mime st calls st' ok :
  profile_requests backend uid content mime st calls st' ok ->
  one_record_per_identifier st -> faults_are_failures st ->
  one_record_per_identifier st' /\ faults_are_failures st' /\
  (ok = true ->
     objects st' !! ("profiles", profile_key uid) = Some content /\
     (exists record, records_of uid st' = [record] /\
                     profile_image_url record = Some (profile_url uid)) /\
     exists more,
       calls = ([profile_upload uid content mime; SelectUserId uid] ++ more)%list /\
       match records_of uid st with
       | [] => exists created, more = [DateNow; profile_insert uid created]
       | _ :: _ => more = [profile_update uid]
       end).
Proof.
  unfold one_record_per_identifier, records_of.
  intros Hrun Hone Hfaults.
  inversion Hrun as
    [ e s1 Hupload
    | s1 e s2 Hupload Hlookup Hcode
    | s1 id s2 updated s3 Hupload Hlookup Hupdate
    | s1 e s2 created s3 inserted s4 Hupload Hlookup Hcode Hnow Hinsert ]; subst.
  all: pose proof (upload_users _ _ _ _ _ _ _ Hupload) as Husers1.
  all: pose proof (backend_faults _ _ _ _ Hupload Hfaults) as Hfaults1.
  - by rewrite Husers1.
  - destruct (lookup_users _ _ _ _ Hlookup) as [Husers2 _].
    pose proof (backend_faults _ _ _ _ Hlookup Hfaults1) as Hfaults2.
    by rewrite Husers2, Husers1.
  - destruct (lookup_users _ _ _ _ Hlookup) as [Husers2 Hobjects2].
    pose proof (backend_faults _ _ _ _ Hlookup Hfaults1) as Hfaults2.
    pose proof (backend_faults _ _ _ _ Hupdate Hfaults2) as Hfaults3.
    destruct (update_users _ _ _ _ _ Hupdate) as [Hobjects3 Husers3].
    pose proof (lookup_answer uid s1 _ _ Hlookup Hfaults1) as [record Hrecord].
    unfold records_of in Hrecord. rewrite Husers1 in Hrecord.
    split; [|split; [done|]].
    + rewrite Husers3. destruct (succeeded updated).
      * by rewrite updated_identifiers, Husers2, Husers1.
      * by rewrite Husers2, Husers1.
    + intros Hok. rewrite Hok in Husers3. split; [|split].
      * rewrite Hobjects3, Hobjects2. by eapply upload_overwrites.
      * rewrite Husers3, Husers2, Husers1, updated_records, Hrecord. cbn.
        eexists. split; [reflexivity|].
        unfold set_profile_image.
        rewrite (matching_member uid (users st) record) by (rewrite Hrecord; set_solver).
        by rewrite String.eqb_refl.
      * eexists. split; [reflexivity|]. by rewrite Hrecord.
  - destruct (lookup_users _ _ _ _ Hlookup) as [Husers2 Hobjects2].
    destruct (clock_users _ _ _ Hnow) as [Husers3 Hobjects3].
    pose proof (backend_faults _ _ _ _ Hlookup Hfaults1) as Hfaults2.
    pose proof (backend_faults _ _ _ _ Hnow Hfaults2) as Hfaults3.
    pose proof (backend_faults _ _ _ _ Hinsert Hfaults3) as Hfaults4.
    destruct (insert_user _ _ _ _ _ Hinsert) as [Hobjects4 Husers4].
    pose proof (lookup_answer uid s1 _ _ Hlookup Hfaults1 Hcode) as Hnone.
    unfold records_of in Hnone. rewrite Husers1 in Hnone.
    apply matching_at_most_one in Hnone; [|done].
    split; [|split; [done|]].
    + destruct (succeeded inserted).
      * destruct Husers4 as (record & -> & Hid & _).
        rewrite Husers3, Husers2, Husers1, map_app. cbn. rewrite Hid.
        apply NoDup_app. split; [done|]. split; [|apply NoDup_singleton].
        intros x Hx ->%list_elem_of_singleton. by apply matching_none in Hnone.
      * by rewrite Husers4, Husers3, Husers2, Husers1.
    + intros Hok. rewrite Hok in Husers4.
      destruct Husers4 as (record & -> & Hid & Hurl). split; [|split].
      * rewrite Hobjects4, Hobjects3, Hobjects2. by eapply upload_overwrites.
      * rewrite Husers3, Husers2, Husers1, List.filter_app, Hnone. cbn.
        rewrite Hid, String.eqb_refl. eauto.
      * eexists. split; [reflexivity|]. rewrite Hnone. eauto.
Qed.

End MemRequests.

Section ProfileRecords.
Context `{Platform}.

Lemma truthy_text (s : option string) :
  truthy s = true -> exists text, s = Some text /\ text <> "".
Proof. destruct s as [[|c text]|]; [done| |done]. intros _. by eexists. Qed.

(** POST /upload-profile on the reference backend, whatever the request. *)
Lemma upload_profile_on_mem req (w : World Mem.State) :
  one_record_per_identifier (remote w) -> faults_are_failures (remote w) ->
  let out := (post_upload_profile Mem.backend req w).1 in
  let w' := (post_upload_profile Mem.backend req w).2 in
  one_record_per_identifier (remote w') /\ faults_are_failures (remote w') /\
  forall resp, out = Returned resp -> status resp = 200%N ->
    exists f uid content record more,
      file req = Some f /\ user_id req = Some uid /\ fs w !! path f = Some content /\
      resp = {| status := 200;
                body := JObj [ ("message", JStr "Imagem de perfil atualizada com sucesso!");
                               ("profileImageUrl", JStr (profile_url uid)) ] |} /\
      trace w' = (trace w ++ [profile_upload uid content (mimetype f); SelectUserId uid]
                    ++ more)%list /\
      match records_of uid (remote w) with
      | [] => exists created, more = [DateNow; profile_insert uid created]
      | _ :: _ => more = [profile_update uid]
      end /\
      Mem.objects (remote w') !! ("profiles", profile_key uid) = Some content /\
      records_of uid (remote w') = [record] /\
      Mem.profile_image_url record = Some (profile_url uid).
Proof.
  intros Hone Hfaults out w'. subst out w'.
  destruct (file req) as [f|] eqn:Hfile; cycle 1.
  { destruct (upload_profile_not_started Mem.backend req w) as (-> & _ & resp & -> & Hresp);
      [by left|].
    split; [done|]. split; [done|]. by intros ? [= <-] ?. }
  destruct (truthy (user_id req)) eqn:Htruthy; cycle 1.
  { destruct (upload_profile_not_started Mem.backend req w) as (-> & _ & resp & -> & Hresp);
      [by right; left|].
    split; [done|]. split; [done|]. by intros ? [= <-] ?. }
  destruct (fs w !! path f) as [content|] eqn:Hcontent; cycle 1.
  { destruct (upload_profile_not_started Mem.backend req w) as (-> & _ & resp & -> & Hresp);
      [right; right; eauto|].
    split; [done|]. split; [done|]. by intros ? [= <-] ?. }
  destruct (truthy_text _ Htruthy) as (uid & Huid & Hne).
  destruct (upload_profile_requests Mem.backend req f uid content w Hfile Huid Hne Hcontent)
    as (calls & ok & Hrequests & Htrace & Hout).
  destruct (profile_requests_mem _ _ _ _ _ _ _ Hrequests Hone Hfaults)
    as (Hone' & Hfaults' & Hok).
  split; [done|]. split; [done|].
  intros resp Hresp Hstatus. destruct ok.
  - destruct (Hok eq_refl) as (Hobject & (record & Hrecord & Hurl) & more & -> & Hmore).
    rewrite Hout in Hresp. injection Hresp as <-.
    exists f, uid, content, record, more. by repeat split.
  - destruct Hout as (resp' & Hout & Hfailed). rewrite Hout in Hresp.
    injection Hresp as <-. by rewrite Hfailed in Hstatus.
Qed.

(** C6, amended.  Served alone by the store, with no request of another
    client between its lookup and its write, POST /upload-profile keeps
    at most one user record per external identifier.  When it succeeds,
    it has uploaded the file under [profile_{user_id}.jpg] with
    [upsert: true], replacing the object that was there, has looked the
    record up by the identifier, and has updated it when there was one
    and inserted it when there was none; afterwards exactly one record
    carries the identifier, with the new reference. *)
Theorem upload_profile_keeps_one_record req (w : World Mem.State) :
  one_record_per_identifier (remote w) -> faults_are_failures (remote w) ->
  let out := (post_upload_profile Mem.backend req w).1 in
  let w' := (post_upload_profile Mem.backend req w).2 in
  one_record_per_identifier (remote w') /\ faults_are_failures (remote w') /\
  forall resp, out = Returned resp -> status resp = 200%N ->
    exists f uid content record more,
      let key := "profile_" ++ uid ++ ".jpg" in
      file req = Some f /\ user_id req = Some uid /\ fs w !! path f = Some content /\
      trace w' = (trace w ++
                    [ StorageUpload "profiles" key content
                        {| cacheControl := "3600"; upsert := true;
                           contentType := mimetype f |};
                      SelectUserId uid ] ++ more)%list /\
      match records_of uid (remote w) with
      | [] => exists created, more = [DateNow; profile_insert uid created]
      | _ :: _ => more = [profile_update uid]
      end /\
      Mem.objects (remote w') !! ("profiles", key) = Some content /\
      records_of uid (remote w') = [record] /\
      Mem.profile_image_url record = Some (getPublicUrl "profiles" key).
Proof.
  intros Hone Hfaults.
  destruct (upload_profile_on_mem req w Hone Hfaults) as (Hone' & Hfaults' & Hsuccess).
  split; [done|]. split; [done|].
  intros resp Hresp Hstatus.
  destruct (Hsuccess resp Hresp Hstatus)
    as (f & uid & content & record & more & ? & ? & ? & _ & ? & ? & ? & ? & ?).
  exists f, uid, content, record, more. by repeat split.
Qed.

Lemma profile_image_lookup uid (st : Mem.State) :
  (forall e, head (Mem.faults st) <> Some (Some e)) ->
  Mem.backend (SelectUserProfileImage uid) st =
    (Mem.single (List.map Mem.profile_image_url (records_of uid st)), Mem.consume st).
Proof.
  intros Hnone. cbn. unfold Mem.request.
  destruct (head (Mem.faults st)) as [[e|]|]; [by destruct (Hnone e)|done|done].
Qed.

(** An identifier without record is answered "user not found". *)
Lemma unknown_user_is_not_found uid (w : World Mem.State) :
  records_of uid (remote w) = [] ->
  (forall e, head (Mem.faults (remote w)) <> Some (Some e)) ->
  (get_profile_image Mem.backend uid w).1 =
    Returned {| status := 404; body := JObj [("error", JStr "Usuário não encontrado")] |}.
Proof.
  intros Hnone Hnofault. eapply get_profile_image_unknown.
  - rewrite profile_image_lookup by done. rewrite Hnone. reflexivity.
  - reflexivity.
Qed.

(** GET /profile-image/:user_id when the lookup finds a reference that
    starts with "http": the whole run. *)
Lemma get_profile_image_as_is_run {S} (supabase : Backend S) uid url (w : World S) s' :
  supabase (SelectUserProfileImage uid) (remote w) = (Success (Some url), s') ->
  startsWith url "http" = true ->
  get_profile_image supabase uid w =
    (Returned {| status := 200; body := JObj [("profileImageUrl", JStr url)] |},
     mkWorld (fs w) s' (trace w ++ [SelectUserProfileImage uid]) (console w)).
Proof.
  intros Hfetch Hhttp. unfold get_profile_image, try_catch, mbind, M_bind, call.
  rewrite Hfetch. destruct url as [|c url]; [done|].
  cbn [truthy negb template js_string]. rewrite Hhttp. reflexivity.
Qed.

(** The one write of a successful POST /upload-profile, on any store. *)
Lemma upload_profile_write {S} (supabase : Backend S) req (w w' : World S) resp :
  post_upload_profile supabase req w = (Returned resp, w') -> status resp = 200%N ->
  exists uid earlier write,
    user_id req = Some uid /\
    trace w' = (earlier ++ [write])%list /\
    (write = profile_update uid \/ exists created, write = profile_insert uid created) /\
    field "profileImageUrl" (body resp) = Some (JStr (profile_url uid)).
Proof.
  intros Hrun Hstatus.
  assert (forall reason, reason -> (reason ->
            exists resp', (post_upload_profile supabase req w).1 = Returned resp' /\
                          status resp' <> 200%N) -> False) as Hstarted.
  { intros reason Hreason Hnot. destruct (Hnot Hreason) as (resp' & Hout & Hne).
    rewrite Hrun in Hout. injection Hout as <-. done. }
  destruct (file req) as [f|] eqn:Hfile; cycle 1.
  { exfalso. apply (Hstarted _ Hfile). intros _.
    apply (upload_profile_not_started supabase req w). by left. }
  destruct (truthy (user_id req)) eqn:Htruthy; cycle 1.
  { exfalso. apply (Hstarted _ Htruthy). intros _.
    apply (upload_profile_not_started supabase req w). by right; left. }
  destruct (fs w !! path f) as [content|] eqn:Hcontent; cycle 1.
  { exfalso. apply (Hstarted _ Hcontent). intros _.
    apply (upload_profile_not_started supabase req w). right; right; eauto. }
  destruct (truthy_text _ Htruthy) as (uid & Huid & Hne).
  destruct (upload_profile_requests supabase req f uid content w Hfile Huid Hne Hcontent)
    as (calls & ok & Hrequests & Htrace & Hout).
  rewrite Hrun in *. cbn [fst snd] in *.
  destruct ok; cycle 1.
  { destruct Hout as (resp' & [= <-] & Hfailed). by rewrite Hfailed in Hstatus. }
  injection Hout as ->.
  assert (exists earlier write,
            trace w' = (earlier ++ [write])%list /\
            (write = profile_update uid \/
             exists created, write = profile_insert uid created))
    as (earlier & write & Hlast & Hwrite).
  { clear Hstatus Hrun Hstarted. inversion Hrequests; subst.
    - eexists (trace w ++ [_; _])%list, _.
      split; [by rewrite Htrace, <- app_assoc|]. by left.
    - eexists (trace w ++ [_; _; _])%list, _.
      split; [by rewrite Htrace, <- app_assoc|]. right. by eexists. }
  by exists uid, earlier, write.
Qed.

(** C10, amended.  POST /upload-profile writes the public URL of the
    object, never its key, as the reference of the user, on any store;
    GET /profile-image/:user_id, on any store, returns a reference that
    starts with "http" as it is, after the one lookup that found it; so
    that, as long as one record carries the identifier, the GET that
    follows a successful upload returns the URL of the upload's answer.
    The public URLs of the bucket are taken to start with "http", as
    they do for a project URL that the client can reach. *)
Theorem profile_image_round_trip :
  (forall key, startsWith (getPublicUrl "profiles" key) "http" = true) ->
  (forall S (supabase : Backend S) req (w w' : World S) resp,
     post_upload_profile supabase req w = (Returned resp, w') -> status resp = 200%N ->
     exists uid earlier write,
       user_id req = Some uid /\
       trace w' = (earlier ++ [write])%list /\
       (write = profile_update uid \/ exists created, write = profile_insert uid created) /\
       field "profileImageUrl" (body resp) = Some (JStr (profile_url uid)) /\
       profile_url uid <> profile_key uid) /\
  (forall S (supabase : Backend S) uid (w : World S) url s',
     supabase (SelectUserProfileImage uid) (remote w) = (Success (Some url), s') ->
     startsWith url "http" = true ->
     (get_profile_image supabase uid w).1 =
       Returned {| status := 200; body := JObj [("profileImageUrl", JStr url)] |} /\
     trace (get_profile_image supabase uid w).2
       = (trace w ++ [SelectUserProfileImage uid])%list) /\
  (forall req (w w' : World Mem.State) resp,
     one_record_per_identifier (remote w) -> faults_are_failures (remote w) ->
     post_upload_profile Mem.backend req w = (Returned resp, w') -> status resp = 200%N ->
     exists uid record,
       user_id req = Some uid /\
       records_of uid (remote w') = [record] /\
       Mem.profile_image_url record = Some (profile_url uid) /\
       forall w2 : World Mem.State,
         Mem.users (remote w2) = Mem.users (remote w') ->
         (forall e, head (Mem.faults (remote w2)) <> Some (Some e)) ->
         Mem.backend (SelectUserProfileImage uid) (remote w2)
           = (Success (Some (profile_url uid)), Mem.consume (remote w2)) /\
         (get_profile_image Mem.backend uid w2).1 =
           Returned {| status := 200;
                       body := JObj [("profileImageUrl", JStr (profile_url uid))] |}).
Proof.
  intros Hhttp. split; [|split].
  - intros S supabase req w w' resp Hrun Hstatus.
    destruct (upload_profile_write supabase req w w' resp Hrun Hstatus)
      as (uid & earlier & write & Huid & Htrace & Hwrite & Hanswer).
    exists uid, earlier, write. repeat (split; [done|]).
    intros Hkey. specialize (Hhttp (profile_key uid)).
    unfold profile_url in Hkey. rewrite Hkey in Hhttp. done.
  - intros S supabase uid w url s' Hfetch Hurl.
    by rewrite (get_profile_image_as_is_run supabase uid url w s' Hfetch Hurl).
  - intros req w w' resp Hone Hfaults Hrun Hstatus.
    destruct (upload_profile_on_mem req w Hone Hfaults) as (_ & _ & Hsuccess).
    rewrite Hrun in Hsuccess. cbn in Hsuccess.
    destruct (Hsuccess resp eq_refl Hstatus)
      as (f & uid & content & record & more & _ & Huid & _ & -> & _ & _ & _ & Hrecord & Hurl).
    exists uid, record. repeat (split; [done|]).
    intros w2 Husers Hnofault.
    assert (Mem.backend (SelectUserProfileImage uid) (remote w2)
            = (Success (Some (profile_url uid)), Mem.consume (remote w2))) as Hfetch.
    { rewrite profile_image_lookup by done.
      unfold records_of in *. rewrite Husers, Hrecord. cbn. by rewrite Hurl. }
    split; [exact Hfetch|].
    rewrite (get_profile_image_as_is_run Mem.backend uid _ w2 _ Hfetch); [done|].
    apply Hhttp.
Qed.

End ProfileRecords.

(** ** The properties on the scenarios *)

Section Scenarios.
#[local] Existing Instance Node.platform.
Import Scenario.

(** The request without [user_id] leaves the file of [cat] behind, on
    both upload routes. *)
(** The answer of a run, computed once; the world it leaves stays
    [run.2]. *)
Ltac evaluate run H :=
  let v := eval vm_compute in (run.1) in
  assert (run = (v, run.2)) as H
    by (transitivity (run.1, run.2); [by destruct run | f_equal; vm_compute; reflexivity]).

Lemma upload_rejection_keeps_file_witness :
  file anonymous = Some cat /\ truthy (user_id anonymous) = false /\
  fs start !! path cat = Some "PNG" /\
  fs (post_upload Mem.backend anonymous start).2 !! path cat = Some "PNG" /\
  fs (post_upload_profile Mem.backend anonymous start).2 !! path cat = Some "PNG".
Proof.
  split; [reflexivity|]. split; [reflexivity|]. split; [reflexivity|].
  split; apply (upload_rejection_keeps_file Mem.backend anonymous cat "PNG" start
                  eq_refl eq_refl eq_refl).
Defined.

(** The photo is stored with a null latitude ("abc" is not a number) and
    the longitude 12, and the answer says the same. *)
Lemma upload_stores_parsed_fields_witness :
  let run := post_upload Mem.backend photo start in
  exists resp row,
    run.1 = Returned resp /\ status resp = 200%N /\
    last (trace run.2) = Some (InsertImages (JArr [row])) /\
    field "latitude" row = Some JNull /\
    field "latitude" (body resp) = Some JNull /\
    field "longitude" row = Some (JNum (Node.parseFloat "12")) /\
    field "longitude" (body resp) = Some (JNum (Node.parseFloat "12")).
Proof.
  intros run. evaluate run Hrun.
  destruct (upload_stores_parsed_fields Mem.backend photo start _ _ Hrun eq_refl)
    as (row & earlier & s & first & rest & lat & lon & note & Htrace & _ & _ &
        Hlat1 & Hlat2 & (_ & Hnan & _) & Hlon1 & Hlon2 & (_ & _ & _ & Hfinite) & _).
  pose proof (Hnan "abc" eq_refl eq_refl) as ->.
  destruct (Hfinite "12" eq_refl eq_refl eq_refl) as (x & -> & [-> | (sx & sy & _ & Hzero)]);
    [|discriminate Hzero].
  eexists _, row. split; [by rewrite Hrun|]. split; [reflexivity|].
  split; [by rewrite Htrace, last_snoc|]. auto.
Defined.

(** The record "1" exists and the store is unreachable when it is
    fetched: the error is no PGRST116, and the answer is 404 "not
    found", not 500 with the message of the error. *)
Lemma delete_fetch_error_is_not_found_witness :
  Mem.backend (SelectImageUrl "1") (remote outage)
    = (Failure connection_refused, Mem.consume (remote outage)) /\
  code connection_refused <> Some "PGRST116" /\
  (delete_image Mem.backend "1" outage).1 =
    Returned {| status := 404; body := JObj [("error", JStr "Imagem não encontrada")] |} /\
  (delete_image Mem.backend "1" outage).1 <>
    Returned {| status := 500;
                body := JObj [ ("error", JStr "Erro ao excluir imagem");
                               ("details", JStr (message connection_refused)) ] |}.
Proof.
  split; [reflexivity|]. split; [discriminate|].
  destruct (delete_fetch_error_is_not_found Mem.backend "1" outage connection_refused
              (Mem.consume (remote outage)) eq_refl) as [Hout _].
  split; [exact Hout|]. rewrite Hout. discriminate.
Defined.

(** C2 as stated fails.  The latitude of [survey] is a number, which
    [parseFloat] reads as [Infinity]; the upload succeeds, and the
    record and the answer hold [null], not the parsed number. *)
Lemma upload_infinite_coordinate_counterexample :
  let run := post_upload Mem.backend Overflow.survey start in
  Node.parseFloat Overflow.beyond_doubles = S754_infinity false /\
  exists resp row lat,
    run.1 = Returned resp /\ status resp = 200%N /\
    last (trace run.2) = Some (InsertImages (JArr [row])) /\
    field "latitude" row = Some lat /\ field "latitude" (body resp) = Some lat /\
    ~ coordinate_claimed (latitude Overflow.survey) lat.
Proof.
  intros run. split; [vm_compute; reflexivity|].
  eexists _, _, JNull.
  split; [vm_compute; reflexivity|]. split; [reflexivity|].
  split; [vm_compute; reflexivity|]. split; [reflexivity|]. split; [reflexivity|].
  intros (_ & _ & Hparsed).
  destruct (Hparsed Overflow.beyond_doubles eq_refl eq_refl) as (x & Hx & _);
    [vm_compute; discriminate | discriminate Hx].
Qed.

(** The gallery is listed whole: the full URL as it is, the kept object
    with the URL the store signs, the lost one, for which the store
    refuses to sign, with its public URL. *)
Lemma list_resolves_every_url_witness :
  Mem.backend SelectImages (remote gallery)
    = (Success [linked; kept; lost], Mem.consume (remote gallery)) /\
  exists views,
    (get_images Mem.backend gallery).1 = Returned {| status := 200; body := JArr views |} /\
    Forall2 (fun resolution view =>
               field "id" view = Some (JStr (image_id resolution.1)) /\
               field "url" view = Some (JStr resolution.2))
            [ (linked, "https://cdn.example/x.jpg");
              (kept, Mem.signed_url "imagens" "images/1_a.png" 3600);
              (lost, Node.getPublicUrl "imagens" "images/2_b.png") ]
            views /\
    trace (get_images Mem.backend gallery).2
      = [SelectImages; signature_request kept; signature_request lost].
Proof.
  split; [reflexivity|].
  destruct (list_resolves_every_url Mem.backend gallery [linked; kept; lost]
              (Mem.consume (remote gallery)) eq_refl)
    as (views & urls & calls & Hout & Hall & Htrace & _ & Hviews).
  assert (exists s',
            all_resolved Mem.backend [linked; kept; lost] (Mem.consume (remote gallery))
              [ image_url linked;
                Mem.signed_url "imagens" (image_url kept) 3600;
                getPublicUrl "imagens" (image_url lost) ]
              ([] ++ [signature_request kept] ++ [signature_request lost] ++ [])%list s')
    as (s' & Hexpected).
  { eexists.
    eapply next_resolved; [by apply reference_kept|].
    eapply next_resolved; [by eapply reference_signed|].
    eapply next_resolved; [by eapply reference_public|].
    apply none_resolved. }
  destruct (all_resolved_once Mem.backend _ _ _ _ _ _ _ _ Hall Hexpected) as (-> & -> & _).
  exists views. split; [exact Hout|]. split; [exact Hviews | exact Htrace].
Defined.

(** Storage and metadata fail while the record "2" is deleted: the
    answer is still [{success: true}] and both errors are on the
    console. *)
Lemma delete_is_best_effort_witness :
  (delete_image Mem.backend "2" degraded).1 =
    Returned {| status := 200; body := JObj [("success", JBool true)] |} /\
  {| level := Error; printed := [PStr "Erro ao deletar do storage:"; PErr storage_down] |}
    ∈ console (delete_image Mem.backend "2" degraded).2 /\
  {| level := Warn; printed := [PStr "Erro ao deletar metadata:"; PErr connection_refused] |}
    ∈ console (delete_image Mem.backend "2" degraded).2.
Proof.
  destruct (delete_is_best_effort Mem.backend "2" degraded
              "images/1_a.png" _ (Failure storage_down) _ (Success tt) _
              (Failure connection_refused) _ eq_refl eq_refl eq_refl eq_refl)
    as (Hstorage & Hout & _ & Hmetadata).
  split; [exact Hout|]. split; [exact (Hstorage _ eq_refl) | exact (Hmetadata _ eq_refl)].
Defined.

(** The user "u2" is known and has no picture. *)
Lemma profile_image_cases_witness :
  Mem.backend (SelectUserProfileImage "u2") (remote registry)
    = (Success None, Mem.consume (remote registry)) /\
  (get_profile_image Mem.backend "u2" registry).1 =
    Returned {| status := 404;
                body := JObj [("error", JStr "Imagem de perfil não encontrada")] |}.
Proof.
  split; [reflexivity|].
  destruct (profile_image_cases Mem.backend "u2" registry (Success None)
              (Mem.consume (remote registry)) eq_refl) as (_ & Hnone & _).
  exact (Hnone None eq_refl eq_refl).
Defined.

(** The photo goes to [images/1700000000000_cat.png], without overwrite,
    and the record refers to that key. *)
Lemma upload_key_and_reference_witness :
  let run := post_upload Mem.backend photo start in
  exists resp row,
    run.1 = Returned resp /\ status resp = 200%N /\
    trace run.2 =
      [ DateNow;
        StorageUpload "imagens" "images/1700000000000_cat.png" "PNG"
          {| cacheControl := "3600"; upsert := false; contentType := "image/png" |};
        DateNow;
        InsertImages (JArr [row]) ] /\
    field "url" row = Some (JStr "images/1700000000000_cat.png") /\
    field "imageUrl" (body resp) =
      Some (JStr (Node.getPublicUrl "imagens" "images/1700000000000_cat.png")).
Proof.
  intros run. evaluate run Hrun.
  destruct (upload_key_and_reference Mem.backend photo start _ _ Hrun eq_refl)
    as (f & content & now & s1 & name & row & Hfile & Hcontent & Hnow & Hname & _ &
        Htrace & Hurl & Himage).
  injection Hfile as <-. injection Hcontent as <-. injection Hnow as <- <-.
  pose proof (Hname "cat.png" eq_refl ltac:(discriminate)) as ->.
  eexists _, row. split; [by rewrite Hrun|]. split; [reflexivity|]. auto.
Defined.

(** The first image of the gallery has zero coordinates and an empty
    analysis: the list shows three nulls. *)
Lemma list_nulls_falsy_fields_witness :
  Mem.backend SelectImages (remote gallery)
    = (Success [linked; kept; lost], Mem.consume (remote gallery)) /\
  exists view views,
    (get_images Mem.backend gallery).1
      = Returned {| status := 200; body := JArr (view :: views) |} /\
    field "latitude" view = Some JNull /\
    field "longitude" view = Some JNull /\
    field "analysis" view = Some JNull.
Proof.
  split; [reflexivity|].
  destruct (list_nulls_falsy_fields Mem.backend gallery [linked; kept; lost]
              (Mem.consume (remote gallery)) eq_refl) as (views & Hout & Hall).
  inversion Hall as [|image view images views' (Hlat & Hlon & Hnote) _ E1 E2].
  subst. exists view, views'. split; [exact Hout|].
  split; [exact (Hlat false eq_refl)|]. split; [exact (Hlon true eq_refl) | exact (Hnote eq_refl)].
Defined.

(** A first picture for "u1" creates the record; a second one replaces
    the object and updates the record, which stays alone. *)
Lemma upload_profile_keeps_one_record_witness :
  let w1 := (post_upload_profile Mem.backend photo start).2 in
  let w2 := (post_upload_profile Mem.backend portrait w1).2 in
  one_record_per_identifier (remote w1) /\ faults_are_failures (remote w1) /\
  one_record_per_identifier (remote w2) /\
  Mem.objects (remote w1) !! ("profiles", "profile_u1.jpg") = Some "PNG" /\
  Mem.objects (remote w2) !! ("profiles", "profile_u1.jpg") = Some "JPEG" /\
  length (records_of "u1" (remote w2)) = 1%nat /\
  trace w2 = (trace w1 ++
                [ StorageUpload "profiles" "profile_u1.jpg" "JPEG"
                    {| cacheControl := "3600"; upsert := true; contentType := "image/jpeg" |};
                  SelectUserId "u1";
                  profile_update "u1" ])%list.
Proof.
  intros w1 w2.
  assert (one_record_per_identifier (remote w1)) as Hone.
  { apply (bool_decide_unpack _). vm_compute. exact I. }
  assert (faults_are_failures (remote w1)) as Hfaults by constructor.
  destruct (upload_profile_keeps_one_record portrait w1 Hone Hfaults)
    as (Hone2 & _ & Hsuccess).
  destruct (Hsuccess _ eq_refl eq_refl)
    as (f & uid & content & record & more & Hfile & Huid & Hcontent & Htrace & Hmore &
        Hobject & Hrecord & _).
  injection Hfile as <-. injection Huid as <-. injection Hcontent as <-.
  cbn in Hmore. rewrite Hmore in Htrace.
  split; [exact Hone|]. split; [exact Hfaults|]. split; [exact Hone2|].
  split; [reflexivity|]. split; [exact Hobject|].
  split; [exact (f_equal length Hrecord) | exact Htrace].
Defined.

(** C6 as stated fails.  Two clients send a first picture for "u1";
    both lookups are answered before either record is written, both
    requests are answered 200, and two records carry the identifier. *)
Lemma upload_profile_race_counterexample :
  let run := post_upload_profile Race.two_clients portrait start in
  let uploaded := (Mem.backend (profile_upload "u1" "JPEG" "image/jpeg") (remote start)).2 in
  let looked_up := (Mem.backend (SelectUserId "u1") uploaded).2 in
  let other := post_upload_profile Mem.backend photo (mkWorld files looked_up [] []) in
  one_record_per_identifier (remote start) /\
  (exists resp, run.1 = Returned resp /\ status resp = 200%N) /\
  (exists resp, other.1 = Returned resp /\ status resp = 200%N) /\
  (exists created,
     trace run.2 = [ profile_upload "u1" "JPEG" "image/jpeg"; SelectUserId "u1";
                     DateNow; profile_insert "u1" created ]) /\
  length (records_of "u1" (remote run.2)) = 2%nat /\
  ~ one_record_per_identifier (remote run.2).
Proof.
  intros run uploaded looked_up other. split; [constructor|].
  split; [eexists; split; [vm_compute; reflexivity | reflexivity]|].
  split; [eexists; split; [vm_compute; reflexivity | reflexivity]|].
  split; [exists 1700000000001%N; vm_compute; reflexivity|].
  split; [vm_compute; reflexivity|].
  intros Hone. apply (bool_decide_pack _) in Hone. vm_compute in Hone. exact Hone.
Qed.

(** After the upload for "u1", the profile image fetched for "u1" is the
    URL the upload answered, returned as the lookup found it. *)
Lemma profile_image_round_trip_witness :
  let w' := (post_upload_profile Mem.backend photo start).2 in
  (forall key, startsWith (Node.getPublicUrl "profiles" key) "http" = true) /\
  one_record_per_identifier (remote start) /\ faults_are_failures (remote start) /\
  Mem.backend (SelectUserProfileImage "u1") (remote w')
    = (Success (Some (Node.getPublicUrl "profiles" "profile_u1.jpg")),
       Mem.consume (remote w')) /\
  (get_profile_image Mem.backend "u1" w').1 =
    Returned {| status := 200;
                body := JObj [("profileImageUrl",
                               JStr (Node.getPublicUrl "profiles" "profile_u1.jpg"))] |}.
Proof.
  intros w'.
  assert (forall key, startsWith (Node.getPublicUrl "profiles" key) "http" = true)
    as Hhttp by (intros; reflexivity).
  assert (one_record_per_identifier (remote start)) as Hone by constructor.
  assert (faults_are_failures (remote start)) as Hfaults by constructor.
  split; [exact Hhttp|]. split; [exact Hone|]. split; [exact Hfaults|].
  destruct (profile_image_round_trip (H := Node.platform) Hhttp) as (_ & _ & Hround).
  destruct (Hround photo start w' _ Hone Hfaults eq_refl eq_refl)
    as (uid & record & Huid & _ & _ & Hget).
  injection Huid as <-.
  apply (Hget w' eq_refl). intros e. discriminate.
Defined.

(** C10 as stated fails.  After the two first pictures for "u1" of
    [Race.two_clients], both answered 200 with the public URL, two records
    written by the gateway carry the identifier, and the GET that
    follows is answered 404 "user not found", not the URL. *)
Lemma profile_image_race_counterexample :
  let run := post_upload_profile Race.two_clients portrait start in
  run.1 = Returned
            {| status := 200;
               body := JObj [ ("message", JStr "Imagem de perfil atualizada com sucesso!");
                              ("profileImageUrl",
                               JStr (Node.getPublicUrl "profiles" "profile_u1.jpg")) ] |} /\
  List.map Mem.profile_image_url (records_of "u1" (remote run.2))
    = [ Some (Node.getPublicUrl "profiles" "profile_u1.jpg");
        Some (Node.getPublicUrl "profiles" "profile_u1.jpg") ] /\
  (get_profile_image Mem.backend "u1" run.2).1 =
    Returned {| status := 404; body := JObj [("error", JStr "Usuário não encontrado")] |} /\
  (get_profile_image Mem.backend "u1" run.2).1 <>
    Returned {| status := 200;
                body := JObj [("profileImageUrl",
                               JStr (Node.getPublicUrl "profiles" "profile_u1.jpg"))] |}.
Proof.
  intros run. split; [vm_compute; reflexivity|]. split; [vm_compute; reflexivity|].
  assert ((get_profile_image Mem.backend "u1" run.2).1 =
            Returned {| status := 404;
                        body := JObj [("error", JStr "Usuário não encontrado")] |})
    as Hout by (vm_compute; reflexivity).
  split; [exact Hout|]. rewrite Hout. discriminate.
Qed.

End Scenarios.

(** * Further properties of the handlers *)

Section Validation.
Context `{Platform} {S : Type} (supabase : Backend S).

Lemma rejects_invalid_upload handler logged generic received_request (w : World S) :
  handler = post_upload supabase \/ handler = post_upload_profile supabase ->
  rejects_invalid (received handler logged generic) generic received_request w.
Proof.
  intros Hhandler. unfold rejects_invalid.
  destruct received_request as [req|]; cycle 1.
  { exists (server_error generic undefined_body).
    split; [reflexivity|]. split; [split; [done|by intros (req & ? & _)]|].
    split; [done|]. split; [done|]. done. }
  cbn [received].
  destruct (file req) as [f|] eqn:Hfile; cycle 1.
  { exists {| status := 400; body := JObj [("error", JStr "Nenhuma imagem enviada")] |}.
    destruct Hhandler as [-> | ->];
      unfold post_upload, post_upload_profile, try_catch; rewrite Hfile; cbn;
      (split; [reflexivity|]; split; [split; eauto|]; split; [auto|]; split; [auto|done]). }
  destruct (truthy (user_id req)) eqn:Huid; cycle 1.
  { exists {| status := 400; body := JObj [("error", JStr "user_id é obrigatório")] |}.
    destruct Hhandler as [-> | ->];
      unfold post_upload, post_upload_profile, try_catch; rewrite Hfile, Huid; cbn;
      (split; [reflexivity|]; split; [split; eauto|]; split; [auto|];
       split; [intros ? [= <-]; congruence|done]). }
  assert (exists resp, (handler req w).1 = Returned resp /\ status resp <> 400%N)
    as (resp & Hout & Hstatus).
  { destruct Hhandler as [-> | ->];
      unfold post_upload, post_upload_profile; rewrite Hfile, Huid; run; eauto. }
  exists resp. split; [done|].
  split; [split; [done|intros (? & [= <-] & [|]); congruence]|].
  split; [done|]. split; [intros ? [= <-]; congruence|done].
Qed.

(** X1.  The two upload routes answer 400 exactly for a request with a
    body ([req.body] an object) that has no file or no [user_id]; the
    missing file is reported first; a rejected request causes no request
    to the store, no output and no change of the local files.  A request
    without body ([req.body] undefined) is answered 500 with the message
    of the TypeError that the destructuring of [req.body] throws, and
    likewise reaches neither the store nor the local files. *)
Theorem upload_rejects_exactly_invalid received_request (w : World S) :
  rejects_invalid (upload_route supabase) "Erro ao fazer upload da imagem"
    received_request w /\
  rejects_invalid (upload_profile_route supabase)
    "Erro ao fazer upload da imagem de perfil" received_request w.
Proof. split; apply rejects_invalid_upload; auto. Qed.

(** X2.  Every handler answers: no exception leaves a route, and the
    status is one of those of its route. *)
Theorem handlers_always_answer (w : World S) :
  (exists resp, (get_images supabase w).1 = Returned resp /\
                (status resp = 200 \/ status resp = 500)%N) /\
  (forall req, exists resp, (post_upload supabase req w).1 = Returned resp /\
                (status resp = 200 \/ status resp = 400 \/ status resp = 500)%N) /\
  (forall id, exists resp, (delete_image supabase id w).1 = Returned resp /\
                (status resp = 200 \/ status resp = 404 \/ status resp = 500)%N) /\
  (forall req, exists resp, (post_upload_profile supabase req w).1 = Returned resp /\
                (status resp = 200 \/ status resp = 400 \/ status resp = 500)%N) /\
  (forall uid, exists resp, (get_profile_image supabase uid w).1 = Returned resp /\
                (status resp = 200 \/ status resp = 404 \/ status resp = 500)%N).
Proof.
  split; [|split; [|split; [|split]]].
  - destruct (supabase SelectImages (remote w)) as [[images|e] s1] eqn:Hselect.
    + destruct (get_images_views supabase w images s1 Hselect) as (urls & calls & -> & _). eauto.
    + rewrite (get_images_fetch_error supabase w e s1 Hselect). eauto.
  - intros req. apply post_upload_answers.
  - intros id. apply delete_image_answers.
  - intros req. apply post_upload_profile_answers.
  - intros uid. unfold get_profile_image. run; eauto.
Qed.

(** X3.  The upload routes touch no local file but the one of the
    request. *)
Theorem upload_keeps_other_files req (w : World S) p :
  (forall f, file req = Some f -> path f <> p) ->
  fs (post_upload supabase req w).2 !! p = fs w !! p /\
  fs (post_upload_profile supabase req w).2 !! p = fs w !! p.
Proof.
  intros Hother. unfold post_upload, post_upload_profile.
  destruct (file req) as [f|] eqn:Hfile; [|by unfold_monad].
  specialize (Hother f eq_refl).
  split; run; by rewrite ?lookup_delete_ne.
Qed.

(** X4.  When the transient file of a complete request cannot be read,
    the upload routes answer 500 with the message of the file system and
    make no request to the store. *)
Theorem upload_unreadable_file req f (w : World S) :
  file req = Some f -> truthy (user_id req) = true -> fs w !! path f = None ->
  (post_upload supabase req w).1 =
    Returned (server_error "Erro ao fazer upload da imagem" (ENOENT "open" (path f))) /\
  (post_upload_profile supabase req w).1 =
    Returned (server_error "Erro ao fazer upload da imagem de perfil"
                (ENOENT "open" (path f))) /\
  trace (post_upload supabase req w).2 = trace w /\
  trace (post_upload_profile supabase req w).2 = trace w.
Proof.
  intros Hfile Huid Hmissing. unfold post_upload, post_upload_profile.
  rewrite Hfile, Huid. unfold_monad. rewrite Hfile. cbn.
  repeat (rewrite Hmissing; cbn). done.
Qed.

(** POST /upload when the storage refuses the object. *)
Lemma post_upload_refused req f content (w : World S) now s1 e s2 :
  file req = Some f -> truthy (user_id req) = true -> fs w !! path f = Some content ->
  supabase DateNow (remote w) = (now, s1) ->
  supabase (image_upload now f content) s1 = (Failure e, s2) ->
  (post_upload supabase req w).1 = Returned (server_error "Erro ao fazer upload da imagem" e) /\
  trace (post_upload supabase req w).2 = (trace w ++ [DateNow; image_upload now f content])%list /\
  remote (post_upload supabase req w).2 = s2 /\
  fs (post_upload supabase req w).2 = delete (path f) (fs w).
Proof.
  intros Hfile Huid Hcontent Hnow Hupload. unfold post_upload, image_upload, storage_key in *.
  rewrite Hfile, Huid. unfold_monad. rewrite Hfile. cbn.
  rewrite Hcontent. cbn. rewrite Hnow. cbn. rewrite Hupload. cbn.
  repeat (rewrite Hcontent; cbn). rewrite <- !app_assoc. done.
Qed.

(** X5.  When the storage refuses the object, POST /upload answers 500
    with the message of the refusal, inserts no record and removes the
    transient file. *)
Theorem upload_storage_failure req f content (w : World S) now s1 e s2 :
  file req = Some f -> truthy (user_id req) = true -> fs w !! path f = Some content ->
  supabase DateNow (remote w) = (now, s1) ->
  supabase (image_upload now f content) s1 = (Failure e, s2) ->
  (post_upload supabase req w).1 = Returned (server_error "Erro ao fazer upload da imagem" e) /\
  trace (post_upload supabase req w).2 = (trace w ++ [DateNow; image_upload now f content])%list /\
  remote (post_upload supabase req w).2 = s2 /\
  fs (post_upload supabase req w).2 = delete (path f) (fs w).
Proof. apply post_upload_refused. Qed.

(** X6.  When the object is stored and the insert of the record fails,
    POST /upload answers 500 with the message of the failure and makes no
    further request: the object is not taken back. *)
Theorem upload_insert_failure req f content (w : World S) now s1 s2 created s3 e s4 :
  file req = Some f -> truthy (user_id req) = true -> fs w !! path f = Some content ->
  supabase DateNow (remote w) = (now, s1) ->
  supabase (image_upload now f content) s1 = (Success tt, s2) ->
  supabase DateNow s2 = (created, s3) ->
  supabase (image_insert req now created f) s3 = (Failure e, s4) ->
  (post_upload supabase req w).1 = Returned (server_error "Erro ao fazer upload da imagem" e) /\
  trace (post_upload supabase req w).2 =
    (trace w ++ [DateNow; image_upload now f content; DateNow;
                 image_insert req now created f])%list /\
  remote (post_upload supabase req w).2 = s4 /\
  fs (post_upload supabase req w).2 = delete (path f) (fs w).
Proof.
  intros Hfile Huid Hcontent Hnow Hupload Hcreated Hinsert.
  unfold post_upload, image_upload, image_insert, storage_key in *.
  rewrite Hfile, Huid. unfold_monad. rewrite Hfile. cbn.
  rewrite Hcontent. cbn. rewrite Hnow. cbn. rewrite Hupload. cbn. rewrite Hcreated. cbn.
  rewrite ?stringify_js_string, ?stringify_string_or_null.
  rewrite Hinsert. cbn.
  repeat (rewrite Hcontent; cbn). rewrite <- !app_assoc. done.
Qed.

End Validation.

Section RequestTraces.
Context `{Platform} {S : Type} (supabase : Backend S).

Lemma image_with_url_requests image (w : World S) :
  exists view w',
    image_with_url supabase image w = (Returned view, w') /\
    trace w' = (trace w ++ signing_requests [image])%list /\
    fs w' = fs w.
Proof.
  unfold image_with_url, signing_requests. unfold_monad. cbn.
  destruct (startsWith (image_url image) "http") eqn:Hhttp; cbn.
  - eexists _, _. split; [reflexivity|]. by rewrite app_nil_r.
  - destruct (supabase _ (remote w)) as [[signedUrl|urlError] s'] eqn:Hsign; cbn;
      eexists _, _; by split.
Qed.

Lemma signing_requests_cons image images :
  signing_requests (image :: images)
  = (signing_requests [image] ++ signing_requests images)%list.
Proof.
  unfold signing_requests. cbn.
  by destruct (startsWith (image_url image) "http").
Qed.

Lemma all_images_requests images : forall w : World S,
  exists views w',
    mapM (image_with_url supabase) images w = (Returned views, w') /\
    trace w' = (trace w ++ signing_requests images)%list /\
    fs w' = fs w.
Proof.
  induction images as [|image images IH]; intros w.
  - cbn. eexists _, _. split; [reflexivity|]. by rewrite app_nil_r.
  - rewrite signing_requests_cons. cbn [mapM].
    destruct (image_with_url_requests image w) as (view & w1 & Hone & Htrace1 & Hfs1).
    destruct (IH w1) as (views & w2 & Hrest & Htrace2 & Hfs2).
    unfold mbind, M_bind at 1. rewrite Hone.
    unfold mbind, M_bind at 1. rewrite Hrest.
    eexists _, _. split; [reflexivity|].
    by rewrite Htrace2, Htrace1, Hfs2, Hfs1, app_assoc.
Qed.

(** X7.  GET /images only reads: it fetches the rows once and then asks
    for one signed URL per row whose reference does not start with
    "http", in the order of the rows; when the fetch fails it answers 500
    with the message of the failure and asks for nothing more.  It never
    touches the local files. *)
Theorem list_requests (w : World S) reply s1 :
  supabase SelectImages (remote w) = (reply, s1) ->
  fs (get_images supabase w).2 = fs w /\
  match reply with
  | Success images =>
      trace (get_images supabase w).2
      = (trace w ++ SelectImages :: signing_requests images)%list
  | Failure e =>
      trace (get_images supabase w).2 = (trace w ++ [SelectImages])%list /\
      (get_images supabase w).1 = Returned (server_error "Erro ao buscar imagens" e)
  end.
Proof.
  intros Hselect. unfold get_images. unfold_monad. cbn. rewrite Hselect.
  destruct reply as [images|e]; cbn; [|done].
  match goal with
  | |- context [mapM _ images ?w1] =>
      destruct (all_images_requests images w1) as (views & w2 & Hmap & Htrace & Hfs)
  end.
  unfold_monad. rewrite Hmap. cbn in *. rewrite Htrace, Hfs, <- app_assoc. done.
Qed.

(** X8.  GET /profile-image/:user_id makes the lookup and nothing else,
    whatever the answer; a lookup that fails otherwise than with
    PGRST116 is answered 500 with the message of the failure. *)
Theorem profile_image_single_lookup uid (w : World S) fetched s' :
  supabase (SelectUserProfileImage uid) (remote w) = (fetched, s') ->
  trace (get_profile_image supabase uid w).2 = (trace w ++ [SelectUserProfileImage uid])%list /\
  remote (get_profile_image supabase uid w).2 = s' /\
  fs (get_profile_image supabase uid w).2 = fs w /\
  (forall e, fetched = Failure e -> code e <> Some "PGRST116" ->
     (get_profile_image supabase uid w).1
     = Returned (server_error "Erro ao buscar imagem de perfil" e)).
Proof.
  intros Hfetch. split; [|split; [|split]].
  4: { intros e -> Hcode. by apply get_profile_image_failure with s'. }
  all: unfold get_profile_image; unfold_monad; cbn; rewrite Hfetch;
    destruct fetched as [reference|e]; cbn; repeat (branch; cbn; try done).
Qed.

(** X9.  When the lookup of the user fails otherwise than with PGRST116,
    POST /upload-profile answers 500 with the message of the failure and
    writes no user record, although the object is already stored; the
    transient file is removed. *)
Theorem upload_profile_lookup_failure req f uid content (w : World S) s1 e s2 :
  file req = Some f -> user_id req = Some uid -> uid <> "" ->
  fs w !! path f = Some content ->
  supabase (profile_upload uid content (mimetype f)) (remote w) = (Success tt, s1) ->
  supabase (SelectUserId uid) s1 = (Failure e, s2) ->
  code e <> Some "PGRST116" ->
  (post_upload_profile supabase req w).1
    = Returned (server_error "Erro ao fazer upload da imagem de perfil" e) /\
  trace (post_upload_profile supabase req w).2
    = (trace w ++ [profile_upload uid content (mimetype f); SelectUserId uid])%list /\
  remote (post_upload_profile supabase req w).2 = s2 /\
  fs (post_upload_profile supabase req w).2 = delete (path f) (fs w).
Proof.
  intros Hfile Huid Hne Hcontent Hupload Hlookup Hcode.
  unfold post_upload_profile, profile_upload, profile_key in *. rewrite Hfile, Huid.
  destruct uid as [|c uid]; [done|]. unfold_monad. rewrite Hfile. cbn.
  rewrite Hcontent. cbn. rewrite Hupload. cbn. rewrite Hlookup. cbn.
  rewrite bool_decide_eq_false_2 by done. cbn.
  repeat (rewrite Hcontent; cbn). rewrite <- !app_assoc. done.
Qed.

End RequestTraces.

Section Keys.
Context `{Platform}.

Lemma digits_before_underscore d : forall d' x y,
  NilEmpty.string_of_uint d ++ String "_" x = NilEmpty.string_of_uint d' ++ String "_" y ->
  d = d' /\ x = y.
Proof.
  induction d as [|d IH|d IH|d IH|d IH|d IH|d IH|d IH|d IH|d IH|d IH];
    intros [|d'|d'|d'|d'|d'|d'|d'|d'|d'|d'] x y; cbn; intros E;
    try discriminate E; injection E as E;
    try (destruct (IH _ _ _ E) as [-> ->]); by subst.
Qed.

(** X10.  The storage key of POST /upload determines the millisecond of
    the request and the name of the file: two uploads share a key only
    when they arrive in the same millisecond with the same file name, an
    absent name counting as "image.jpg". *)
Theorem storage_key_injective now f now' f' :
  storage_key now f = storage_key now' f' <->
  now = now' /\
  or_else (originalname f) "image.jpg" = or_else (originalname f') "image.jpg".
Proof.
  unfold storage_key, decimal. split.
  - intros E. cbn in E. injection E as E.
    apply digits_before_underscore in E as [E1 E2].
    split; [by apply DecimalN.Unsigned.to_uint_inj | done].
  - by intros [-> ->].
Qed.

End Keys.

Section Issued.
Context `{Platform} {S : Type} (supabase : Backend S).

(** Settles [issued] after a symbolic run: the trace by associativity,
    the backend by the recorded answers. *)
Ltac replayed :=
  unfold issued; split;
  [ rewrite <- ?app_assoc; cbn; first [reflexivity | symmetry; apply app_nil_r]
  | cbn; repeat match goal with
                | E : supabase _ _ = _ |- _ => rewrite E; clear E; cbn
                end; reflexivity ].

Lemma post_upload_issued req (w : World S) :
  exists calls,
    issued supabase calls w (post_upload supabase req w).2 /\
    Forall upload_request calls.
Proof.
  unfold post_upload. run.
  all: eexists; (split; [replayed|]); repeat constructor.
Qed.

(** X11.  DELETE /images/:id makes no other request than the fetch of
    the record, the removal of one object from "imagens", the deletion of
    the record and the deletion of metadata rows, the first and the third
    for the identifier of the request; these requests alone move the
    store, and the local files are not touched. *)
Theorem delete_image_requests id (w : World S) :
  exists calls,
    issued supabase calls w (delete_image supabase id w).2 /\
    Forall (delete_request id) calls /\
    fs (delete_image supabase id w).2 = fs w.
Proof.
  unfold delete_image. run.
  all: eexists; (split; [replayed|]); split; [repeat constructor|done].
Qed.

End Issued.

(** ** On the reference backend *)

Section MemFrames.
Import Mem.

(** What a request leaves alone. *)
Lemma backend_images c st :
  match c with InsertImages _ | DeleteImage _ => False | _ => True end ->
  images (backend c st).2 = images st.
Proof.
  destruct c; try done; intros _; cbn; try done; unfold request;
    destruct (head (faults st)) as [[e|]|]; cbn; try done;
    repeat (branch; cbn; try done).
Qed.

Lemma backend_objects c st :
  match c with StorageUpload _ _ _ _ | StorageRemove _ _ => False | _ => True end ->
  objects (backend c st).2 = objects st.
Proof.
  destruct c; try done; intros _; cbn; try done; unfold request;
    destruct (head (faults st)) as [[e|]|]; cbn; try done;
    repeat (branch; cbn; try done).
Qed.

Lemma backend_users c st :
  match c with UpdateUsers _ _ | InsertUsers _ => False | _ => True end ->
  users (backend c st).2 = users st.
Proof.
  destruct c; try done; intros _; cbn; try done; unfold request;
    destruct (head (faults st)) as [[e|]|]; cbn; try done;
    repeat (branch; cbn; try done).
Qed.

Lemma backend_metadata c st :
  match c with DeleteMetadata _ => False | _ => True end ->
  images_metadata (backend c st).2 = images_metadata st.
Proof.
  destruct c; try done; intros _; cbn; try done; unfold request;
    destruct (head (faults st)) as [[e|]|]; cbn; try done;
    repeat (branch; cbn; try done).
Qed.

Lemma backend_no_faults c st :
  faults st = [] -> faults (backend c st).2 = [].
Proof.
  intros Hnone. destruct c; cbn; try done; unfold request, consume; rewrite ?Hnone; cbn;
    repeat (branch; cbn; rewrite ?Hnone; try done).
  all: done.
Qed.

Context `{Platform}.

Lemma only_added_refl st : only_added st st.
Proof. repeat split; try done. exists []. by rewrite app_nil_r. Qed.

Lemma only_added_trans st1 st2 st3 :
  only_added st1 st2 -> only_added st2 st3 -> only_added st1 st3.
Proof.
  intros (Ho1 & (n1 & Hi1) & Hu1 & Hm1) (Ho2 & (n2 & Hi2) & Hu2 & Hm2).
  repeat split; [auto| |congruence|congruence].
  exists (n1 ++ n2)%list. by rewrite Hi2, Hi1, app_assoc.
Qed.

Lemma upload_request_only_adds c st :
  upload_request c -> only_added st (backend c st).2.
Proof.
  intros Hc. unfold only_added.
  split; [|split; [|split; [apply backend_users | apply backend_metadata]]];
    try by destruct c.
  - destruct c; try done.
    + destruct Hc as [_ Hupsert]. cbn. unfold request. rewrite Hupsert.
      destruct (head (faults st)) as [[e|]|]; cbn; try done;
        destruct (objects st !! (bucket, key)) eqn:Hkey; cbn; try done;
        intros key' content' Hkept; rewrite lookup_insert_ne; congruence.
    + intros key content Hkept. by rewrite backend_objects.
  - destruct c; try done; try (exists []; rewrite app_nil_r; by apply backend_images).
    cbn. unfold request.
    destruct (head (faults st)) as [[e|]|]; cbn;
      repeat (branch; cbn); eexists; try reflexivity; by rewrite app_nil_r.
Qed.

Lemma replay_only_adds calls : forall st,
  Forall upload_request calls -> only_added st (replay backend calls st).
Proof.
  induction calls as [|c calls IH]; intros st Hall; cbn.
  - apply only_added_refl.
  - apply Forall_cons in Hall as [Hc Hall].
    eapply only_added_trans; [by apply upload_request_only_adds | by apply IH].
Qed.

(** X12.  POST /upload only adds: whatever the request and whatever
    fails, every object already stored keeps its content, the image
    records already stored stay as they are and in place, and the users
    and the metadata are not touched. *)
Theorem upload_only_adds req (w : World State) :
  only_added (remote w) (remote (post_upload backend req w).2).
Proof.
  destruct (post_upload_issued backend req w) as (calls & [_ ->] & Hall).
  by apply replay_only_adds.
Qed.

End MemFrames.

Section DeleteRuns.
Context `{Platform} {S : Type} (supabase : Backend S).

(** DELETE /images/:id, step by step. *)
Lemma delete_image_run id (w : World S) :
  let out := (delete_image supabase id w).1 in
  let w' := (delete_image supabase id w).2 in
  match supabase (SelectImageUrl id) (remote w) with
  | (Failure _, s1) =>
      out = Returned {| status := 404;
                        body := JObj [("error", JStr "Imagem não encontrada")] |} /\
      remote w' = s1
  | (Success url, s1) =>
      match supabase (DeleteImage id) (supabase (StorageRemove "imagens" [url]) s1).2 with
      | (Failure e, s3) =>
          out = Returned (server_error "Erro ao excluir imagem" e) /\ remote w' = s3
      | (Success _, s3) =>
          out = Returned {| status := 200; body := JObj [("success", JBool true)] |} /\
          remote w' = (supabase (DeleteMetadata url) s3).2
      end
  end.
Proof.
  unfold delete_image. unfold_monad. cbn.
  destruct (supabase (SelectImageUrl id) (remote w)) as [[url|e0] s1]; cbn; [|done].
  destruct (supabase (StorageRemove _ _) s1) as [[[]|e1] s2]; cbn;
    destruct (supabase (DeleteImage id) s2) as [[[]|e2] s3]; cbn; try done;
    destruct (supabase (DeleteMetadata url) s3) as [[[]|e3] s4]; cbn; done.
Qed.

End DeleteRuns.

Section MemDelete.
Import Mem.

Lemma fetched_reference id st url st' :
  backend (SelectImageUrl id) st = (Success url, st') ->
  exists row, List.filter (fun r => String.eqb (image_id r) id) (images st) = [row] /\
              image_url row = url.
Proof.
  cbn. unfold request.
  destruct (head (faults st)) as [[e|]|]; cbn; [by intros E; simplify_eq| |];
    (destruct (List.filter _ (images st)) as [|row [|row' rows]]; cbn; intros E;
     simplify_eq; eauto).
Qed.

Lemma deleted_rows id st r st' :
  backend (DeleteImage id) st = (r, st') ->
  images st' = if succeeded r
               then List.filter (fun r => negb (String.eqb (image_id r) id)) (images st)
               else images st.
Proof.
  cbn. unfold request. destruct (head (faults st)) as [[e|]|]; by intros [= <- <-].
Qed.

Lemma removed_objects bucket keys st :
  forall key content,
    objects (backend (StorageRemove bucket keys) st).2 !! key = Some content ->
    objects st !! key = Some content.
Proof.
  cbn. unfold request. destruct (head (faults st)) as [[e|]|]; cbn; try done.
  all: induction keys as [|k keys IH]; cbn; [done|];
    intros key content [_ Hrest]%lookup_delete_Some; by apply IH.
Qed.

Lemma removed_object bucket key st r st' :
  backend (StorageRemove bucket [key]) st = (r, st') -> succeeded r = true ->
  objects st' !! (bucket, key) = None.
Proof.
  cbn. unfold request. destruct (head (faults st)) as [[e|]|];
    intros [= <- <-]; try done; intros _; cbn; apply lookup_delete_eq.
Qed.

(** DELETE /images/:id on the reference backend. *)
Lemma delete_image_on_mem id (w : World State) :
  let w' := (delete_image backend id w).2 in
  exists resp,
    (delete_image backend id w).1 = Returned resp /\
    images (remote w')
      = (if (status resp =? 200)%N
         then List.filter (fun r => negb (String.eqb (image_id r) id)) (images (remote w))
         else images (remote w)) /\
    users (remote w') = users (remote w) /\
    (forall key content,
       objects (remote w') !! key = Some content ->
       objects (remote w) !! key = Some content).
Proof.
  pose proof (delete_image_run backend id w) as Hrun. cbn zeta in *.
  destruct (backend (SelectImageUrl id) (remote w)) as [[url|e0] s1] eqn:Hfetch.
  2: { destruct Hrun as [-> ->]. eexists. split; [reflexivity|]. simpl (_ =? _)%N.
       replace s1 with (backend (SelectImageUrl id) (remote w)).2 by (by rewrite Hfetch).
       rewrite backend_images, backend_users, backend_objects by done. done. }
  assert (images s1 = images (remote w) /\ users s1 = users (remote w) /\
          objects s1 = objects (remote w)) as (Hi1 & Hu1 & Ho1).
  { replace s1 with (backend (SelectImageUrl id) (remote w)).2 by (by rewrite Hfetch).
    by rewrite backend_images, backend_users, backend_objects. }
  set (s2 := (backend (StorageRemove "imagens" [url]) s1).2) in *.
  assert (images s2 = images s1 /\ users s2 = users s1) as (Hi2 & Hu2).
  { unfold s2. by rewrite backend_images, backend_users. }
  pose proof (removed_objects "imagens" [url] s1) as Ho2. fold s2 in Ho2.
  destruct (backend (DeleteImage id) s2) as [[[]|e2] s3] eqn:Hdelete.
  - destruct Hrun as [-> ->]. eexists. split; [reflexivity|]. simpl (_ =? _)%N.
    rewrite backend_images, backend_users, backend_objects by done.
    rewrite (deleted_rows _ _ _ _ Hdelete). simpl succeeded.
    replace s3 with (backend (DeleteImage id) s2).2 by (by rewrite Hdelete).
    rewrite backend_users, backend_objects by done.
    rewrite Hi2, Hi1, Hu2, Hu1, <- Ho1. auto.
  - destruct Hrun as [-> ->]. eexists. split; [reflexivity|]. simpl (_ =? _)%N.
    rewrite (deleted_rows _ _ _ _ Hdelete). simpl succeeded.
    replace s3 with (backend (DeleteImage id) s2).2 by (by rewrite Hdelete).
    rewrite backend_users, backend_objects by done.
    rewrite Hi2, Hi1, Hu2, Hu1, <- Ho1. auto.
Qed.

(** X13.  DELETE /images/:id removes the records of that identifier and
    no other, in the case it answers 200 and in that case only; it never
    touches the users and never adds an object. *)
Theorem delete_removes_that_record id (w : World State) :
  let w' := (delete_image backend id w).2 in
  exists resp,
    (delete_image backend id w).1 = Returned resp /\
    images (remote w')
      = (if (status resp =? 200)%N
         then List.filter (fun r => negb (String.eqb (image_id r) id)) (images (remote w))
         else images (remote w)) /\
    users (remote w') = users (remote w) /\
    (forall key content,
       objects (remote w') !! key = Some content ->
       objects (remote w) !! key = Some content).
Proof. apply delete_image_on_mem. Qed.

(** X14.  After a DELETE /images/:id answered 200, the identifier is
    gone: as long as no record is added, another DELETE of it whose fetch
    reaches the store is answered 404. *)
Theorem delete_twice_is_not_found id (w w1 : World State) resp :
  delete_image backend id w = (Returned resp, w1) -> status resp = 200%N ->
  forall w2 : World State,
    images (remote w2) = images (remote w1) ->
    (forall e, head (faults (remote w2)) <> Some (Some e)) ->
    (delete_image backend id w2).1 =
      Returned {| status := 404; body := JObj [("error", JStr "Imagem não encontrada")] |}.
Proof.
  intros Hfirst Hstatus w2 Hsame Hreach.
  destruct (delete_image_on_mem id w) as (resp' & Hout & Himages & _).
  rewrite Hfirst in Hout, Himages. cbn in Hout, Himages. injection Hout as <-.
  rewrite Hstatus in Himages. cbn in Himages.
  pose proof (delete_image_run backend id w2) as Hrun. cbn zeta in Hrun.
  assert (backend (SelectImageUrl id) (remote w2) = (Failure PGRST116, consume (remote w2)))
    as Hfetch.
  { cbn. unfold request.
    destruct (head (faults (remote w2))) as [[e|]|]; [by destruct (Hreach e)| |];
      cbn [images consume]; rewrite Hsame, Himages; f_equal;
      (replace (List.filter _ (List.filter _ _)) with (@nil ImageRow); [done|]);
      symmetry; clear; induction (images (remote w)) as [|r rows IH]; cbn; try done;
      destruct (String.eqb (image_id r) id) eqn:E; cbn; rewrite ?E; done. }
  rewrite Hfetch in Hrun. by destruct Hrun.
Qed.

End MemDelete.

Section MemWindow.
Import Mem.

(** X15.  When the object is removed from storage and the deletion of
    the record then fails, DELETE /images/:id answers 500 with the message
    of the failure and leaves the record, whose object is gone. *)
Theorem delete_failure_leaves_record id (w : World State) url s1 s2 e s3 :
  backend (SelectImageUrl id) (remote w) = (Success url, s1) ->
  backend (StorageRemove "imagens" [url]) s1 = (Success tt, s2) ->
  backend (DeleteImage id) s2 = (Failure e, s3) ->
  let w' := (delete_image backend id w).2 in
  (delete_image backend id w).1 = Returned (server_error "Erro ao excluir imagem" e) /\
  images (remote w') = images (remote w) /\
  objects (remote w') !! ("imagens", url) = None /\
  exists row, row ∈ images (remote w') /\ image_id row = id /\ image_url row = url.
Proof.
  intros Hfetch Hremove Hdelete.
  pose proof (delete_image_run backend id w) as Hrun. cbn zeta in *.
  rewrite Hfetch, Hremove in Hrun. cbn [snd] in Hrun. rewrite Hdelete in Hrun.
  destruct Hrun as [-> ->].
  assert (images s3 = images (remote w)) as Himages.
  { rewrite (deleted_rows _ _ _ _ Hdelete). cbn.
    replace s2 with (backend (StorageRemove "imagens" [url]) s1).2 by (by rewrite Hremove).
    rewrite backend_images by done.
    replace s1 with (backend (SelectImageUrl id) (remote w)).2 by (by rewrite Hfetch).
    by rewrite backend_images. }
  split; [done|]. split; [done|]. split.
  - replace s3 with (backend (DeleteImage id) s2).2 by (by rewrite Hdelete).
    rewrite backend_objects by done. by eapply removed_object.
  - destruct (fetched_reference _ _ _ _ Hfetch) as (row & Hrow & Hurl).
    assert (In row (List.filter (fun r => String.eqb (image_id r) id) (images (remote w))))
      as [Hin Hid]%filter_In by (rewrite Hrow; by left).
    exists row. rewrite Himages. split; [by apply list_elem_of_In|].
    split; [by apply String.eqb_eq | done].
Qed.

End MemWindow.

Section MemListing.
Import Mem.
Context `{Platform}.

Lemma request_no_fault {A} st (normal : State -> Reply A * State) :
  faults st = [] -> request st normal = normal (consume st).
Proof. unfold request. by intros ->. Qed.

Lemma listed_url_objects st st' image :
  objects st' = objects st -> listed_url st' image = listed_url st image.
Proof. unfold listed_url. by intros ->. Qed.

Lemma mem_image_view image (w : World State) :
  faults (remote w) = [] ->
  exists w',
    image_with_url backend image w
      = (Returned (image_view image (listed_url (remote w) image)), w') /\
    objects (remote w') = objects (remote w) /\ faults (remote w') = [].
Proof.
  intros Hnone. unfold image_with_url, listed_url. unfold_monad. cbn.
  destruct (startsWith (image_url image) "http"); cbn; [by eauto|].
  rewrite request_no_fault by done. cbn.
  destruct (objects (remote w) !! _); cbn; eexists; (split; [reflexivity|]); cbn;
    by rewrite Hnone.
Qed.

Lemma mem_all_views images : forall w : World State,
  faults (remote w) = [] ->
  exists w',
    mapM (image_with_url backend) images w
      = (Returned (List.map (fun image => image_view image (listed_url (remote w) image))
                            images), w') /\
    objects (remote w') = objects (remote w) /\ faults (remote w') = [].
Proof.
  induction images as [|image images IH]; intros w Hnone.
  - cbn. by eauto.
  - cbn [mapM List.map].
    destruct (mem_image_view image w Hnone) as (w1 & Hone & Hobjects1 & Hnone1).
    destruct (IH w1 Hnone1) as (w2 & Hrest & Hobjects2 & Hnone2).
    unfold mbind, M_bind at 1. rewrite Hone.
    unfold mbind, M_bind at 1. rewrite Hrest.
    exists w2. split; [|split; [congruence|done]].
    unfold mret, M_ret. do 3 f_equal. apply map_ext. intros i. f_equal.
    by apply listed_url_objects.
Qed.

(** With no fault pending, GET /images answers the listing of the
    stored images. *)
Lemma get_images_on_mem (w : World State) :
  faults (remote w) = [] ->
  (get_images backend w).1 = Returned {| status := 200; body := JArr (listing (remote w)) |}.
Proof.
  intros Hnone. unfold get_images, listing. unfold_monad. cbn.
  rewrite request_no_fault by done. cbn.
  match goal with
  | |- context [mapM _ ?images ?w1] =>
      destruct (mem_all_views images w1) as (w2 & Hmap & _ & _); [cbn; by rewrite Hnone|]
  end.
  unfold_monad. rewrite Hmap. cbn. rewrite List.map_map. done.
Qed.

Lemma place_member row image rows : row ∈ place image rows <-> row = image \/ row ∈ rows.
Proof.
  induction rows as [|r rows IH]; cbn.
  - rewrite list_elem_of_singleton. set_solver.
  - destruct (not_older image r); rewrite !elem_of_cons; [done|]. rewrite IH. tauto.
Qed.

Lemma newest_first_member row rows : row ∈ newest_first rows <-> row ∈ rows.
Proof.
  unfold newest_first. induction rows as [|r rows IH]; cbn; [done|].
  by rewrite place_member, IH, elem_of_cons.
Qed.

End MemListing.

Section MemRoundTrips.
Import Mem.
Context `{Platform}.

Lemma backend_next_id c st :
  match c with InsertImages _ | InsertUsers _ => False | _ => True end ->
  next_id (backend c st).2 = next_id st.
Proof.
  destruct c; try done; intros _; cbn; try done; unfold request;
    destruct (head (faults st)) as [[e|]|]; cbn; try done;
    repeat (branch; cbn; try done).
Qed.

Lemma stored_object bucket key content options st st' :
  backend (StorageUpload bucket key content options) st = (Success tt, st') ->
  objects st' !! (bucket, key) = Some content.
Proof.
  cbn. unfold request.
  destruct (head (faults st)) as [[e|]|]; cbn; [by intros E; simplify_eq| |];
    (destruct (objects st !! (bucket, key)); [destruct (upsert options)|]; cbn;
     intros E; simplify_eq; cbn; apply lookup_insert_eq).
Qed.

Lemma inserted_image row st first rest st' :
  backend (InsertImages (JArr [row])) st = (Success (first :: rest), st') ->
  rest = [] /\
  image_of (fresh_id (next_id st)) row = Some first /\
  images st' = (images st ++ [first])%list.
Proof.
  cbn. unfold request.
  destruct (head (faults st)) as [[e|]|]; cbn; [by intros E; simplify_eq| |];
    (destruct (image_of (fresh_id (next_id st)) row) as [image|]; cbn;
     intros E; by simplify_eq).
Qed.

Lemma analysis_listed a :
  JSON_stringify (string_or_null (as_string (string_or_null a))) = string_or_null a.
Proof. by destruct a as [[|c s]|]. Qed.

Lemma user_listed u : JSON_stringify (js_string (as_string (js_string u))) = js_string u.
Proof. by destruct u. Qed.

Lemma coordinate_listed input :
  Some (JSON_stringify (number_or_null (as_number (JSON_stringify (parsed_or_null input)))))
  = listed_coordinate (Some (JSON_stringify (parsed_or_null input))).
Proof.
  unfold parsed_or_null. destruct (truthy input); [|done]. cbn.
  by destruct (parseFloat (template input)).
Qed.

Lemma storage_key_is_no_url now f : startsWith (storage_key now f) "http" = false.
Proof. reflexivity. Qed.

Lemma stringify_view image url :
  JSON_stringify (image_view image url)
  = JObj [ ("id", JStr (image_id image));
           ("url", JStr url);
           ("user_id", JSON_stringify (js_string (image_user_id image)));
           ("created_at", JSON_stringify (js_string (image_created_at image)));
           ("latitude", JSON_stringify (number_or_null (image_latitude image)));
           ("longitude", JSON_stringify (number_or_null (image_longitude image)));
           ("analysis", JSON_stringify (string_or_null (image_analysis image))) ].
Proof. reflexivity. Qed.

(** A successful POST /upload on a backend without pending fault. *)
Lemma upload_success_on_mem req (w w1 : World State) resp :
  faults (remote w) = [] ->
  post_upload backend req w = (Returned resp, w1) -> status resp = 200%N ->
  exists f content now first,
    let key := storage_key now f in
    file req = Some f /\ fs w !! path f = Some content /\
    image_of (fresh_id (next_id (remote w)))
      (JObj [ ("user_id", js_string (user_id req));
              ("url", JStr key);
              ("latitude", JSON_stringify (parsed_or_null (latitude req)));
              ("longitude", JSON_stringify (parsed_or_null (longitude req)));
              ("analysis", string_or_null (analysis req));
              ("created_at", JStr (toISOString (N.succ now))) ]) = Some first /\
    images (remote w1) = (images (remote w) ++ [first])%list /\
    objects (remote w1) !! ("imagens", key) = Some content /\
    faults (remote w1) = [] /\
    resp = {| status := 200;
              body := JObj [ ("message", JStr "Upload realizado com sucesso!");
                             ("imageId", JStr (image_id first));
                             ("imageUrl", JStr (getPublicUrl "imagens" key));
                             ("latitude", JSON_stringify (parsed_or_null (latitude req)));
                             ("longitude", JSON_stringify (parsed_or_null (longitude req)));
                             ("analysis", string_or_null (analysis req)) ] |}.
Proof.
  intros Hnone Hrun Hstatus.
  destruct (post_upload_success _ _ _ _ _ Hrun Hstatus)
    as (f & content & now & s1 & s2 & created & s3 & first & rest & Hsteps).
  cbn zeta in Hsteps.
  destruct Hsteps as (Hfile & _ & Hcontent & Hnow & Hupload & Hcreated & Hinsert & _ & _ & ->).
  assert (s1 = (backend DateNow (remote w)).2) as E1 by (by rewrite Hnow).
  assert (s2 = (backend (StorageUpload "imagens"
                  ("images/" ++ decimal now ++ "_" ++ or_else (originalname f) "image.jpg")
                  content
                  {| cacheControl := "3600"; upsert := false; contentType := mimetype f |})
                  s1).2) as E2 by (by rewrite Hupload).
  assert (s3 = (backend DateNow s2).2) as E3 by (by rewrite Hcreated).
  assert (created = N.succ now) as ->.
  { injection Hnow as <- _. injection Hcreated as <- _.
    rewrite E2. cbn. unfold request. rewrite E1. cbn. rewrite Hnone. cbn.
    by repeat (branch; cbn). }
  destruct (inserted_image _ _ _ _ _ Hinsert) as (-> & Hfirst & Himages).
  assert (next_id s3 = next_id (remote w)) as Hnext.
  { rewrite E3, E2, E1. by rewrite !backend_next_id. }
  assert (images s3 = images (remote w)) as Hrows.
  { rewrite E3, E2, E1. by rewrite !backend_images. }
  assert (faults (remote w1) = []) as Hnone1.
  { replace (remote w1) with (backend (InsertImages (JArr
      [JObj [ ("user_id", js_string (user_id req));
              ("url", JStr ("images/" ++ decimal now ++ "_"
                              ++ or_else (originalname f) "image.jpg"));
              ("latitude", JSON_stringify (parsed_or_null (latitude req)));
              ("longitude", JSON_stringify (parsed_or_null (longitude req)));
              ("analysis", string_or_null (analysis req));
              ("created_at", JStr (toISOString (N.succ now))) ]])) s3).2
      by (by rewrite Hinsert).
    rewrite E3, E2, E1. by repeat apply backend_no_faults. }
  assert (objects (remote w1) !! ("imagens", storage_key now f) = Some content) as Hobject.
  { replace (remote w1) with (backend (InsertImages (JArr
      [JObj [ ("user_id", js_string (user_id req));
              ("url", JStr ("images/" ++ decimal now ++ "_"
                              ++ or_else (originalname f) "image.jpg"));
              ("latitude", JSON_stringify (parsed_or_null (latitude req)));
              ("longitude", JSON_stringify (parsed_or_null (longitude req)));
              ("analysis", string_or_null (analysis req));
              ("created_at", JStr (toISOString (N.succ now))) ]])) s3).2
      by (by rewrite Hinsert).
    rewrite backend_objects by done. rewrite E3, backend_objects by done.
    by eapply stored_object. }
  exists f, content, now, first. cbn zeta. rewrite <- Hnext, <- Hrows.
  by repeat split.
Qed.

(** X16.  What POST /upload stored, GET /images shows: after a successful
    upload, with no fault pending, the list holds a view of the new
    record under the identifier of the answer, with a signed URL for the
    key whose public URL was answered, the user and the analysis of the
    request, and the coordinates as answered, a zero being shown as
    [null]. *)
Theorem upload_then_list req (w w1 : World State) resp :
  faults (remote w) = [] ->
  post_upload backend req w = (Returned resp, w1) -> status resp = 200%N ->
  exists views view key,
    (get_images backend w1).1 = Returned {| status := 200; body := JArr views |} /\
    view ∈ views /\
    field "id" view = field "imageId" (body resp) /\
    field "url" view = Some (JStr (signed_url "imagens" key 3600)) /\
    field "imageUrl" (body resp) = Some (JStr (getPublicUrl "imagens" key)) /\
    field "user_id" view = Some (js_string (user_id req)) /\
    field "analysis" view = field "analysis" (body resp) /\
    field "latitude" view = listed_coordinate (field "latitude" (body resp)) /\
    field "longitude" view = listed_coordinate (field "longitude" (body resp)).
Proof.
  intros Hnone Hrun Hstatus.
  destruct (upload_success_on_mem req w w1 resp Hnone Hrun Hstatus)
    as (f & content & now & first & Hsteps). cbn zeta in Hsteps.
  destruct Hsteps as (_ & _ & Hfirst & Himages & Hobject & Hnone1 & ->).
  assert (In first (newest_first (images (remote w1)))) as Hmember.
  { apply list_elem_of_In, newest_first_member. rewrite Himages.
    apply elem_of_app. right. apply list_elem_of_singleton. done. }
  unfold image_of in Hfirst. cbn in Hfirst. injection Hfirst as <-.
  exists (listing (remote w1)). eexists _, (storage_key now f).
  split; [by apply get_images_on_mem|]. split.
  { unfold listing. apply list_elem_of_In, in_map_iff. eexists.
    split; [|exact Hmember]. reflexivity. }
  unfold listed_url. cbn [image_url]. rewrite Hobject, storage_key_is_no_url, stringify_view.
  cbn -[JSON_stringify parsed_or_null string_or_null signed_url listed_coordinate].
  rewrite (analysis_listed (analysis req)), (user_listed (user_id req)).
  rewrite (coordinate_listed (latitude req)), (coordinate_listed (longitude req)).
  by repeat split.
Qed.

End MemRoundTrips.

Section MemUploadDelete.
Import Mem.
Context `{Platform}.

Lemma decimal_inj n m : decimal n = decimal m -> n = m.
Proof.
  unfold decimal. intros E. apply DecimalN.Unsigned.to_uint_inj.
  eapply (digits_before_underscore _ _ "" ""). by rewrite E.
Qed.

Lemma fresh_id_unused st image :
  identified st -> image ∈ images st -> image_id image <> fresh_id (next_id st).
Proof.
  intros [_ Hall] Hin Hid. rewrite Forall_forall in Hall.
  destruct (Hall image Hin) as (n & Hlt & Hn).
  rewrite Hn in Hid. apply decimal_inj in Hid. lia.
Qed.

Lemma filter_other_ids id (rows : list ImageRow) :
  (forall image, image ∈ rows -> image_id image <> id) ->
  List.filter (fun r => String.eqb (image_id r) id) rows = [] /\
  List.filter (fun r => negb (String.eqb (image_id r) id)) rows = rows.
Proof.
  induction rows as [|r rows IH]; cbn; [done|]. intros Hother.
  destruct (String.eqb_spec (image_id r) id) as [E|_].
  - destruct (Hother r); [by left|done].
  - destruct IH as [-> ->]; [|done]. intros image Hin. apply Hother. by right.
Qed.

(** X17.  What POST /upload stored, DELETE /images/:id takes back: after
    a successful upload, with no fault pending, the deletion of the
    answered identifier answers 200, leaves the image records as they
    were before the upload and removes the object of the answered URL. *)
Theorem upload_then_delete req (w w1 : World State) resp :
  faults (remote w) = [] -> identified (remote w) ->
  post_upload backend req w = (Returned resp, w1) -> status resp = 200%N ->
  exists id key,
    field "imageId" (body resp) = Some (JStr id) /\
    field "imageUrl" (body resp) = Some (JStr (getPublicUrl "imagens" key)) /\
    (delete_image backend id w1).1 =
      Returned {| status := 200; body := JObj [("success", JBool true)] |} /\
    images (remote (delete_image backend id w1).2) = images (remote w) /\
    objects (remote (delete_image backend id w1).2) !! ("imagens", key) = None.
Proof.
  intros Hnone Hids Hrun Hstatus.
  destruct (upload_success_on_mem req w w1 resp Hnone Hrun Hstatus)
    as (f & content & now & first & Hsteps). cbn zeta in Hsteps.
  destruct Hsteps as (_ & _ & Hfirst & Himages & _ & Hnone1 & ->).
  unfold image_of in Hfirst. cbn in Hfirst. injection Hfirst as <-.
  set (id := fresh_id (next_id (remote w))) in *.
  set (key := storage_key now f) in *.
  exists id, key. split; [done|]. split; [done|].
  destruct (filter_other_ids id (images (remote w))) as [Hnone_id Hothers].
  { intros image Hin. by apply fresh_id_unused. }
  pose proof (delete_image_run backend id w1) as Hdelete. cbn zeta in Hdelete.
  assert (backend (SelectImageUrl id) (remote w1) = (Success key, consume (remote w1)))
    as Hfetch.
  { cbn. rewrite request_no_fault by done. cbn [images consume].
    rewrite Himages, List.filter_app, Hnone_id. cbn. by rewrite String.eqb_refl. }
  rewrite Hfetch in Hdelete.
  set (s1 := consume (remote w1)) in *.
  assert (faults s1 = []) as Hnone2 by (unfold s1; cbn; by rewrite Hnone1).
  assert (backend (StorageRemove "imagens" [key]) s1
          = (Success tt, (backend (StorageRemove "imagens" [key]) s1).2)) as Hremove.
  { cbn. by rewrite request_no_fault. }
  set (s2 := (backend (StorageRemove "imagens" [key]) s1).2) in *.
  assert (faults s2 = []) as Hnone3 by (by apply backend_no_faults).
  assert (backend (DeleteImage id) s2 = (Success tt, (backend (DeleteImage id) s2).2))
    as Hrows.
  { cbn. by rewrite request_no_fault. }
  rewrite Hrows in Hdelete. destruct Hdelete as [-> ->].
  split; [done|].
  rewrite backend_images, backend_objects by done.
  rewrite (deleted_rows _ _ _ _ Hrows). cbn [succeeded].
  rewrite backend_objects by done. split.
  - unfold s2. rewrite backend_images by done. unfold s1. cbn [images consume].
    rewrite Himages, List.filter_app, Hothers. cbn. rewrite String.eqb_refl. cbn.
    apply app_nil_r.
  - by apply (removed_object "imagens" key s1 (Success tt)).
Qed.

End MemUploadDelete.

Section MemProfiles.
Import Mem.
Context `{Platform}.

Lemma append_cons c (a b : string) : String c a ++ b = String c (a ++ b).
Proof. reflexivity. Qed.

Lemma append_inj_l (prefix a b : string) : prefix ++ a = prefix ++ b -> a = b.
Proof.
  induction prefix as [|c prefix IH]; [done|].
  rewrite !append_cons. intros [= E]. by apply IH.
Qed.

Lemma length_append (a b : string) :
  String.length (a ++ b) = (String.length a + String.length b)%nat.
Proof.
  induction a as [|c a IH]; [done|].
  rewrite append_cons. cbn. by rewrite IH.
Qed.

Lemma append_inj_r (a b suffix : string) : a ++ suffix = b ++ suffix -> a = b.
Proof.
  revert b. induction a as [|c a IH]; intros [|c' b]; rewrite ?append_cons; [done| | |].
  - intros E. apply (f_equal String.length) in E.
    change (String.length suffix = S (String.length (b ++ suffix))) in E.
    rewrite length_append in E. lia.
  - intros E. apply (f_equal String.length) in E.
    change (S (String.length (a ++ suffix)) = String.length suffix) in E.
    rewrite length_append in E. lia.
  - intros [= -> E]. f_equal. by apply IH.
Qed.

Lemma profile_key_inj uid uid' : profile_key uid = profile_key uid' -> uid = uid'.
Proof.
  unfold profile_key. intros E. apply append_inj_l in E. by apply append_inj_r in E.
Qed.

Lemma other_records_updated patch uid uid' (rows : list UserRow) :
  uid' <> uid ->
  List.filter (fun u => String.eqb (firebase_id u) uid')
              (List.map (set_profile_image patch uid) rows)
  = List.filter (fun u => String.eqb (firebase_id u) uid') rows.
Proof.
  intros Hne. induction rows as [|u rows IH]; cbn; [done|].
  rewrite set_profile_image_id, IH.
  destruct (String.eqb_spec (firebase_id u) uid') as [E|_]; [|done].
  f_equal. unfold set_profile_image.
  destruct (String.eqb_spec (firebase_id u) uid); [congruence|done].
Qed.

(** What the requests of POST /upload-profile for [uid] leave to another
    user. *)
Lemma profile_requests_other_user uid uid' content mime st calls st' ok :
  profile_requests backend uid content mime st calls st' ok ->
  uid' <> uid ->
  records_of uid' st' = records_of uid' st /\
  objects st' !! ("profiles", profile_key uid') = objects st !! ("profiles", profile_key uid').
Proof.
  intros Hrun Hne.
  assert (forall r s s', backend (profile_upload uid content mime) s = (r, s') ->
            users s' = users s /\
            objects s' !! ("profiles", profile_key uid')
            = objects s !! ("profiles", profile_key uid')) as Hup.
  { intros r s s' E. split; [by eapply upload_users|].
    replace s' with (backend (profile_upload uid content mime) s).2 by (by rewrite E).
    cbn. unfold request. destruct (head (faults s)) as [[e|]|]; cbn; try done;
      repeat (branch; cbn; try done); apply lookup_insert_ne;
      intros E'; apply Hne; symmetry; apply profile_key_inj; exact (f_equal snd E'). }
  assert (forall c a s s', backend c s = (a, s') ->
            match c with StorageUpload _ _ _ _ | StorageRemove _ _ => False | _ => True end ->
            objects s' = objects s) as Hobj.
  { intros c a s s' E Hc. replace s' with (backend c s).2 by (by rewrite E).
    by apply backend_objects. }
  assert (forall c a s s', backend c s = (a, s') ->
            match c with UpdateUsers _ _ | InsertUsers _ => False | _ => True end ->
            users s' = users s) as Husr.
  { intros c a s s' E Hc. replace s' with (backend c s).2 by (by rewrite E).
    by apply backend_users. }
  unfold records_of.
  inversion Hrun as
    [ e s1 Hupload
    | s1 e s2 Hupload Hlookup Hcode
    | s1 id s2 updated s3 Hupload Hlookup Hupdate
    | s1 e s2 created s3 inserted s4 Hupload Hlookup Hcode Hnow Hinsert ]; subst.
  all: destruct (Hup _ _ _ Hupload) as [Hu1 Ho1].
  - by rewrite Hu1, Ho1.
  - rewrite (Husr _ _ _ _ Hlookup I), (Hobj _ _ _ _ Hlookup I). by rewrite Hu1, Ho1.
  - destruct (update_users _ _ _ _ _ Hupdate) as [Ho3 Hu3].
    rewrite Ho3, Hu3, (Hobj _ _ _ _ Hlookup I), Ho1.
    destruct (succeeded updated);
      rewrite ?other_records_updated by done;
      by rewrite (Husr _ _ _ _ Hlookup I), Hu1.
  - destruct (insert_user _ _ _ _ _ Hinsert) as [Ho4 Hu4].
    rewrite Ho4, (Hobj _ _ _ _ Hnow I), (Hobj _ _ _ _ Hlookup I), Ho1.
    destruct (succeeded inserted).
    + destruct Hu4 as (record & -> & Hid & _).
      rewrite List.filter_app. cbn. rewrite Hid.
      destruct (String.eqb_spec uid uid'); [congruence|].
      by rewrite app_nil_r, (Husr _ _ _ _ Hnow I), (Husr _ _ _ _ Hlookup I), Hu1.
    + by rewrite Hu4, (Husr _ _ _ _ Hnow I), (Husr _ _ _ _ Hlookup I), Hu1.
Qed.

(** X18.  POST /upload-profile for one user leaves every other user
    alone: whatever fails, the records and the stored picture of another
    identifier are after the request what they were before. *)
Theorem upload_profile_leaves_other_users req (w : World State) uid' :
  user_id req <> Some uid' ->
  let w' := (post_upload_profile backend req w).2 in
  records_of uid' (remote w') = records_of uid' (remote w) /\
  objects (remote w') !! ("profiles", profile_key uid')
  = objects (remote w) !! ("profiles", profile_key uid').
Proof.
  intros Hother. cbn zeta.
  destruct (file req) as [f|] eqn:Hfile; cycle 1.
  { by destruct (upload_profile_not_started backend req w) as (-> & _); [by left|]. }
  destruct (truthy (user_id req)) eqn:Htruthy; cycle 1.
  { by destruct (upload_profile_not_started backend req w) as (-> & _); [by right; left|]. }
  destruct (fs w !! path f) as [content|] eqn:Hcontent; cycle 1.
  { by destruct (upload_profile_not_started backend req w) as (-> & _);
      [right; right; eauto|]. }
  destruct (truthy_text _ Htruthy) as (uid & Huid & Hne).
  destruct (upload_profile_requests backend req f uid content w Hfile Huid Hne Hcontent)
    as (calls & ok & Hrequests & _).
  eapply profile_requests_other_user; [exact Hrequests|]. congruence.
Qed.

End MemProfiles.

Section MemEdges.
Import Mem.
Context `{Platform}.

(** X19.  POST /upload never replaces an object: when the key of the
    request is already taken (an upload of the same file name in the same
    millisecond), the request is answered 500, the object keeps its
    content and no record is inserted. *)
Theorem upload_collision req f content old (w : World State) :
  file req = Some f -> truthy (user_id req) = true -> fs w !! path f = Some content ->
  faults (remote w) = [] ->
  objects (remote w) !! ("imagens", storage_key (clock (remote w)) f) = Some old ->
  let w' := (post_upload backend req w).2 in
  (post_upload backend req w).1
    = Returned (server_error "Erro ao fazer upload da imagem" already_exists) /\
  objects (remote w') !! ("imagens", storage_key (clock (remote w)) f) = Some old /\
  images (remote w') = images (remote w).
Proof.
  intros Hfile Huid Hcontent Hnone Htaken. cbn zeta.
  set (s1 := (backend DateNow (remote w)).2).
  assert (backend (image_upload (clock (remote w)) f content) s1
          = (Failure already_exists, consume s1)) as Hupload.
  { unfold image_upload. cbn [backend]. rewrite request_no_fault by done.
    replace (objects (consume s1)) with (objects (remote w)) by reflexivity.
    by rewrite Htaken. }
  destruct (post_upload_refused backend req f content w (clock (remote w)) s1
              already_exists (consume s1) Hfile Huid Hcontent eq_refl Hupload)
    as (Hout & _ & Hremote & _).
  rewrite Hout, Hremote. done.
Qed.

Lemma no_fault_ahead st : faults st = [] -> forall e, head (faults st) <> Some (Some e).
Proof. by intros ->. Qed.

(** X20.  Duplicates are never repaired.  When two or more records
    carry the identifier, the lookup of POST /upload-profile is answered
    PGRST116 as if there were none: with no fault pending, the request
    succeeds by inserting one more record, and GET /profile-image for
    that identifier is answered "user not found". *)
Theorem duplicate_records_grow req f uid content (w : World State) r1 r2 others :
  file req = Some f -> user_id req = Some uid -> uid <> "" ->
  fs w !! path f = Some content ->
  faults (remote w) = [] ->
  records_of uid (remote w) = r1 :: r2 :: others ->
  let w' := (post_upload_profile backend req w).2 in
  (exists resp, (post_upload_profile backend req w).1 = Returned resp /\
                status resp = 200%N) /\
  (exists record, records_of uid (remote w') = (r1 :: r2 :: others ++ [record])%list) /\
  (get_profile_image backend uid w').1 =
    Returned {| status := 404; body := JObj [("error", JStr "Usuário não encontrado")] |}.
Proof.
  intros Hfile Huid Hne Hcontent Hnone Hmany. cbn zeta.
  destruct (upload_profile_requests backend req f uid content w Hfile Huid Hne Hcontent)
    as (calls & ok & Hrequests & _ & Hout). cbn zeta in *.
  assert (forall c a s s', backend c s = (a, s') -> faults s = [] -> faults s' = [])
    as Hquiet.
  { intros c a s s' E Hs. replace s' with (backend c s).2 by (by rewrite E).
    by apply backend_no_faults. }
  assert (forall c a s s', backend c s = (a, s') ->
            match c with UpdateUsers _ _ | InsertUsers _ => False | _ => True end ->
            users s' = users s) as Husr.
  { intros c a s s' E Hc. replace s' with (backend c s).2 by (by rewrite E).
    by apply backend_users. }
  assert (forall s, faults s = [] -> faults_are_failures s) as Hhonest.
  { intros s Hs. unfold faults_are_failures. rewrite Hs. constructor. }
  inversion Hrequests as
    [ e s1 Hupload
    | s1 e s2 Hupload Hlookup Hcode
    | s1 id s2 updated s3 Hupload Hlookup Hupdate
    | s1 e s2 created s3 inserted s4 Hupload Hlookup Hcode Hnow Hinsert ]; subst.
  - exfalso. revert Hupload. unfold profile_upload. cbn.
    rewrite request_no_fault by done. cbn. by repeat (branch; cbn).
  - exfalso. pose proof (Hquiet _ _ _ _ Hupload Hnone) as Hnone1.
    revert Hlookup. cbn. rewrite request_no_fault by done. cbn.
    destruct (single _) eqn:Hsingle; [done|]. intros [= <- _]. apply Hcode.
    revert Hsingle. unfold single. by repeat (branch; cbn); intros [= <-].
  - exfalso. pose proof (Hquiet _ _ _ _ Hupload Hnone) as Hnone1.
    destruct (lookup_answer uid s1 _ _ Hlookup (Hhonest _ Hnone1)) as [record Hrecord].
    unfold records_of in *. rewrite (Husr _ _ _ _ Hupload I) in Hrecord. congruence.
  - pose proof (Hquiet _ _ _ _ Hupload Hnone) as Hnone1.
    pose proof (Hquiet _ _ _ _ Hlookup Hnone1) as Hnone2.
    pose proof (Hquiet _ _ _ _ Hnow Hnone2) as Hnone3.
    pose proof (Hquiet _ _ _ _ Hinsert Hnone3) as Hnone4.
    assert (inserted = Success tt) as ->.
    { revert Hinsert. unfold profile_insert. cbn. rewrite request_no_fault by done.
      cbn. by intros [= <- _]. }
    destruct (insert_user _ _ _ _ _ Hinsert) as [_ (record & Husers & Hid & _)].
    assert (records_of uid (remote (post_upload_profile backend req w).2)
            = (r1 :: r2 :: others ++ [record])%list) as Hgrown.
    { unfold records_of in *.
      rewrite Husers, List.filter_app, (Husr _ _ _ _ Hnow I), (Husr _ _ _ _ Hlookup I),
        (Husr _ _ _ _ Hupload I), Hmany. cbn. by rewrite Hid, String.eqb_refl. }
    cbn [succeeded] in Hout.
    split; [by rewrite Hout; eauto|]. split; [by eauto|].
    eapply get_profile_image_unknown.
    + rewrite profile_image_lookup by (by apply no_fault_ahead).
      rewrite Hgrown. reflexivity.
    + reflexivity.
Qed.

End MemEdges.

(** ** The further properties on the scenarios *)

Section Incidents.
#[local] Existing Instance Node.platform.
Import Scenario Incident.

Ltac evaluate run H :=
  let v := eval vm_compute in (run.1) in
  assert (run = (v, run.2)) as H
    by (transitivity (run.1, run.2); [by destruct run | f_equal; vm_compute; reflexivity]).

(** The upload of [cat] leaves the file of [dog] where it is. *)
Lemma upload_keeps_other_files_witness :
  (forall f, file photo = Some f -> path f <> path dog) /\
  fs (post_upload Mem.backend photo start).2 !! path dog = Some "JPEG" /\
  fs (post_upload_profile Mem.backend photo start).2 !! path dog = Some "JPEG".
Proof.
  assert (forall f, file photo = Some f -> path f <> path dog) as Hother
    by (intros f [= <-]; discriminate).
  split; [exact Hother|].
  destruct (upload_keeps_other_files Mem.backend photo start (path dog) Hother)
    as [Hupload Hprofile].
  split; [by rewrite Hupload | by rewrite Hprofile].
Defined.

(** The file of [cat] was never written: both routes answer 500 with
    the message of [readFileSync] and ask the store for nothing. *)
Lemma upload_unreadable_file_witness :
  fs unwritten !! path cat = None /\
  (post_upload Mem.backend photo unwritten).1 =
    Returned (server_error "Erro ao fazer upload da imagem"
                (ENOENT "open" "/tmp/uploads/3f2a")) /\
  trace (post_upload Mem.backend photo unwritten).2 = [] /\
  trace (post_upload_profile Mem.backend photo unwritten).2 = [].
Proof.
  split; [reflexivity|].
  destruct (upload_unreadable_file Mem.backend photo cat unwritten eq_refl eq_refl eq_refl)
    as (Hout & _ & Htrace & Hprofile).
  split; [exact Hout|]. split; [exact Htrace | exact Hprofile].
Defined.

(** The storage is down: 500, no record, no transient file. *)
Lemma upload_storage_failure_witness :
  let w := start_with [Some storage_down] in
  (post_upload Mem.backend photo w).1 =
    Returned (server_error "Erro ao fazer upload da imagem" storage_down) /\
  Mem.images (remote (post_upload Mem.backend photo w).2) = [] /\
  fs (post_upload Mem.backend photo w).2 !! path cat = None.
Proof.
  intros w.
  destruct (upload_storage_failure Mem.backend photo cat "PNG" w _ _ storage_down _
              eq_refl eq_refl eq_refl eq_refl eq_refl)
    as (Hout & _ & Hremote & Hfs).
  split; [exact Hout|]. split; [by rewrite Hremote | by rewrite Hfs].
Defined.

(** The object is stored, the table is unreachable: 500, and the object
    stays in the bucket without record. *)
Lemma upload_insert_failure_witness :
  let w := start_with [None; Some connection_refused] in
  (post_upload Mem.backend photo w).1 =
    Returned (server_error "Erro ao fazer upload da imagem" connection_refused) /\
  Mem.images (remote (post_upload Mem.backend photo w).2) = [] /\
  Mem.objects (remote (post_upload Mem.backend photo w).2)
    !! ("imagens", "images/1700000000000_cat.png") = Some "PNG".
Proof.
  intros w.
  destruct (upload_insert_failure Mem.backend photo cat "PNG" w _ _ _ _ _
              connection_refused _
              eq_refl eq_refl eq_refl eq_refl eq_refl eq_refl eq_refl)
    as (Hout & _ & Hremote & _).
  split; [exact Hout|]. split; [by rewrite Hremote | by rewrite Hremote].
Defined.

(** The gallery: one fetch, then a signature for each of the two keys,
    none for the full URL. *)
Lemma list_requests_witness :
  Mem.backend SelectImages (remote gallery)
    = (Success [linked; kept; lost], Mem.consume (remote gallery)) /\
  trace (get_images Mem.backend gallery).2
    = [ SelectImages;
        CreateSignedUrl "imagens" "images/1_a.png" 3600;
        CreateSignedUrl "imagens" "images/2_b.png" 3600 ].
Proof.
  split; [reflexivity|].
  exact (proj2 (list_requests Mem.backend gallery (Success [linked; kept; lost])
                  (Mem.consume (remote gallery)) eq_refl)).
Defined.

(** The table of users is unreachable: one lookup, answered 500. *)
Lemma profile_image_single_lookup_witness :
  Mem.backend (SelectUserProfileImage "u2") (remote registry_down)
    = (Failure connection_refused, Mem.consume (remote registry_down)) /\
  trace (get_profile_image Mem.backend "u2" registry_down).2
    = [SelectUserProfileImage "u2"] /\
  (get_profile_image Mem.backend "u2" registry_down).1
    = Returned (server_error "Erro ao buscar imagem de perfil" connection_refused).
Proof.
  split; [reflexivity|].
  destruct (profile_image_single_lookup Mem.backend "u2" registry_down
              (Failure connection_refused) (Mem.consume (remote registry_down)) eq_refl)
    as (Htrace & _ & _ & Hout).
  split; [exact Htrace|]. apply Hout; [reflexivity | discriminate].
Defined.

(** The picture is stored, the lookup of the user fails: 500, the
    picture stays, no user is written. *)
Lemma upload_profile_lookup_failure_witness :
  let w := start_with [None; Some connection_refused] in
  code connection_refused <> Some "PGRST116" /\
  (post_upload_profile Mem.backend portrait w).1 =
    Returned (server_error "Erro ao fazer upload da imagem de perfil" connection_refused) /\
  Mem.users (remote (post_upload_profile Mem.backend portrait w).2) = [] /\
  Mem.objects (remote (post_upload_profile Mem.backend portrait w).2)
    !! ("profiles", "profile_u1.jpg") = Some "JPEG" /\
  fs (post_upload_profile Mem.backend portrait w).2 !! path dog = None.
Proof.
  intros w.
  assert (code connection_refused <> Some "PGRST116") as Hcode by discriminate.
  split; [exact Hcode|].
  assert ("u1" <> "") as Hne by discriminate.
  destruct (upload_profile_lookup_failure Mem.backend portrait dog "u1" "JPEG" w _
              connection_refused _ eq_refl eq_refl Hne eq_refl eq_refl eq_refl Hcode)
    as (Hout & _ & Hremote & Hfs).
  split; [exact Hout|]. split; [by rewrite Hremote|].
  split; [by rewrite Hremote | by rewrite Hfs].
Defined.

(** The image "2" is deleted; deleting it again is answered 404. *)
Lemma delete_twice_is_not_found_witness :
  let run := delete_image Mem.backend "2" gallery in
  (exists resp, run.1 = Returned resp /\ status resp = 200%N) /\
  (delete_image Mem.backend "2" run.2).1 =
    Returned {| status := 404; body := JObj [("error", JStr "Imagem não encontrada")] |}.
Proof.
  intros run. evaluate run Hrun.
  split; [rewrite Hrun; eexists; split; reflexivity|].
  apply (delete_twice_is_not_found "2" gallery run.2 _ Hrun eq_refl run.2 eq_refl).
  intros e. vm_compute. discriminate.
Defined.

(** The object of the image "2" is removed, the deletion of its record
    fails: 500, and the record stays without object. *)
Lemma delete_failure_leaves_record_witness :
  let w := gallery_with [None; None; Some connection_refused] in
  (delete_image Mem.backend "2" w).1 =
    Returned (server_error "Erro ao excluir imagem" connection_refused) /\
  Mem.images (remote (delete_image Mem.backend "2" w).2) = [linked; kept; lost] /\
  Mem.objects (remote (delete_image Mem.backend "2" w).2)
    !! ("imagens", "images/1_a.png") = None.
Proof.
  intros w.
  destruct (delete_failure_leaves_record "2" w "images/1_a.png" _ _ connection_refused _
              eq_refl eq_refl eq_refl)
    as (Hout & Himages & Hobject & _).
  split; [exact Hout|]. split; [exact Himages | exact Hobject].
Defined.

(** The photo is uploaded and then listed, under the identifier "1",
    with a signed URL, a null latitude and the longitude 12. *)
Lemma upload_then_list_witness :
  let run := post_upload Mem.backend photo start in
  Mem.faults (remote start) = [] /\
  exists resp views view key,
    run.1 = Returned resp /\ status resp = 200%N /\
    (get_images Mem.backend run.2).1
      = Returned {| status := 200; body := JArr views |} /\
    view ∈ views /\
    field "id" view = field "imageId" (body resp) /\
    field "url" view = Some (JStr (Mem.signed_url "imagens" key 3600)) /\
    field "imageUrl" (body resp) = Some (JStr (getPublicUrl "imagens" key)) /\
    field "user_id" view = Some (JStr "u1") /\
    field "latitude" view = Some JNull /\
    field "longitude" view = Some (JNum (Node.parseFloat "12")).
Proof.
  intros run. split; [reflexivity|]. evaluate run Hrun.
  destruct (upload_then_list photo start run.2 _ eq_refl Hrun eq_refl)
    as (views & view & key & Hlist & Hview & Hid & Hurl & Hpublic & Huser & _ & Hlat & Hlon).
  eexists _, views, view, key.
  split; [by rewrite Hrun|]. split; [reflexivity|].
  split; [exact Hlist|]. split; [exact Hview|]. split; [exact Hid|].
  split; [exact Hurl|]. split; [exact Hpublic|]. split; [exact Huser|].
  split; [exact Hlat | exact Hlon].
Defined.

(** The photo is uploaded and deleted again: the table is empty as
    before and the object is gone. *)
Lemma upload_then_delete_witness :
  let run := post_upload Mem.backend photo start in
  identified (remote start) /\
  exists resp id key,
    run.1 = Returned resp /\ status resp = 200%N /\
    field "imageId" (body resp) = Some (JStr id) /\
    field "imageUrl" (body resp) = Some (JStr (getPublicUrl "imagens" key)) /\
    (delete_image Mem.backend id run.2).1 =
      Returned {| status := 200; body := JObj [("success", JBool true)] |} /\
    Mem.images (remote (delete_image Mem.backend id run.2).2) = [] /\
    Mem.objects (remote (delete_image Mem.backend id run.2).2) !! ("imagens", key) = None.
Proof.
  intros run.
  assert (identified (remote start)) as Hidentified by (split; constructor).
  split; [exact Hidentified|]. evaluate run Hrun.
  destruct (upload_then_delete photo start run.2 _ eq_refl Hidentified Hrun eq_refl)
    as (id & key & Hid & Hurl & Hout & Himages & Hobject).
  eexists _, id, key.
  split; [by rewrite Hrun|]. split; [reflexivity|].
  split; [exact Hid|]. split; [exact Hurl|]. split; [exact Hout|].
  split; [exact Himages | exact Hobject].
Defined.

(** The picture of "u1" leaves the record of "u2" as it is. *)
Lemma upload_profile_leaves_other_users_witness :
  user_id portrait <> Some "u2" /\
  records_of "u2" (remote (post_upload_profile Mem.backend portrait members).2)
    = [bare_user].
Proof.
  assert (user_id portrait <> Some "u2") as Hother by discriminate.
  split; [exact Hother|].
  exact (proj1 (upload_profile_leaves_other_users portrait members "u2" Hother)).
Defined.

(** The key of the photo is taken: 500, and the old object stays. *)
Lemma upload_collision_witness :
  Mem.objects (remote taken) !! ("imagens", storage_key (Mem.clock (remote taken)) cat)
    = Some "OLD" /\
  (post_upload Mem.backend photo taken).1
    = Returned (server_error "Erro ao fazer upload da imagem" Mem.already_exists) /\
  Mem.objects (remote (post_upload Mem.backend photo taken).2)
    !! ("imagens", "images/1700000000000_cat.png") = Some "OLD".
Proof.
  assert (Mem.objects (remote taken)
            !! ("imagens", storage_key (Mem.clock (remote taken)) cat) = Some "OLD")
    as Htaken by (vm_compute; reflexivity).
  split; [exact Htaken|].
  destruct (upload_collision photo cat "PNG" "OLD" taken eq_refl eq_refl eq_refl eq_refl
              Htaken)
    as (Hout & Hobject & _).
  split; [exact Hout | exact Hobject].
Defined.

(** Two records for "u1": a new picture adds a third, and the picture
    of "u1" is not found. *)
Lemma duplicate_records_grow_witness :
  let w' := (post_upload_profile Mem.backend portrait doubled).2 in
  records_of "u1" (remote doubled) = [twin "1"; twin "2"] /\
  (exists record, records_of "u1" (remote w') = [twin "1"; twin "2"; record]) /\
  (get_profile_image Mem.backend "u1" w').1 =
    Returned {| status := 404; body := JObj [("error", JStr "Usuário não encontrado")] |}.
Proof.
  intros w'. split; [reflexivity|].
  assert ("u1" <> "") as Hne by discriminate.
  destruct (duplicate_records_grow portrait dog "u1" "JPEG" doubled (twin "1") (twin "2") []
              eq_refl eq_refl Hne eq_refl eq_refl eq_refl)
    as (_ & Hgrown & Hout).
  split; [exact Hgrown | exact Hout].
Defined.

End Incidents.
